(** * Study notes backend: the views of [backend/notes/views.py]

    A shallow embedding of the request handlers of the notes application
    and the properties of the note generation lifecycle, of the analytics
    recording and of the access rules.

    The handlers are written in a small program monad [Prog] whose
    operations are the effects the Python code has: reading and writing
    the data store (every ORM call is committed at once, there is no
    transaction around a request), raising and catching exceptions,
    calling the AI service and reading the clock.  [exec] runs a program
    against a store and an environment and records every call of the AI
    service together with the store as it was when the call was made. *)

From Stdlib Require Import ZArith PrimFloat FloatOps SpecFloat FloatAxioms DecimalString.
From stdpp Require Import gmap strings list fin_maps pretty.

Set Warnings "-register-all".

Open Scope string_scope.
Open Scope Z_scope.

(** ** Python values of a parsed request body *)

Module Py.

(** The values [request.data] can hold after parsing (JSON or form data). *)
Inductive value : Type :=
| None_
| Bool (b : bool)
| Int (z : Z)
| Float (f : float)
| Str (s : string)
| List (l : list value)
| Dict (d : list (string * value)).

(** Truth value of an object, as [not x] and [if x] use it. *)
Definition truthy (v : value) : bool :=
  match v with
  | None_ => false
  | Bool b => b
  | Int z => negb (z =? 0)
  | Float f => negb (PrimFloat.eqb f 0%float)
  | Str s => negb (String.eqb s EmptyString)
  | List l => match l with [] => false | _ => true end
  | Dict d => match d with [] => false | _ => true end
  end.

Definition type_name (v : value) : string :=
  match v with
  | None_ => "NoneType"
  | Bool _ => "bool"
  | Int _ => "int"
  | Float _ => "float"
  | Str _ => "str"
  | List _ => "list"
  | Dict _ => "dict"
  end.

(** The float nearest to a small integer literal (exact for the
    literals the views compare with). *)
Definition float_of_Z (z : Z) : float :=
  SF2Prim (binary_normalize prec emax z 0 false).

(** [int <= v] for an [int] literal on the left: [Some b] when the
    comparison is defined, [None] when Python raises [TypeError]. *)
Definition int_le (n : Z) (v : value) : option bool :=
  match v with
  | Bool b => Some (n <=? (if b then 1 else 0))
  | Int z => Some (n <=? z)
  | Float f => Some (PrimFloat.leb (float_of_Z n) f)
  | _ => None
  end.

(** [v <= int] for an [int] literal on the right. *)
Definition le_int (v : value) (n : Z) : option bool :=
  match v with
  | Bool b => Some ((if b then 1 else 0) <=? n)
  | Int z => Some (z <=? n)
  | Float f => Some (PrimFloat.leb f (float_of_Z n))
  | _ => None
  end.

(** [int(f)]: truncation toward zero; [None] for infinities and NaN. *)
Definition trunc (f : float) : option Z :=
  match Prim2SF f with
  | S754_zero _ => Some 0
  | S754_finite s m e =>
      let a := if 0 <=? e then Z.pos m * 2 ^ e else Z.pos m / 2 ^ (- e) in
      Some (if s then - a else a)
  | _ => None
  end.

End Py.

(** ** Exceptions *)

(** The classes of what Python can raise.  The last four derive from
    [BaseException] without deriving from [Exception]; every other
    class here derives from [Exception], [OtherException] standing for
    the subclasses of it that are not named. *)
Inductive ExnClass : Type :=
| DoesNotExist (model : string)
| MultipleObjectsReturned (model : string)
| TypeError
| ValueError
| Http404
| NotAuthenticated
| MethodNotAllowed
| ValidationError
| OtherException (name : string)
| KeyboardInterrupt
| SystemExit
| GeneratorExit
| CancelledError.

(** [issubclass(c, Exception)]. *)
Definition is_exception (c : ExnClass) : bool :=
  match c with
  | KeyboardInterrupt | SystemExit | GeneratorExit | CancelledError => false
  | _ => true
  end.

(** An exception object: its class and [str(e)]. *)
Record PyExn : Type := mkExn { exn_class : ExnClass; exn_str : string }.

#[global] Instance ExnClass_eq_dec : EqDecision ExnClass.
Proof. solve_decision. Defined.

(** ** Records of the data store *)

(** A model instance: the primary key and the column values. *)
Record Instance (R : Type) : Type := mkInstance { pk : Z; row : R }.
Arguments mkInstance {R} pk row.
Arguments pk {R} _.
Arguments row {R} _.

Definition Time := Z.

Record Subject : Type := mkSubject { subject_name : string }.

(** The timestamps of the models are left out: the views do not read
    them.  Saving a topic may renew the time of its last update; what is
    stated of the columns of a topic is stated of the columns kept
    here. *)
Record StudyTopic : Type := mkStudyTopic {
  topic_user : Z;
  title : string;
  description : string;
  subject : Z;
  difficulty : string;
  status : string
}.

Record StudyNote : Type := mkStudyNote {
  note_topic : Z;
  content : string;
  summary : string;
  key_points : list string;
  references : list string;
  word_count : Z;
  reading_time_minutes : Z;
  ai_model_used : string;
  generation_time_seconds : float
}.

Record NoteAnalytics : Type := mkNoteAnalytics {
  analytics_note : Z;
  views_count : Z;
  last_viewed : option Time;
  user_rating : option Z
}.

Record UserPreference : Type := mkUserPreference {
  preference_user : Z;
  preference_fields : list (string * string)
}.

(** [topic.status = s] on an instance in memory. *)
Definition set_status (s : string) (t : Instance StudyTopic) : Instance StudyTopic :=
  mkInstance (pk t)
    (mkStudyTopic (topic_user (row t)) (title (row t)) (description (row t))
       (subject (row t)) (difficulty (row t)) s).

(** The tables, each keyed by primary key. *)
Record DB : Type := mkDB {
  subjects : gmap Z Subject;
  topics : gmap Z StudyTopic;
  notes : gmap Z StudyNote;
  analytics : gmap Z NoteAnalytics;
  preferences : gmap Z UserPreference
}.

Definition with_topics (f : gmap Z StudyTopic → gmap Z StudyTopic) (db : DB) : DB :=
  mkDB (subjects db) (f (topics db)) (notes db) (analytics db) (preferences db).
Definition with_notes (f : gmap Z StudyNote → gmap Z StudyNote) (db : DB) : DB :=
  mkDB (subjects db) (topics db) (f (notes db)) (analytics db) (preferences db).
Definition with_analytics (f : gmap Z NoteAnalytics → gmap Z NoteAnalytics) (db : DB) : DB :=
  mkDB (subjects db) (topics db) (notes db) (f (analytics db)) (preferences db).
Definition with_preferences (f : gmap Z UserPreference → gmap Z UserPreference) (db : DB) : DB :=
  mkDB (subjects db) (topics db) (notes db) (analytics db) (f (preferences db)).

(** ** The AI service *)

(** Modelled from the spec: [ai_service] is not among the sources.  The
    dictionary [AIService.generate_study_notes] returns has the eight
    entries the views read; the service itself is the [ai] of the
    environment below, and it may raise instead, an exception of any
    class. *)
Record GenResult : Type := mkGenResult {
  r_content : string;
  r_summary : string;
  r_key_points : list string;
  r_references : list string;
  r_word_count : Z;
  r_reading_time_minutes : Z;
  r_ai_model_used : string;
  r_generation_time_seconds : float
}.

(** ** Programs *)

Inductive Prog (A : Type) : Type :=
| Ret (a : A)
| Raise (e : PyExn)
| Read (k : DB → Prog A)
| Commit (f : DB → DB) (k : Prog A)
| Generate (t : Instance StudyTopic) (p : option (Instance UserPreference))
    (k : PyExn + GenResult → Prog A)
| Now (k : Time → Prog A).
Arguments Ret {A} a.
Arguments Raise {A} e.
Arguments Read {A} k.
Arguments Commit {A} f k.
Arguments Generate {A} t p k.
Arguments Now {A} k.

(** [try: m  except <h>: ...  else: k]: the handler [h] answers [Some]
    for the exception classes its [except] clause names.  An exception
    raised by the handler or by [k] is not caught. *)
Fixpoint try_else {A B} (m : Prog A) (h : PyExn → option (Prog B)) (k : A → Prog B) : Prog B :=
  match m with
  | Ret a => k a
  | Raise e => match h e with Some r => r | None => Raise e end
  | Read f => Read (λ db, try_else (f db) h k)
  | Commit f m' => Commit f (try_else m' h k)
  | Generate t p f => Generate t p (λ o, try_else (f o) h k)
  | Now f => Now (λ t, try_else (f t) h k)
  end.

#[global] Instance Prog_ret : MRet Prog := @Ret.
#[global] Instance Prog_bind : MBind Prog := λ A B k m, try_else m (λ _, None) k.

Definition try_except {A} (m : Prog A) (h : PyExn → option (Prog A)) : Prog A :=
  try_else m h Ret.

(** [except Exception as e]: what is raised is caught when its class
    derives from [Exception]; a [KeyboardInterrupt], a [SystemExit] and
    the like pass through. *)
Definition except_Exception {A} (h : PyExn → Prog A) : PyExn → option (Prog A) :=
  λ e, if is_exception (exn_class e) then Some (h e) else None.

(** [except Model.DoesNotExist]. *)
Definition except_DoesNotExist {A} (model : string) (h : Prog A) : PyExn → option (Prog A) :=
  λ e, if decide (exn_class e = DoesNotExist model) then Some h else None.

(** ** Running a program *)

(** What the environment answers: the AI service for each call and the
    clock. *)
Record World : Type := mkWorld {
  ai : Instance StudyTopic → option (Instance UserPreference) → PyExn + GenResult;
  clock : Time
}.

(** One call of the AI service, with the store as committed at the call. *)
Record Call : Type := mkCall {
  call_topic : Instance StudyTopic;
  call_preferences : option (Instance UserPreference);
  call_db : DB
}.

Record Run (A : Type) : Type := mkRun {
  calls : list Call;
  final : DB;
  outcome : PyExn + A
}.
Arguments mkRun {A} calls final outcome.
Arguments calls {A} _.
Arguments final {A} _.
Arguments outcome {A} _.

Fixpoint exec {A} (w : World) (m : Prog A) (db : DB) : Run A :=
  match m with
  | Ret a => mkRun [] db (inr a)
  | Raise e => mkRun [] db (inl e)
  | Read k => exec w (k db) db
  | Commit f k => exec w k (f db)
  | Generate t p k =>
      let r := exec w (k (ai w t p)) db in
      mkRun (mkCall t p db :: calls r) (final r) (outcome r)
  | Now k => exec w (k (clock w)) db
  end.


(** ** The object-relational mapper *)

(** [Model.objects.filter(...)]: the rows of a table that satisfy a
    condition on key and columns. *)
Definition select {R} (P : Z → R → bool) (tbl : gmap Z R) : list (Instance R) :=
  (λ kv, mkInstance kv.1 kv.2) <$> map_to_list (filter (λ kv, P kv.1 kv.2) tbl).

Definition does_not_exist (model : string) : PyExn :=
  mkExn (DoesNotExist model) (model +:+ " matching query does not exist.").

Definition multiple_objects (model : string) (n : nat) : PyExn :=
  mkExn (MultipleObjectsReturned model)
    ("get() returned more than one " +:+ model +:+ " -- it returned " +:+
     (if (n <? 21)%nat then pretty n else "more than 20") +:+ "!").

(** A query set is lazy: it is evaluated against the store when used. *)
Definition QuerySet (R : Type) : Type := DB → list (Instance R).

(** [Model.objects.filter(...)]; the condition may follow a foreign key
    into another table. *)
Definition objects_filter {R} (tbl : DB → gmap Z R) (P : DB → Z → R → bool) : QuerySet R :=
  λ db, select (P db) (tbl db).

(** [Model.objects.all()]. *)
Definition objects_all {R} (tbl : DB → gmap Z R) : QuerySet R :=
  objects_filter tbl (λ _ _ _, true).

(** [queryset.filter(...)] on a query set. *)
Definition qs_filter {R} (P : Instance R → bool) (qs : QuerySet R) : QuerySet R :=
  λ db, filter (λ x, P x) (qs db).

(** [queryset.count()]. *)
Definition qs_count {R} (qs : QuerySet R) : Prog nat :=
  Read (λ db, Ret (length (qs db))).

(** [queryset.get()]. *)
Definition qs_get {R} (model : string) (qs : QuerySet R) : Prog (Instance R) :=
  Read (λ db,
    match qs db with
    | [] => Raise (does_not_exist model)
    | [x] => Ret x
    | l => Raise (multiple_objects model (length l))
    end).

(** [Model.objects.create(...)]: the store chooses an unused key. *)
Definition objects_create {R} (tbl : DB → gmap Z R)
    (upd : (gmap Z R → gmap Z R) → DB → DB) (r : R) : Prog (Instance R) :=
  Read (λ db,
    let id := fresh (dom (tbl db)) in
    Commit (upd <[id := r]>) (Ret (mkInstance id r))).

(** [instance.save()]. *)
Definition save {R} (upd : (gmap Z R → gmap Z R) → DB → DB) (x : Instance R) : Prog unit :=
  Commit (upd <[pk x := row x]>) (Ret tt).

(** Modelled from the spec: [models.py] is not among the sources.  The
    spec says that deleting a StudyNote cascades to its NoteAnalytics. *)
Definition delete_note (nid : Z) (db : DB) : DB :=
  with_notes (delete nid)
    (with_analytics (filter (λ kv, analytics_note kv.2 ≠ nid)) db).

(** [note.delete()]. *)
Definition StudyNote_delete (n : Instance StudyNote) : Prog unit :=
  Commit (delete_note (pk n)) (Ret tt).

(** Modelled from the spec: [models.py] is not among the sources.  A new
    NoteAnalytics row has no view, no view time and no rating. *)
Definition new_analytics (note : Instance StudyNote) : NoteAnalytics :=
  mkNoteAnalytics (pk note) 0 None None.

(** The rows that reference a topic, a note, a user. *)
Definition notes_of_topic (tid : Z) : QuerySet StudyNote :=
  objects_filter notes (λ _ _ n, note_topic n =? tid).
Definition analytics_of_note (nid : Z) : QuerySet NoteAnalytics :=
  objects_filter analytics (λ _ _ a, analytics_note a =? nid).

(** [topic.study_note], the reverse side of the one-to-one field: a
    query for the note of the topic. *)
Definition study_note (topic : Instance StudyTopic) : Prog (Instance StudyNote) :=
  qs_get "StudyNote" (notes_of_topic (pk topic)).

(** [hasattr(topic, 'study_note')]: false when the query raises the
    [DoesNotExist] of the relation (which is an [AttributeError]); any
    other exception goes through.  On success the note is cached on the
    topic, and is the answer here. *)
Definition hasattr_study_note (topic : Instance StudyTopic)
  : Prog (option (Instance StudyNote)) :=
  try_else (study_note topic)
    (except_DoesNotExist "StudyNote" (Ret None))
    (λ n, Ret (Some n)).

(** [NoteAnalytics.objects.get_or_create(note=note)]. *)
Definition NoteAnalytics_get_or_create (note : Instance StudyNote)
  : Prog (Instance NoteAnalytics * bool) :=
  try_else (qs_get "NoteAnalytics" (analytics_of_note (pk note)))
    (except_DoesNotExist "NoteAnalytics"
       (a ← objects_create analytics with_analytics (new_analytics note); Ret (a, true)))
    (λ a, Ret (a, false)).

(** ** Requests and responses *)

Inductive RequestUser : Type :=
| AnonymousUser
| User (id : Z).

Record Request : Type := mkRequest {
  user : RequestUser;
  data : gmap string Py.value
}.

(** The condition [user=request.user] of a query.  The views are only
    entered with an authenticated user; an anonymous one owns nothing. *)
Definition is_user (u : RequestUser) (owner : Z) : bool :=
  match u with
  | User id => id =? owner
  | AnonymousUser => false
  end.

(** [request.data.get(key)]. *)
Definition data_get (request : Request) (key : string) : Py.value :=
  default Py.None_ (data request !! key).

(** Topic counts of [topic_analytics]. *)
Record TopicCounts : Type := mkTopicCounts {
  total_topics : nat;
  completed_topics : nat;
  pending_topics : nat;
  processing_topics : nat;
  failed_topics : nat;
  beginner : nat;
  intermediate : nat;
  advanced : nat
}.

(** Response bodies.  A serialized instance is the instance. *)
Inductive Payload : Type :=
| PError (error : string)
| PMessage (message : string)
| PMessageNote (message : string) (note : Instance StudyNote)
| PSubjects (l : list (Instance Subject))
| PTopics (l : list (Instance StudyTopic))
| PTopic (t : Instance StudyTopic)
| PNotes (l : list (Instance StudyNote))
| PNote (n : Instance StudyNote)
| PPreference (p : Instance UserPreference)
| PCounts (c : TopicCounts)
| PDetail (detail : string)
| PInvalid (errors : string)
| PMetadata
| PEmpty.

Record Response : Type := mkResponse { body : Payload; status_code : Z }.

Definition HTTP_200_OK := 200.
Definition HTTP_201_CREATED := 201.
Definition HTTP_204_NO_CONTENT := 204.
Definition HTTP_400_BAD_REQUEST := 400.
Definition HTTP_401_UNAUTHORIZED := 401.
Definition HTTP_403_FORBIDDEN := 403.
Definition HTTP_404_NOT_FOUND := 404.
Definition HTTP_405_METHOD_NOT_ALLOWED := 405.
Definition HTTP_500_INTERNAL_SERVER_ERROR := 500.

(** ** The function views *)

(** [ai_service.generate_study_notes(topic, user_preferences)]. *)
Definition generate_study_notes (topic : Instance StudyTopic)
    (user_preferences : option (Instance UserPreference)) : Prog GenResult :=
  Generate topic user_preferences
    (λ o, match o with inl e => Raise e | inr result => Ret result end).

(** [UserPreference.objects.get(user=request.user)], [None] when there
    is no row. *)
Definition get_user_preferences (request : Request)
  : Prog (option (Instance UserPreference)) :=
  try_else
    (qs_get "UserPreference"
       (objects_filter preferences (λ _ _ p, is_user (user request) (preference_user p))))
    (except_DoesNotExist "UserPreference" (Ret None))
    (λ p, Ret (Some p)).

(** [StudyTopic.objects.get(id=topic_id, user=request.user)]. *)
Definition get_topic (request : Request) (topic_id : Z) : Prog (Instance StudyTopic) :=
  qs_get "StudyTopic"
    (objects_filter topics
       (λ _ id t, (id =? topic_id) && is_user (user request) (topic_user t))).

(** The note built from the generator's result. *)
Definition note_of_result (topic : Instance StudyTopic) (result : GenResult) : StudyNote :=
  mkStudyNote (pk topic) (r_content result) (r_summary result) (r_key_points result)
    (r_references result) (r_word_count result) (r_reading_time_minutes result)
    (r_ai_model_used result) (r_generation_time_seconds result).

Definition generate_notes (request : Request) (topic_id : Z) : Prog Response :=
  try_else (get_topic request topic_id)
    (except_DoesNotExist "StudyTopic"
       (Ret (mkResponse (PError "Topic not found") HTTP_404_NOT_FOUND)))
    (λ topic,
      existing ← hasattr_study_note topic;
      if existing is Some _ then
        Ret (mkResponse (PError "Notes already exist for this topic") HTTP_400_BAD_REQUEST)
      else
        try_except
          (user_preferences ← get_user_preferences request;
           let topic := set_status "processing" topic in
           save with_topics topic;;
           result ← generate_study_notes topic user_preferences;
           study_note ← objects_create notes with_notes (note_of_result topic result);
           objects_create analytics with_analytics (new_analytics study_note);;
           let topic := set_status "completed" topic in
           save with_topics topic;;
           Ret (mkResponse (PMessageNote "Study notes generated successfully" study_note)
                  HTTP_201_CREATED))
          (except_Exception (λ e,
             let topic := set_status "failed" topic in
             save with_topics topic;;
             Ret (mkResponse (PError ("Failed to generate notes: " +:+ exn_str e))
                    HTTP_500_INTERNAL_SERVER_ERROR)))).

Definition regenerate_notes (request : Request) (topic_id : Z) : Prog Response :=
  try_else (get_topic request topic_id)
    (except_DoesNotExist "StudyTopic"
       (Ret (mkResponse (PError "Topic not found") HTTP_404_NOT_FOUND)))
    (λ topic,
      try_except
        (existing ← hasattr_study_note topic;
         (if existing is Some old then StudyNote_delete old else Ret tt);;
         let topic := set_status "processing" topic in
         save with_topics topic;;
         user_preferences ← get_user_preferences request;
         result ← generate_study_notes topic user_preferences;
         study_note ← objects_create notes with_notes (note_of_result topic result);
         objects_create analytics with_analytics (new_analytics study_note);;
         let topic := set_status "completed" topic in
         save with_topics topic;;
         Ret (mkResponse (PMessageNote "Study notes regenerated successfully" study_note)
                HTTP_201_CREATED))
        (except_Exception (λ e,
           let topic := set_status "failed" topic in
           save with_topics topic;;
           Ret (mkResponse (PError ("Failed to regenerate notes: " +:+ exn_str e))
                  HTTP_500_INTERNAL_SERVER_ERROR)))).

(** The condition [topic__user=request.user] on a note: the owner of
    the topic the note belongs to. *)
Definition topic__user (db : DB) (u : RequestUser) (n : StudyNote) : bool :=
  match topics db !! note_topic n with
  | Some t => is_user u (topic_user t)
  | None => false
  end.

(** [StudyNote.objects.get(id=note_id, topic__user=request.user)]. *)
Definition get_note (request : Request) (note_id : Z) : Prog (Instance StudyNote) :=
  qs_get "StudyNote"
    (objects_filter notes
       (λ db id n, (id =? note_id) && topic__user db (user request) n)).

(** [1 <= v] and [v <= 5] as Python evaluates them. *)
Definition py_int_le (n : Z) (v : Py.value) : Prog bool :=
  match Py.int_le n v with
  | Some b => Ret b
  | None =>
      Raise (mkExn TypeError
        ("'<=' not supported between instances of 'int' and '" +:+ Py.type_name v +:+ "'"))
  end.
Definition py_le_int (v : Py.value) (n : Z) : Prog bool :=
  match Py.le_int v n with
  | Some b => Ret b
  | None =>
      Raise (mkExn TypeError
        ("'<=' not supported between instances of '" +:+ Py.type_name v +:+ "' and 'int'"))
  end.

(** The chained comparison [lo <= v <= hi]: the second comparison is
    evaluated only when the first holds. *)
Definition py_between (lo : Z) (v : Py.value) (hi : Z) : Prog bool :=
  b ← py_int_le lo v;
  if (b : bool) then py_le_int v hi else Ret false.

(** Modelled from the spec: [models.py] is not among the sources.
    [user_rating] is a nullable integer column, so saving converts the
    attribute with [int(value)] ([None] stays null).  Only booleans,
    integers and floats can reach the column from [rate_note]. *)
Definition user_rating_column (v : Py.value) : Prog (option Z) :=
  let bad :=
    mkExn TypeError "Field 'user_rating' expected a number but got a value of another type." in
  match v with
  | Py.None_ => Ret None
  | Py.Bool b => Ret (Some (if b then 1 else 0))
  | Py.Int z => Ret (Some z)
  | Py.Float f =>
      match Py.trunc f with
      | Some z => Ret (Some z)
      | None => Raise (mkExn ValueError "Field 'user_rating' expected a number but got a float that is not finite.")
      end
  | Py.Str s =>
      match NilZero.int_of_string s with
      | Some d => Ret (Some (Z.of_int d))
      | None => Raise (mkExn ValueError "Field 'user_rating' expected a number but got a string.")
      end
  | Py.List _ | Py.Dict _ => Raise bad
  end.

Definition rate_note (request : Request) (note_id : Z) : Prog Response :=
  try_else (get_note request note_id)
    (except_DoesNotExist "StudyNote"
       (Ret (mkResponse (PError "Note not found") HTTP_404_NOT_FOUND)))
    (λ note,
      let rating := data_get request "rating" in
      invalid ←
        (if negb (Py.truthy rating) then Ret true
         else in_range ← py_between 1 rating 5; Ret (negb in_range));
      if (invalid : bool) then
        Ret (mkResponse (PError "Rating must be between 1 and 5") HTTP_400_BAD_REQUEST)
      else
        ac ← NoteAnalytics_get_or_create note;
        let analytics_ := ac.1 in
        stored ← user_rating_column rating;
        save with_analytics
          (mkInstance (pk analytics_)
             (mkNoteAnalytics (analytics_note (row analytics_)) (views_count (row analytics_))
                (last_viewed (row analytics_)) stored));;
        Ret (mkResponse (PMessage "Rating saved successfully") HTTP_200_OK)).

(** [StudyTopic.objects.filter(user=request.user)]. *)
Definition topics_of_user (request : Request) : QuerySet StudyTopic :=
  objects_filter topics (λ _ _ t, is_user (user request) (topic_user t)).

(** [StudyNote.objects.filter(topic__user=request.user)]. *)
Definition notes_of_user (request : Request) : QuerySet StudyNote :=
  objects_filter notes (λ db _ n, topic__user db (user request) n).

Definition topic_analytics (request : Request) : Prog Response :=
  let topics_ := topics_of_user request in
  let by_status s := qs_count (qs_filter (λ t, String.eqb (status (row t)) s) topics_) in
  let by_difficulty d := qs_count (qs_filter (λ t, String.eqb (difficulty (row t)) d) topics_) in
  total ← qs_count topics_;
  completed ← by_status "completed";
  pending ← by_status "pending";
  processing ← by_status "processing";
  failed ← by_status "failed";
  beginner_ ← by_difficulty "beginner";
  intermediate_ ← by_difficulty "intermediate";
  advanced_ ← by_difficulty "advanced";
  Ret (mkResponse
         (PCounts (mkTopicCounts total completed pending processing failed
                     beginner_ intermediate_ advanced_))
         HTTP_200_OK).

(** ** The framework: permissions, generic views, dispatch *)

Inductive Permission : Type :=
| IsAuthenticated.

Definition has_permission (p : Permission) (request : Request) : bool :=
  match p, user request with
  | IsAuthenticated, User _ => true
  | IsAuthenticated, AnonymousUser => false
  end.

Definition not_authenticated : PyExn :=
  mkExn NotAuthenticated "Authentication credentials were not provided.".

(** [APIView.check_permissions]. *)
Definition check_permissions (permission_classes : list Permission) (request : Request)
  : Prog unit :=
  if forallb (λ p, has_permission p request) permission_classes then Ret tt
  else Raise not_authenticated.

(** [GenericAPIView.get_object]: the row of the view's query set with
    the key of the URL, [Http404] when there is none. *)
Definition get_object {R} (model : string) (queryset : QuerySet R) (key : Z)
  : Prog (Instance R) :=
  try_except (qs_get model (qs_filter (λ x, pk x =? key) queryset))
    (except_DoesNotExist model
       (Raise (mkExn Http404 ("No " +:+ model +:+ " matches the given query.")))).

(** The methods of a request; those are the ones Django's views know
    of. *)
Inductive Method : Type := GET | POST | PUT | PATCH | DELETE | HEAD | OPTIONS | TRACE.

#[global] Instance Method_eq_dec : EqDecision Method.
Proof. solve_decision. Defined.

(** [View.http_method_names] as a class-based view inherits it. *)
Definition django_method_names : list Method :=
  [GET; POST; PUT; PATCH; DELETE; HEAD; OPTIONS; TRACE].

(** A view: its permission classes, the method names it allows, the
    handler it defines for a method of its own ([get], [post], ...), and
    [get_object] where the view is a generic one that answers PUT (the
    framework's metadata of the view calls it). *)
Record View : Type := mkView {
  permission_classes : list Permission;
  http_method_names : list Method;
  handler : Method → option (Request → Prog Response);
  metadata_object : option (Request → Prog unit)
}.

(** Modelled from the spec: [urls.py] is not among the sources.  The
    routes are those of the spec's list of the HTTP surface. *)
Inductive Endpoint : Type :=
| Subjects
| Topics
| TopicDetail (id : Z)
| Notes
| NoteDetail (id : Z)
| Preferences
| TopicGenerate (id : Z)
| TopicRegenerate (id : Z)
| NoteRate (id : Z)
| TopicsAnalytics.

(** Modelled from the spec: [models.py] is not among the sources.  A
    note belongs to exactly one topic, so deleting the topic deletes its
    note and the note's analytics. *)
Definition delete_topic (tid : Z) (db : DB) : DB :=
  with_topics (delete tid)
    (foldr (λ n, delete_note (pk n)) db (notes_of_topic tid db)).

(** What the framework's version and the settings decide of the
    rendering of exceptions; [settings.py] is not among the sources.
    [authenticate_header] is the challenge of the first authentication
    class, if it has one (401 with it, 403 without); [not_found_detail]
    is the text shown for an [Http404]; [metadata] tells whether
    [DEFAULT_METADATA_CLASS] is the framework's [SimpleMetadata] (the
    default) or [None]. *)
Record Framework : Type := mkFramework {
  authenticate_header : option string;
  not_found_detail : PyExn → string;
  metadata : bool
}.

(** A text between double quotes. *)
Definition quoted (s : string) : string :=
  let q := String (Ascii.ascii_of_nat 34) EmptyString in
  q +:+ s +:+ q.

Definition method_name (m : Method) : string :=
  match m with
  | GET => "GET"
  | POST => "POST"
  | PUT => "PUT"
  | PATCH => "PATCH"
  | DELETE => "DELETE"
  | HEAD => "HEAD"
  | OPTIONS => "OPTIONS"
  | TRACE => "TRACE"
  end.

Section Views.

(** What the settings and the serializers decide; [settings.py] and
    [serializers.py] are not among the sources.  The filters stand for
    the filter backends and the pagination of the list views, the
    validators for [is_valid] and [save] of the serializers. *)
Context
  (framework : Framework)
  (filter_topics : Request → list (Instance StudyTopic) → list (Instance StudyTopic))
  (filter_notes : Request → list (Instance StudyNote) → list (Instance StudyNote))
  (paginate_subjects : Request → list (Instance Subject) → list (Instance Subject))
  (topic_validate :
     option (Instance StudyTopic) → bool → gmap string Py.value → option StudyTopic)
  (preference_validate :
     Instance UserPreference → bool → gmap string Py.value → option UserPreference)
  (default_preference_fields : list (string * string)).

Definition validation_error : PyExn := mkExn ValidationError "Invalid input.".

(** [SubjectListView]: [queryset = Subject.objects.all()]. *)
Definition SubjectListView_list (request : Request) : Prog Response :=
  Read (λ db,
    Ret (mkResponse (PSubjects (paginate_subjects request (objects_all subjects db)))
           HTTP_200_OK)).

Definition SubjectListView : View :=
  mkView [IsAuthenticated] django_method_names
    (λ m, match m with GET => Some SubjectListView_list | _ => None end)
    None.

(** [StudyTopicListView]. *)
Definition StudyTopicListView_list (request : Request) : Prog Response :=
  Read (λ db,
    Ret (mkResponse (PTopics (filter_topics request (topics_of_user request db)))
           HTTP_200_OK)).

(** [create] with [perform_create]: [serializer.save(user=request.user)]. *)
Definition StudyTopicListView_create (request : Request) : Prog Response :=
  match topic_validate None false (data request) with
  | None => Raise validation_error
  | Some t =>
      match user request with
      | AnonymousUser =>
          Raise (mkExn ValueError "Cannot assign AnonymousUser: StudyTopic.user must be a User instance.")
      | User u =>
          topic ← objects_create topics with_topics
                    (mkStudyTopic u (title t) (description t) (subject t)
                       (difficulty t) (status t));
          Ret (mkResponse (PTopic topic) HTTP_201_CREATED)
      end
  end.

Definition StudyTopicListView : View :=
  mkView [IsAuthenticated] django_method_names
    (λ m, match m with
          | GET => Some StudyTopicListView_list
          | POST => Some StudyTopicListView_create
          | _ => None
          end)
    None.

(** [StudyTopicDetailView]: retrieve, update and destroy on
    [get_queryset]. *)
Definition StudyTopicDetailView_retrieve (key : Z) (request : Request) : Prog Response :=
  instance ← get_object "StudyTopic" (topics_of_user request) key;
  Ret (mkResponse (PTopic instance) HTTP_200_OK).

Definition StudyTopicDetailView_update (partial : bool) (key : Z) (request : Request)
  : Prog Response :=
  instance ← get_object "StudyTopic" (topics_of_user request) key;
  match topic_validate (Some instance) partial (data request) with
  | None => Raise validation_error
  | Some t =>
      let updated := mkInstance (pk instance) t in
      save with_topics updated;;
      Ret (mkResponse (PTopic updated) HTTP_200_OK)
  end.

Definition StudyTopicDetailView_destroy (key : Z) (request : Request) : Prog Response :=
  instance ← get_object "StudyTopic" (topics_of_user request) key;
  Commit (delete_topic (pk instance)) (Ret (mkResponse PEmpty HTTP_204_NO_CONTENT)).

Definition StudyTopicDetailView (key : Z) : View :=
  mkView [IsAuthenticated] django_method_names
    (λ m, match m with
          | GET => Some (StudyTopicDetailView_retrieve key)
          | PUT => Some (StudyTopicDetailView_update false key)
          | PATCH => Some (StudyTopicDetailView_update true key)
          | DELETE => Some (StudyTopicDetailView_destroy key)
          | _ => None
          end)
    (Some (λ request, get_object "StudyTopic" (topics_of_user request) key;; Ret tt)).

(** [StudyNoteListView]. *)
Definition StudyNoteListView_list (request : Request) : Prog Response :=
  Read (λ db,
    Ret (mkResponse (PNotes (filter_notes request (notes_of_user request db)))
           HTTP_200_OK)).

Definition StudyNoteListView : View :=
  mkView [IsAuthenticated] django_method_names
    (λ m, match m with GET => Some StudyNoteListView_list | _ => None end)
    None.

(** [StudyNoteDetailView.retrieve]. *)
Definition StudyNoteDetailView_retrieve (key : Z) (request : Request) : Prog Response :=
  instance ← get_object "StudyNote" (notes_of_user request) key;
  ac ← NoteAnalytics_get_or_create instance;
  let analytics_ := ac.1 in
  Now (λ now,
    save with_analytics
      (mkInstance (pk analytics_)
         (mkNoteAnalytics (analytics_note (row analytics_))
            (views_count (row analytics_) + 1) (Some now)
            (user_rating (row analytics_))));;
    Ret (mkResponse (PNote instance) HTTP_200_OK)).

Definition StudyNoteDetailView (key : Z) : View :=
  mkView [IsAuthenticated] django_method_names
    (λ m, match m with GET => Some (StudyNoteDetailView_retrieve key) | _ => None end)
    None.

(** [UserPreferenceView.get_object]:
    [UserPreference.objects.get_or_create(user=request.user)]. *)
Definition UserPreferenceView_get_object (request : Request)
  : Prog (Instance UserPreference) :=
  try_else
    (qs_get "UserPreference"
       (objects_filter preferences (λ _ _ p, is_user (user request) (preference_user p))))
    (except_DoesNotExist "UserPreference"
       match user request with
       | AnonymousUser =>
           Raise (mkExn TypeError "Field 'id' expected a number but got an AnonymousUser.")
       | User u =>
           objects_create preferences with_preferences
             (mkUserPreference u default_preference_fields)
       end)
    Ret.

Definition UserPreferenceView_retrieve (request : Request) : Prog Response :=
  instance ← UserPreferenceView_get_object request;
  Ret (mkResponse (PPreference instance) HTTP_200_OK).

Definition UserPreferenceView_update (partial : bool) (request : Request) : Prog Response :=
  instance ← UserPreferenceView_get_object request;
  match preference_validate instance partial (data request) with
  | None => Raise validation_error
  | Some p =>
      let updated := mkInstance (pk instance) p in
      save with_preferences updated;;
      Ret (mkResponse (PPreference updated) HTTP_200_OK)
  end.

Definition UserPreferenceView : View :=
  mkView [IsAuthenticated] django_method_names
    (λ m, match m with
          | GET => Some UserPreferenceView_retrieve
          | PUT => Some (UserPreferenceView_update false)
          | PATCH => Some (UserPreferenceView_update true)
          | _ => None
          end)
    (Some (λ request, UserPreferenceView_get_object request;; Ret tt)).

(** [@api_view(['POST'])] and [@permission_classes([IsAuthenticated])]
    on a function: the view allows the methods named and OPTIONS, and
    the function is its handler for each method named. *)
Definition api_view (methods : list Method) (permissions : list Permission)
    (f : Request → Prog Response) : View :=
  mkView permissions (methods ++ [OPTIONS])
    (λ m, if bool_decide (m ∈ methods) then Some f else None)
    None.

Definition route (e : Endpoint) : View :=
  match e with
  | Subjects => SubjectListView
  | Topics => StudyTopicListView
  | TopicDetail id => StudyTopicDetailView id
  | Notes => StudyNoteListView
  | NoteDetail id => StudyNoteDetailView id
  | Preferences => UserPreferenceView
  | TopicGenerate id => api_view [POST] [IsAuthenticated] (λ r, generate_notes r id)
  | TopicRegenerate id => api_view [POST] [IsAuthenticated] (λ r, regenerate_notes r id)
  | NoteRate id => api_view [POST] [IsAuthenticated] (λ r, rate_note r id)
  | TopicsAnalytics => api_view [GET] [IsAuthenticated] topic_analytics
  end.

(** [APIView.handle_exception]: the responses of the exceptions the
    framework renders; any other exception is raised again (the
    server's answer is then its own 500 page). *)
Definition handle_exception (e : PyExn) : option (Prog Response) :=
  match exn_class e with
  | Http404 =>
      Some (Ret (mkResponse (PDetail (not_found_detail framework e)) HTTP_404_NOT_FOUND))
  | NotAuthenticated =>
      Some (Ret (mkResponse (PDetail (exn_str e))
                   (if authenticate_header framework is Some _ then HTTP_401_UNAUTHORIZED
                    else HTTP_403_FORBIDDEN)))
  | ValidationError => Some (Ret (mkResponse (PInvalid (exn_str e)) HTTP_400_BAD_REQUEST))
  | MethodNotAllowed => Some (Ret (mkResponse (PDetail (exn_str e)) HTTP_405_METHOD_NOT_ALLOWED))
  | _ => None
  end.

(** [APIView.http_method_not_allowed]. *)
Definition method_not_allowed (m : Method) : PyExn :=
  mkExn MethodNotAllowed ("Method " +:+ quoted (method_name m) +:+ " not allowed.").

(** The exceptions the metadata passes over when it looks the object of
    a view up: [APIException], [PermissionDenied] and [Http404]. *)
Definition metadata_passes_over (c : ExnClass) : bool :=
  match c with
  | Http404 | NotAuthenticated | MethodNotAllowed | ValidationError => true
  | _ => false
  end.

(** [APIView.options]: the metadata of the view, which shows no record.
    For a generic view that answers PUT the metadata first calls
    [get_object], to tell whether the user may update the object. *)
Definition options (v : View) (request : Request) : Prog Response :=
  if metadata framework then
    match metadata_object v with
    | Some get_object_ =>
        try_except (get_object_ request)
          (λ e, if metadata_passes_over (exn_class e) then Some (Ret tt) else None)
    | None => Ret tt
    end;;
    Ret (mkResponse PMetadata HTTP_200_OK)
  else Raise (method_not_allowed OPTIONS).

(** The handler [APIView.dispatch] finds for a method: the method of
    that name the view has, if the view allows the name.  [options] is
    the framework's, and [head] is [get] ([View.setup]). *)
Definition method_handler (v : View) (m : Method) : option (Request → Prog Response) :=
  if bool_decide (m ∈ http_method_names v) then
    match m with
    | OPTIONS => Some (options v)
    | HEAD => handler v GET
    | _ => handler v m
    end
  else None.

(** [APIView.dispatch]: permissions first, then the handler of the
    method. *)
Definition dispatch (v : View) (m : Method) (request : Request) : Prog Response :=
  try_except
    (check_permissions (permission_classes v) request;;
     match method_handler v m with
     | Some h => h request
     | None => Raise (method_not_allowed m)
     end)
    handle_exception.

Definition serve (e : Endpoint) (m : Method) (request : Request) : Prog Response :=
  dispatch (route e) m request.

End Views.

(** ** Well-formed stores *)

(** A column that references another table's key at most once (the
    unique constraint of a one-to-one field). *)
Definition unique_on {R} (f : R → Z) (tbl : gmap Z R) : Prop :=
  map_Forall (λ i x, map_Forall (λ j y, f x = f y → i = j) tbl) tbl.

#[global] Instance unique_on_dec {R} (f : R → Z) (tbl : gmap Z R) : Decision (unique_on f tbl).
Proof. unfold unique_on. apply _. Defined.

(** The constraints the schema puts on a store: the one-to-one fields
    are unique and the foreign keys point at existing rows. *)
Record db_wf (db : DB) : Prop := mk_db_wf {
  wf_note_topic : unique_on note_topic (notes db);
  wf_analytics_note : unique_on analytics_note (analytics db);
  wf_preference_user : unique_on preference_user (preferences db);
  wf_analytics_fk :
    map_Forall (λ _ a, is_Some (notes db !! analytics_note a)) (analytics db);
  wf_note_fk :
    map_Forall (λ _ n, is_Some (topics db !! note_topic n)) (notes db)
}.

#[global] Instance db_wf_dec (db : DB) : Decision (db_wf db).
Proof.
  refine (cast_if (decide
    (unique_on note_topic (notes db) ∧ unique_on analytics_note (analytics db) ∧
     unique_on preference_user (preferences db) ∧
     map_Forall (λ _ a, is_Some (notes db !! analytics_note a)) (analytics db) ∧
     map_Forall (λ _ n, is_Some (topics db !! note_topic n)) (notes db))));
    [ destruct a as (?&?&?&?&?); by split | intros []; apply n; auto ].
Defined.

(** The topic [topic_id] exists and belongs to the user of the request. *)
Definition owns_topic (request : Request) (db : DB) (topic_id : Z) (t : StudyTopic) : Prop :=
  topics db !! topic_id = Some t ∧ is_user (user request) (topic_user t) = true.

(** The note [note_id] exists and its topic belongs to the user of the
    request. *)
Definition owns_note (request : Request) (db : DB) (note_id : Z) (n : StudyNote) : Prop :=
  notes db !! note_id = Some n ∧ topic__user db (user request) n = true.

(** The status column of a topic in the store. *)
Definition topic_status (db : DB) (topic_id : Z) : option string :=
  status <$> topics db !! topic_id.

(** The preferences row the views pass to the AI service. *)
Definition preferences_of (request : Request) (db : DB) : option (Instance UserPreference) :=
  head (objects_filter preferences (λ _ _ p, is_user (user request) (preference_user p)) db).

(** The columns of a note are those of the generator's result, and the
    note is linked to the topic. *)
Definition built_from (topic_id : Z) (result : GenResult) (n : StudyNote) : Prop :=
  note_topic n = topic_id ∧
  content n = r_content result ∧
  summary n = r_summary result ∧
  key_points n = r_key_points result ∧
  references n = r_references result ∧
  word_count n = r_word_count result ∧
  reading_time_minutes n = r_reading_time_minutes result ∧
  ai_model_used n = r_ai_model_used result ∧
  generation_time_seconds n = r_generation_time_seconds result.

(** What holds of a call of the AI service made for a topic: the topic
    is passed with the status [processing], and in the store as
    committed at the call the topic has that status and no note. *)
Definition processing_at_call (topic_id : Z) (t : StudyTopic) (c : Call) : Prop :=
  call_topic c = set_status "processing" (mkInstance topic_id t) ∧
  topic_status (call_db c) topic_id = Some "processing" ∧
  notes_of_topic topic_id (call_db c) = [].

(** ** Ratings *)

(** The rating is absent or null, or a number (a boolean is a number in
    Python). *)
Definition number_or_null (v : Py.value) : bool :=
  match v with
  | Py.None_ | Py.Bool _ | Py.Int _ | Py.Float _ => true
  | _ => false
  end.

(** A number that is not zero and lies between 1 and 5. *)
Definition accepted_rating (v : Py.value) : bool :=
  match v with
  | Py.Bool b => b
  | Py.Int z => (1 <=? z) && (z <=? 5)
  | Py.Float f => negb (PrimFloat.eqb f 0) && PrimFloat.leb 1 f && PrimFloat.leb f 5
  | _ => false
  end.

(** The integer the column keeps of a number. *)
Definition stored_rating (v : Py.value) : option Z :=
  match v with
  | Py.Bool b => Some (if b then 1 else 0)
  | Py.Int z => Some z
  | Py.Float f => Py.trunc f
  | _ => None
  end.

Definition with_rating (z : Z) (a : NoteAnalytics) : NoteAnalytics :=
  mkNoteAnalytics (analytics_note a) (views_count a) (last_viewed a) (Some z).

Definition with_view (now : Time) (a : NoteAnalytics) : NoteAnalytics :=
  mkNoteAnalytics (analytics_note a) (views_count a + 1) (Some now) (user_rating a).

(** The views counted for a note so far. *)
Definition views_of (note_id : Z) (db : DB) : Z :=
  match analytics_of_note note_id db with
  | a :: _ => views_count (row a)
  | [] => 0
  end.

(** The analytics row of a note: the one in the store, or else the row
    that get-or-create makes. *)
Definition analytics_row (note : Instance StudyNote) (db : DB) : Instance NoteAnalytics :=
  match analytics_of_note (pk note) db with
  | a :: _ => a
  | [] => mkInstance (fresh (dom (analytics db))) (new_analytics note)
  end.

(** ** Ownership of what a response shows *)

(** The owner of the topic a note belongs to. *)
Definition note_owner (db : DB) (n : StudyNote) : option Z :=
  topic_user <$> topics db !! note_topic n.

(** The topics of a user, as a table. *)
Definition own_topics (u : Z) (db : DB) : gmap Z StudyTopic :=
  filter (λ kv, topic_user kv.2 = u) (topics db).

(** The number of topics of a user whose column [g] holds [s]. *)
Definition count_topics (u : Z) (g : StudyTopic → string) (s : string) (db : DB) : nat :=
  size (filter (λ kv, topic_user kv.2 = u ∧ g kv.2 = s) (topics db)).

(** The counts over the topics of a user alone. *)
Definition own_counts (u : Z) (db : DB) : TopicCounts :=
  mkTopicCounts (size (own_topics u db))
    (count_topics u status "completed" db) (count_topics u status "pending" db)
    (count_topics u status "processing" db) (count_topics u status "failed" db)
    (count_topics u difficulty "beginner" db) (count_topics u difficulty "intermediate" db)
    (count_topics u difficulty "advanced" db).

(** Every record in the body belongs to the user [u], and counts are
    counts over the topics of [u] alone.  Subjects have no owner: a list
    of subjects is nobody's own.  The texts of errors and messages and
    the metadata of a view hold no record. *)
Definition scoped (u : Z) (db : DB) (p : Payload) : Prop :=
  match p with
  | PTopics l => Forall (λ t, topic_user (row t) = u) l
  | PTopic t => topic_user (row t) = u
  | PNotes l => Forall (λ n, note_owner db (row n) = Some u) l
  | PNote n | PMessageNote _ n => note_owner db (row n) = Some u
  | PPreference p => preference_user (row p) = u
  | PCounts c => c = own_counts u db
  | PSubjects _ => False
  | PError _ | PMessage _ | PDetail _ | PInvalid _ | PMetadata | PEmpty => True
  end.

(** What the outcome of a run shows belongs to [u]. *)
Definition outcome_scoped (u : Z) (r : Run Response) : Prop :=
  ∀ resp, outcome r = inr resp → scoped u (final r) (body resp).

(** The answer to a request that is turned away for want of a login. *)
Definition denied (framework : Framework) : Response :=
  mkResponse (PDetail "Authentication credentials were not provided.")
    (if authenticate_header framework is Some _ then HTTP_401_UNAUTHORIZED
     else HTTP_403_FORBIDDEN).

(** ** Stores of the lifecycle *)

(** The store after [topic.status = s; topic.save()]. *)
Definition mark (s : string) (topic_id : Z) (t : StudyTopic) (db : DB) : DB :=
  with_topics <[topic_id := row (set_status s (mkInstance topic_id t))]> db.

(** The note the views create from a result, under the key the store
    chooses. *)
Definition new_note (topic_id : Z) (t : StudyTopic) (result : GenResult) (db : DB)
  : Instance StudyNote :=
  mkInstance (fresh (dom (notes db))) (note_of_result (mkInstance topic_id t) result).

(** The store after the note and its analytics are created. *)
Definition with_new_note (topic_id : Z) (t : StudyTopic) (result : GenResult) (db : DB) : DB :=
  with_analytics
    <[fresh (dom (analytics db)) := new_analytics (new_note topic_id t result db)]>
    (with_notes <[pk (new_note topic_id t result db) := row (new_note topic_id t result db)]>
       db).

(** The store after the notes of a topic are deleted. *)
Definition without_note (topic_id : Z) (db : DB) : DB :=
  foldr (λ n, delete_note (pk n)) db (notes_of_topic topic_id db).

(** What the lifecycle views do once the topic is found and the store
    [db0] holds no note of it: the status [processing] is written, the
    AI service is called, and the outcome decides the rest.  [done] and
    [failed] are the messages of the view. *)
Definition lifecycle (w : World) (request : Request) (topic_id : Z) (t : StudyTopic)
    (done failed : string) (db0 : DB) : Run Response :=
  let db1 := mark "processing" topic_id t db0 in
  let c := mkCall (set_status "processing" (mkInstance topic_id t))
             (preferences_of request db0) db1 in
  match ai w (call_topic c) (call_preferences c) with
  | inr result =>
      mkRun [c] (mark "completed" topic_id t (with_new_note topic_id t result db1))
        (inr (mkResponse (PMessageNote done (new_note topic_id t result db1))
                HTTP_201_CREATED))
  | inl e =>
      if is_exception (exn_class e) then
        mkRun [c] (mark "failed" topic_id t db1)
          (inr (mkResponse (PError (failed +:+ exn_str e)) HTTP_500_INTERNAL_SERVER_ERROR))
      else mkRun [c] db1 (inl e)
  end.

(** The status code a run answers with, if it answers. *)
Definition answered (r : Run Response) : option Z :=
  match outcome r with
  | inr resp => Some (status_code resp)
  | inl _ => None
  end.

(** The note a run shows in its answer, if it shows one. *)
Definition note_shown (r : Run Response) : option (Instance StudyNote) :=
  match outcome r with
  | inr (mkResponse (PMessageNote _ n) _) => Some n
  | _ => None
  end.

(** What a lifecycle view leaves alone in going from [db] to [db']: the
    subjects, the preferences, every other topic, and the notes of other
    topics with their analytics. *)
Definition others_untouched (topic_id : Z) (db db' : DB) : Prop :=
  subjects db' = subjects db ∧
  preferences db' = preferences db ∧
  (∀ i, i ≠ topic_id → topics db' !! i = topics db !! i) ∧
  (∀ i n, notes db !! i = Some n → note_topic n ≠ topic_id → notes db' !! i = Some n) ∧
  (∀ i a, analytics db !! i = Some a →
          (∀ n, notes db !! analytics_note a = Some n → note_topic n ≠ topic_id) →
          analytics db' !! i = Some a).

(** Of the columns of the topic itself that the views read, the user,
    the title, the description, the subject and the difficulty are as
    they were in [t]. *)
Definition same_but_status (t t' : StudyTopic) : Prop :=
  topic_user t' = topic_user t ∧
  title t' = title t ∧
  description t' = description t ∧
  subject t' = subject t ∧
  difficulty t' = difficulty t.

(** The status a lifecycle view leaves when the AI service answers [o]:
    [completed] after a result, [failed] after an exception the view
    catches, and [processing] after one it does not catch. *)
Definition status_after (o : PyExn + GenResult) : string :=
  match o with
  | inr _ => "completed"
  | inl e => if is_exception (exn_class e) then "failed" else "processing"
  end.

(** The topic as a lifecycle view leaves it when the AI service answers
    [o]. *)
Definition topic_after (topic_id : Z) (t : StudyTopic) (o : PyExn + GenResult) (db' : DB)
  : Prop :=
  ∃ t', topics db' !! topic_id = Some t' ∧ same_but_status t t' ∧
        status t' = status_after o.

(** The exception a run ends with, if it ends with one. *)
Definition raised {A} (r : Run A) : option PyExn :=
  match outcome r with
  | inl e => Some e
  | inr _ => None
  end.

(** The method a function view is declared for with [@api_view]. *)
Definition declared_method (e : Endpoint) : option Method :=
  match e with
  | TopicGenerate _ | TopicRegenerate _ | NoteRate _ => Some POST
  | TopicsAnalytics => Some GET
  | _ => None
  end.

(** What rating or viewing a note leaves alone in going from [db] to
    [db']: everything but the analytics of that note. *)
Definition only_analytics_of (note_id : Z) (db db' : DB) : Prop :=
  subjects db' = subjects db ∧
  topics db' = topics db ∧
  notes db' = notes db ∧
  preferences db' = preferences db ∧
  (∀ i a, analytics db !! i = Some a → analytics_note a ≠ note_id →
          analytics db' !! i = Some a).

(** The four states of the lifecycle. *)
Definition lifecycle_status (s : string) : Prop :=
  s = "pending" ∨ s = "processing" ∨ s = "completed" ∨ s = "failed".

(** ** A sample store *)

Module Sample.

Definition graphs : StudyTopic := mkStudyTopic 1 "Graphs" "About graphs" 1 "beginner" "completed".
Definition trees : StudyTopic := mkStudyTopic 1 "Trees" "About trees" 1 "advanced" "pending".
Definition sets : StudyTopic := mkStudyTopic 2 "Sets" "About sets" 1 "beginner" "pending".

Definition graphs_note : StudyNote :=
  mkStudyNote 10 "Old notes on graphs" "Graphs" ["vertex"; "edge"] [] 4 1 "model-a" 0.5.

Definition graphs_analytics : NoteAnalytics := mkNoteAnalytics 5 3 None None.

(** User 1 owns the topics 10 (with the note 5 and its analytics 7) and
    11 (no note); user 2 owns the topic 12. *)
Definition db : DB :=
  mkDB ∅ (<[10 := graphs]> (<[11 := trees]> (<[12 := sets]> ∅)))
    (<[5 := graphs_note]> ∅) (<[7 := graphs_analytics]> ∅) ∅.

(** The same store before the note was ever viewed or rated. *)
Definition db_unviewed : DB :=
  mkDB ∅ (<[10 := graphs]> (<[11 := trees]> (<[12 := sets]> ∅)))
    (<[5 := graphs_note]> ∅) ∅ ∅.

Definition result : GenResult :=
  mkGenResult "Notes" "Summary" ["point"] ["book"] 100 2 "model-b" 1.5.

Definition failure : PyExn := mkExn (OtherException "RuntimeError") "quota exceeded".

(** The worker is told to stop while the AI service runs. *)
Definition interrupt : PyExn := mkExn SystemExit "1".

Definition ai_ok : World := mkWorld (λ _ _, inr result) 1000.
Definition ai_down : World := mkWorld (λ _ _, inl failure) 1000.
Definition ai_interrupted : World := mkWorld (λ _ _, inl interrupt) 1000.

Definition request (u : Z) : Request := mkRequest (User u) ∅.
Definition anonymous : Request := mkRequest AnonymousUser ∅.
Definition rating (u : Z) (v : Py.value) : Request :=
  mkRequest (User u) {["rating" := v]}.

(** Settings without filters and pages, and serializers that take the
    title of the body. *)
Definition new_title (d : gmap string Py.value) : option string :=
  match d !! "title" with
  | Some (Py.Str s) => Some s
  | _ => None
  end.

Definition topic_validate (instance : option (Instance StudyTopic)) (partial : bool)
    (d : gmap string Py.value) : option StudyTopic :=
  match new_title d, instance with
  | Some s, Some i =>
      Some (mkStudyTopic (topic_user (row i)) s (description (row i)) (subject (row i))
              (difficulty (row i)) (status (row i)))
  | Some s, None => Some (mkStudyTopic 0 s EmptyString 1 "beginner" "pending")
  | None, Some i => if partial then Some (row i) else None
  | None, None => None
  end.

Definition preference_validate (instance : Instance UserPreference) (partial : bool)
    (d : gmap string Py.value) : option UserPreference :=
  Some (row instance).

Definition framework : Framework := mkFramework None (λ _, "Not found.") true.

Definition site : Endpoint → Method → Request → Prog Response :=
  serve framework (λ _ l, l) (λ _ l, l) (λ _ l, l)
    topic_validate preference_validate [].

End Sample.

(** * Properties *)

(** ** Queries *)

Lemma elem_of_select {R} (P : Z → R → bool) (tbl : gmap Z R) (x : Instance R) :
  x ∈ select P tbl ↔ tbl !! pk x = Some (row x) ∧ P (pk x) (row x) = true.
Proof.
  unfold select. rewrite list_elem_of_fmap. split.
  - intros [[i r] [-> H]]. apply elem_of_map_to_list, map_lookup_filter_Some in H.
    simpl in *. destruct H as [H1 H2]. split; [done|]. by apply Is_true_eq_true.
  - intros [H1 H2]. exists (pk x, row x). split; [by destruct x|].
    apply elem_of_map_to_list, map_lookup_filter_Some. split; [done|].
    simpl. by apply Is_true_eq_left.
Qed.

Lemma NoDup_select {R} (P : Z → R → bool) (tbl : gmap Z R) : NoDup (select P tbl).
Proof.
  unfold select. apply NoDup_fmap_2; [|apply NoDup_map_to_list].
  intros [i x] [j y] [= -> ->]. done.
Qed.

(** A duplicate-free list whose elements are all equal to a member is
    that member alone. *)
Lemma NoDup_all_eq {A} (l : list A) (x : A) :
  NoDup l → x ∈ l → (∀ y, y ∈ l → y = x) → l = [x].
Proof.
  intros Hnd Hx Hall. destruct l as [|a l]; [by apply elem_of_nil in Hx|].
  assert (a = x) as -> by (apply Hall; left).
  destruct l as [|b l]; [done|].
  assert (b = x) as -> by (apply Hall; right; left).
  apply NoDup_cons in Hnd as [Hnd _]. exfalso. apply Hnd. left.
Qed.

Lemma select_singleton {R} (P : Z → R → bool) (tbl : gmap Z R) (x : Instance R) :
  x ∈ select P tbl → (∀ y, y ∈ select P tbl → y = x) → select P tbl = [x].
Proof. apply NoDup_all_eq, NoDup_select. Qed.

Lemma select_nil {R} (P : Z → R → bool) (tbl : gmap Z R) :
  select P tbl = [] ↔ ∀ i r, tbl !! i = Some r → P i r = false.
Proof.
  split.
  - intros H i r Hi. destruct (P i r) eqn:HP; [|done].
    assert (mkInstance i r ∈ select P tbl) as Hin by (by apply elem_of_select).
    rewrite H in Hin. by apply elem_of_nil in Hin.
  - intros H. destruct (select P tbl) as [|x l] eqn:E; [done|].
    assert (x ∈ select P tbl) as Hin by (rewrite E; left).
    apply elem_of_select in Hin as [H1 H2]. rewrite (H _ _ H1) in H2. done.
Qed.

(** A query by primary key and a condition on the row. *)
Lemma select_pk {R} (Q : R → bool) (k : Z) (tbl : gmap Z R) :
  select (λ i r, (i =? k) && Q r) tbl =
    match tbl !! k with
    | Some r => if Q r then [mkInstance k r] else []
    | None => []
    end.
Proof.
  destruct (tbl !! k) as [r|] eqn:Hk; [destruct (Q r) eqn:HQ|].
  - apply select_singleton.
    + apply elem_of_select. simpl. rewrite Z.eqb_refl, HQ. done.
    + intros [i y] [H1 H2]%elem_of_select. simpl in *.
      apply andb_prop in H2 as [->%Z.eqb_eq _]. congruence.
  - apply select_nil. intros i y Hi. destruct (Z.eqb_spec i k) as [->|]; [|done].
    simpl. congruence.
  - apply select_nil. intros i y Hi. destruct (Z.eqb_spec i k) as [->|]; [|done].
    congruence.
Qed.

(** Under a unique constraint a query on the constrained column has at
    most one row. *)
Lemma select_unique {R} (f : R → Z) (k : Z) (tbl : gmap Z R) :
  unique_on f tbl →
  select (λ _ r, f r =? k) tbl = [] ∨ ∃ x, select (λ _ r, f r =? k) tbl = [x].
Proof.
  intros Hu. destruct (select (λ _ r, f r =? k) tbl) as [|x l] eqn:E; [by left|right].
  exists x. rewrite <- E. apply select_singleton; [rewrite E; left|].
  intros y [Hy1 Hy2%Z.eqb_eq]%elem_of_select.
  assert (x ∈ select (λ _ r, f r =? k) tbl) as [Hx1 Hx2%Z.eqb_eq]%elem_of_select
    by (rewrite E; left).
  assert (pk y = pk x) by (eapply Hu; eauto; congruence).
  destruct x, y; simpl in *; congruence.
Qed.

Lemma select_unique_lookup {R} (f : R → Z) (k i : Z) (r : R) (tbl : gmap Z R) :
  unique_on f tbl → tbl !! i = Some r → f r = k →
  select (λ _ r, f r =? k) tbl = [mkInstance i r].
Proof.
  intros Hu Hi Hf. apply select_singleton.
  - apply elem_of_select. simpl. split; [done|]. by apply Z.eqb_eq.
  - intros y [Hy1 Hy2%Z.eqb_eq]%elem_of_select.
    assert (pk y = i) by (eapply Hu; eauto; congruence).
    destruct y; simpl in *; congruence.
Qed.

(** Inserting a matching row under an unused key into a table with no
    matching row. *)
Lemma select_insert_fresh {R} (P : Z → R → bool) (tbl : gmap Z R) (i : Z) (r : R) :
  select P tbl = [] → P i r = true → select P (<[i := r]> tbl) = [mkInstance i r].
Proof.
  intros Hnil HP. apply select_singleton.
  - apply elem_of_select. simpl. by rewrite lookup_insert_eq.
  - intros [j y] [H1 H2]%elem_of_select. simpl in *.
    destruct (decide (i = j)) as [->|Hne].
    + rewrite lookup_insert_eq in H1. congruence.
    + rewrite lookup_insert_ne in H1 by done.
      rewrite select_nil in Hnil. rewrite (Hnil _ _ H1) in H2. done.
Qed.

(** The row of a query set with a given key, as [get_object] looks it
    up. *)
Lemma select_filter_pk {R} (P : Z → R → bool) (tbl : gmap Z R) (k : Z) :
  filter (λ x : Instance R, pk x =? k) (select P tbl) =
    match tbl !! k with
    | Some r => if P k r then [mkInstance k r] else []
    | None => []
    end.
Proof.
  assert (∀ x, x ∈ filter (λ x : Instance R, pk x =? k) (select P tbl) ↔
               pk x = k ∧ tbl !! k = Some (row x) ∧ P k (row x) = true) as Hin.
  { intros x. rewrite list_elem_of_filter, elem_of_select.
    split.
    - intros [Hk%Is_true_eq_true%Z.eqb_eq [H1 H2]]. subst k. done.
    - intros (<- & H1 & H2). split; [|done]. apply Is_true_eq_left, Z.eqb_refl. }
  assert (∀ r, tbl !! k = Some r → P k r = true →
               filter (λ x : Instance R, pk x =? k) (select P tbl) = [mkInstance k r]) as Hone.
  { intros r Hr HP. apply NoDup_all_eq.
    - apply NoDup_filter, NoDup_select.
    - apply Hin. done.
    - intros [j y] (Hj & Hy1 & Hy2)%Hin. simpl in *. congruence. }
  assert ((∀ r, tbl !! k = Some r → P k r = false) →
          filter (λ x : Instance R, pk x =? k) (select P tbl) = []) as Hnil.
  { intros H. destruct (filter _ _) as [|x l] eqn:E; [done|].
    assert (x ∈ x :: l) as (Hj & H1 & H2)%Hin by left.
    rewrite (H _ H1) in H2. done. }
  destruct (tbl !! k) as [r|] eqn:Hk; [destruct (P k r) eqn:HP|].
  - by apply Hone.
  - apply Hnil. congruence.
  - apply Hnil. congruence.
Qed.

Lemma fresh_lookup {R} (tbl : gmap Z R) : tbl !! fresh (dom tbl) = None.
Proof. apply not_elem_of_dom, is_fresh. Qed.

(** ** Running a guarded program *)

Lemma exec_try_else {A B} w (m : Prog A) (h : PyExn → option (Prog B)) (k : A → Prog B) db :
  exec w (try_else m h k) db =
    let r := exec w m db in
    let continue m' :=
      let r' := exec w m' (final r) in
      mkRun (calls r ++ calls r') (final r') (outcome r') in
    match outcome r with
    | inr a => continue (k a)
    | inl e =>
        match h e with
        | Some m' => continue m'
        | None => mkRun (calls r) (final r) (inl e)
        end
    end.
Proof.
  revert db. induction m as [a|e|f IH|f m IH|t p f IH|f IH]; intros db; simpl.
  - by destruct (exec w (k a) db).
  - destruct (h e) as [m'|]; [|done]. by destruct (exec w m' db).
  - apply IH.
  - apply IH.
  - rewrite IH. simpl.
    destruct (outcome (exec w (f (ai w t p)) db)) as [e|a]; [destruct (h e)|]; done.
  - apply IH.
Qed.

(** ** Writes that keep the store well formed *)

Lemma wf_save_topic db k t : db_wf db → db_wf (with_topics <[k := t]> db).
Proof.
  intros Hwf. split; simpl; try apply Hwf.
  intros i n Hn. destruct (wf_note_fk _ Hwf _ _ Hn) as [x Hx].
  destruct (decide (k = note_topic n)) as [->|Hne].
  - rewrite lookup_insert_eq. eauto.
  - rewrite lookup_insert_ne by done. eauto.
Qed.

Lemma unique_on_insert {R} (f : R → Z) (tbl : gmap Z R) i r :
  unique_on f tbl →
  (∀ j y, tbl !! j = Some y → f y = f r → j = i) →
  unique_on f (<[i := r]> tbl).
Proof.
  intros Hu Hnew j x Hj k y Hk Hxy.
  destruct (decide (i = j)) as [<-|Hij]; destruct (decide (i = k)) as [<-|Hik]; try done.
  - rewrite lookup_insert_eq in Hj. rewrite lookup_insert_ne in Hk by done.
    injection Hj as <-. symmetry. eapply Hnew; eauto.
  - rewrite lookup_insert_eq in Hk. rewrite lookup_insert_ne in Hj by done.
    injection Hk as <-. eapply Hnew; eauto.
  - rewrite lookup_insert_ne in Hj, Hk by done. eapply Hu; eauto.
Qed.

Lemma wf_create_note db n :
  db_wf db →
  is_Some (topics db !! note_topic n) →
  select (λ _ r, note_topic r =? note_topic n) (notes db) = [] →
  db_wf (with_notes <[fresh (dom (notes db)) := n]> db).
Proof.
  intros Hwf Ht Hnone. rewrite select_nil in Hnone.
  split; simpl; try apply Hwf.
  - apply unique_on_insert; [apply Hwf|].
    intros j y Hj Hy. specialize (Hnone _ _ Hj). simpl in Hnone.
    apply Z.eqb_neq in Hnone. done.
  - intros i a Ha. destruct (wf_analytics_fk _ Hwf _ _ Ha) as [x Hx].
    rewrite lookup_insert_ne; [eauto|]. intros Heq.
    rewrite <- Heq, fresh_lookup in Hx. done.
  - apply map_Forall_insert_2; [done|]. apply Hwf.
Qed.

Lemma wf_update_analytics db i a :
  db_wf db →
  is_Some (notes db !! analytics_note a) →
  (∀ j y, analytics db !! j = Some y → analytics_note y = analytics_note a → j = i) →
  db_wf (with_analytics <[i := a]> db).
Proof.
  intros Hwf Hn Hnew. split; simpl; try apply Hwf.
  - apply unique_on_insert; [apply Hwf|done].
  - apply map_Forall_insert_2; [done|]. apply Hwf.
Qed.

Lemma wf_create_analytics db k a :
  db_wf db →
  is_Some (notes db !! k) →
  select (λ _ r, analytics_note r =? k) (analytics db) = [] →
  analytics_note a = k →
  db_wf (with_analytics <[fresh (dom (analytics db)) := a]> db).
Proof.
  intros Hwf Hn Hnone <-. rewrite select_nil in Hnone.
  apply wf_update_analytics; [done..|].
  intros j y Hj Hy. specialize (Hnone _ _ Hj). simpl in Hnone.
  apply Z.eqb_neq in Hnone. done.
Qed.

Lemma wf_rewrite_analytics db i a a' :
  db_wf db →
  analytics db !! i = Some a →
  analytics_note a' = analytics_note a →
  db_wf (with_analytics <[i := a']> db).
Proof.
  intros Hwf Hi Hnote. apply wf_update_analytics; [done| |].
  - rewrite Hnote. by eapply (wf_analytics_fk _ Hwf).
  - intros j y Hj Hy. eapply (wf_analytics_note _ Hwf); eauto. congruence.
Qed.

Lemma wf_delete_note db k : db_wf db → db_wf (delete_note k db).
Proof.
  intros Hwf. split; simpl; try apply Hwf.
  - intros i x [Hne Hi]%lookup_delete_Some j y [Hne' Hj]%lookup_delete_Some.
    by eapply (wf_note_topic _ Hwf).
  - intros i x [Hi _]%map_lookup_filter_Some j y [Hj _]%map_lookup_filter_Some.
    by eapply (wf_analytics_note _ Hwf).
  - intros i a [Hi Hne]%map_lookup_filter_Some. simpl in Hne.
    rewrite lookup_delete_ne by done. by eapply (wf_analytics_fk _ Hwf).
  - intros i n [Hne Hi]%lookup_delete_Some. by eapply (wf_note_fk _ Hwf).
Qed.

Lemma wf_delete_topic db k : db_wf db → db_wf (delete_topic k db).
Proof.
  intros Hwf. unfold delete_topic.
  assert (∀ l : list (Instance StudyNote),
            db_wf (foldr (λ n, delete_note (pk n)) db l)) as Hfold.
  { induction l as [|n l IH]; simpl; [done|by apply wf_delete_note]. }
  assert (∀ (l : list (Instance StudyNote)) i n,
            notes (foldr (λ n, delete_note (pk n)) db l) !! i = Some n →
                   notes db !! i = Some n ∧ ∀ x, x ∈ l → pk x ≠ i) as Hleft.
  { induction l as [|x l IH]; simpl; intros i n Hi.
    - split; [done|]. intros y Hy. by apply elem_of_nil in Hy.
    - apply lookup_delete_Some in Hi as [Hne Hi]. destruct (IH _ _ Hi) as [H1 H2].
      split; [done|]. intros y [->|Hy]%elem_of_cons; auto. }
  specialize (Hfold (notes_of_topic k db)).
  split; simpl; try apply Hfold.
  intros i n Hi. destruct (Hleft _ _ _ Hi) as [Hn Hpk].
  destruct (decide (note_topic n = k)) as [Hk|Hk].
  - exfalso. apply (Hpk (mkInstance i n)); [|done].
    apply elem_of_select. simpl. split; [done|]. by apply Z.eqb_eq.
  - rewrite lookup_delete_ne by done. by eapply (wf_note_fk _ Hfold).
Qed.

Lemma wf_create_preference db p :
  db_wf db →
  select (λ _ r, preference_user p =? preference_user r) (preferences db) = [] →
  db_wf (with_preferences <[fresh (dom (preferences db)) := p]> db).
Proof.
  intros Hwf Hnone. rewrite select_nil in Hnone.
  split; simpl; try apply Hwf.
  apply unique_on_insert; [apply Hwf|].
  intros j y Hj Hy. specialize (Hnone _ _ Hj). simpl in Hnone.
  apply Z.eqb_neq in Hnone. congruence.
Qed.

Lemma wf_rewrite_preference db i p p' :
  db_wf db →
  preferences db !! i = Some p →
  preference_user p' = preference_user p →
  db_wf (with_preferences <[i := p']> db).
Proof.
  intros Hwf Hi Hu. split; simpl; try apply Hwf.
  apply unique_on_insert; [apply Hwf|].
  intros j y Hj Hy. eapply (wf_preference_user _ Hwf); eauto. congruence.
Qed.

Lemma empty_store_wf : db_wf (mkDB ∅ ∅ ∅ ∅ ∅).
Proof. split; simpl; intros i x Hi; by rewrite lookup_empty in Hi. Qed.

(** ** Looking up the topic, its note and the preferences *)

Lemma topics_query_owned request topic_id db t :
  owns_topic request db topic_id t →
  objects_filter topics
    (λ _ id t, (id =? topic_id) && is_user (user request) (topic_user t)) db =
  [mkInstance topic_id t].
Proof.
  intros [Ht Hu]. unfold objects_filter.
  rewrite (select_pk (λ t, is_user (user request) (topic_user t))), Ht, Hu. done.
Qed.

Lemma preferences_select request db :
  db_wf db →
  select (λ _ p, is_user (user request) (preference_user p)) (preferences db) =
  match preferences_of request db with Some p => [p] | None => [] end.
Proof.
  intros Hwf. unfold preferences_of, objects_filter.
  destruct (user request) as [|u] eqn:Hu; simpl.
  - rewrite (proj2 (select_nil _ _)); done.
  - replace (select (λ _ p, u =? preference_user p) (preferences db))
      with (select (λ _ r, preference_user r =? u) (preferences db)).
    + destruct (select_unique preference_user u (preferences db)) as [E|[x E]];
        [apply Hwf|by rewrite E..].
    + unfold select. do 2 f_equal. apply map_filter_ext. intros i x _. simpl.
      by rewrite Z.eqb_sym.
Qed.

(** The note of a topic that has none, after one is created for it. *)
Lemma no_analytics_for_fresh_note db :
  db_wf db → select (λ _ a, analytics_note a =? fresh (dom (notes db))) (analytics db) = [].
Proof.
  intros Hwf. apply select_nil. intros i a Ha. apply Z.eqb_neq. intros Heq.
  destruct (wf_analytics_fk _ Hwf _ _ Ha) as [x Hx].
  rewrite Heq, fresh_lookup in Hx. done.
Qed.

(** C4, as the code has it: when a topic of the user of the request
    already has a note, [generate_notes] answers 400 and does nothing
    else: the AI service is not called and the store is left as it was
    (so the status is unchanged and no record is created or deleted). *)
Theorem generate_notes_conflict w request topic_id db t note_id n :
  db_wf db →
  owns_topic request db topic_id t →
  notes db !! note_id = Some n →
  note_topic n = topic_id →
  exec w (generate_notes request topic_id) db =
    mkRun [] db
      (inr (mkResponse (PError "Notes already exist for this topic") HTTP_400_BAD_REQUEST)).
Proof.
  intros Hwf Hown Hn Hnt. unfold generate_notes, get_topic, qs_get. simpl.
  rewrite (topics_query_owned _ _ _ _ Hown). simpl.
  unfold notes_of_topic, objects_filter. simpl.
  rewrite (select_unique_lookup note_topic topic_id note_id n); [done|apply Hwf|done|done].
Qed.

(** C1: on an owned topic that has no note, when the AI service
    answers with a result, [generate_notes] answers 201 with the note it
    created; the note is linked to the topic and its content, summary,
    key points, references, word count, reading time, model and
    generation time are those of the result; it is the one note the
    notes table gains and the only note of the topic, the analytics
    table gains exactly one row, a new one for that note, and the status
    of the topic is [completed].  The AI service is called once. *)
Theorem generate_notes_success w request topic_id db t result :
  db_wf db →
  owns_topic request db topic_id t →
  notes_of_topic topic_id db = [] →
  ai w (set_status "processing" (mkInstance topic_id t)) (preferences_of request db)
    = inr result →
  let r := exec w (generate_notes request topic_id) db in
  ∃ note a,
    outcome r =
      inr (mkResponse (PMessageNote "Study notes generated successfully" note)
             HTTP_201_CREATED) ∧
    built_from topic_id result (row note) ∧
    topic_status (final r) topic_id = Some "completed" ∧
    notes db !! pk note = None ∧
    notes (final r) = <[pk note := row note]> (notes db) ∧
    notes_of_topic topic_id (final r) = [note] ∧
    analytics db !! pk a = None ∧
    row a = new_analytics note ∧
    analytics (final r) = <[pk a := row a]> (analytics db) ∧
    analytics_of_note (pk note) (final r) = [a] ∧
    length (calls r) = 1%nat.
Proof.
  intros Hwf Hown Hnone Hai r. subst r.
  unfold generate_notes, get_topic, qs_get. simpl.
  rewrite (topics_query_owned _ _ _ _ Hown). simpl.
  rewrite Hnone. simpl.
  unfold objects_filter. rewrite (preferences_select _ _ Hwf).
  pose proof (no_analytics_for_fresh_note db Hwf) as Hna.
  destruct (preferences_of request db) as [p|]; simpl in *; rewrite Hai; simpl;
    (eexists (mkInstance _ _), (mkInstance _ _); simpl;
     split_and!;
     [ reflexivity | by repeat split
     | unfold topic_status; simpl; by rewrite lookup_insert_eq
     | apply fresh_lookup
     | reflexivity
     | apply select_insert_fresh; [exact Hnone | simpl; apply Z.eqb_refl]
     | apply fresh_lookup
     | reflexivity
     | reflexivity
     | apply select_insert_fresh; [exact Hna | simpl; apply Z.eqb_refl]
     | reflexivity ]).
Qed.

(** C2, as the code has it: when the AI service raises an exception
    whose class derives from [Exception], [generate_notes] still writes
    the status [failed], creates no note (the notes and analytics tables
    are as before) and answers 500 with the text of the exception in the
    message. *)
Theorem generate_notes_failure w request topic_id db t e :
  db_wf db →
  owns_topic request db topic_id t →
  notes_of_topic topic_id db = [] →
  ai w (set_status "processing" (mkInstance topic_id t)) (preferences_of request db)
    = inl e →
  is_exception (exn_class e) = true →
  let r := exec w (generate_notes request topic_id) db in
  outcome r =
    inr (mkResponse (PError ("Failed to generate notes: " +:+ exn_str e))
           HTTP_500_INTERNAL_SERVER_ERROR) ∧
  topic_status (final r) topic_id = Some "failed" ∧
  notes (final r) = notes db ∧
  notes_of_topic topic_id (final r) = [] ∧
  analytics (final r) = analytics db ∧
  length (calls r) = 1%nat.
Proof.
  intros Hwf Hown Hnone Hai He r. subst r.
  unfold generate_notes, get_topic, qs_get. simpl.
  rewrite (topics_query_owned _ _ _ _ Hown). simpl.
  rewrite Hnone. simpl.
  unfold objects_filter. rewrite (preferences_select _ _ Hwf).
  destruct (preferences_of request db) as [p|]; simpl in *; rewrite Hai; simpl;
    unfold except_Exception; rewrite He; simpl;
    (split_and!;
     [ reflexivity
     | unfold topic_status; simpl; by rewrite lookup_insert_eq
     | reflexivity
     | exact Hnone
     | reflexivity
     | reflexivity ]).
Qed.

(** ** Regeneration *)

Lemma notes_query_existing db topic_id old_id old :
  db_wf db → notes db !! old_id = Some old → note_topic old = topic_id →
  notes_of_topic topic_id db = [mkInstance old_id old].
Proof.
  intros Hwf Hold Ht. unfold notes_of_topic, objects_filter.
  apply select_unique_lookup; [apply Hwf|done..].
Qed.

(** Once the note of a topic is deleted the topic has no note. *)
Lemma notes_query_deleted db topic_id old_id old :
  db_wf db → notes db !! old_id = Some old → note_topic old = topic_id →
  select (λ _ n, note_topic n =? topic_id) (delete old_id (notes db)) = [].
Proof.
  intros Hwf Hold Ht. apply select_nil. intros i n Hi. apply Z.eqb_neq. intros Heq.
  apply lookup_delete_Some in Hi as [Hne Hi].
  apply Hne. eapply (wf_note_topic _ Hwf); eauto. congruence.
Qed.

(** The cascade leaves no analytics row for the deleted note. *)
Lemma analytics_query_deleted (tbl : gmap Z NoteAnalytics) old_id :
  select (λ _ a, analytics_note a =? old_id)
    (filter (λ kv, analytics_note kv.2 ≠ old_id) tbl) = [].
Proof.
  apply select_nil. intros i a [Hi Hne]%map_lookup_filter_Some. simpl in *.
  by apply Z.eqb_neq.
Qed.

(** No analytics row references the key chosen for the new note. *)
Lemma no_analytics_after_delete db old_id :
  db_wf db →
  select (λ _ a, analytics_note a =? fresh (dom (delete old_id (notes db))))
    (filter (λ kv, analytics_note kv.2 ≠ old_id) (analytics db)) = [].
Proof.
  intros Hwf. apply select_nil. intros i a [Hi Hne]%map_lookup_filter_Some. simpl in *.
  apply Z.eqb_neq. intros Heq.
  destruct (wf_analytics_fk _ Hwf _ _ Hi) as [x Hx].
  pose proof (fresh_lookup (delete old_id (notes db))) as Hf.
  rewrite <- Heq in Hf. rewrite lookup_delete_ne in Hf by done. congruence.
Qed.

(** C3: a successful regeneration on a topic that has a note.  The store
    at the call of the AI service no longer holds the old note nor any
    analytics row of it; the final store holds exactly one note of the
    topic, the new one, with exactly one new analytics row, and the
    status is [completed]. *)
Theorem regenerate_notes_success w request topic_id db t old_id old result :
  db_wf db →
  owns_topic request db topic_id t →
  notes db !! old_id = Some old →
  note_topic old = topic_id →
  ai w (set_status "processing" (mkInstance topic_id t)) (preferences_of request db)
    = inr result →
  let r := exec w (regenerate_notes request topic_id) db in
  ∃ note a c,
    calls r = [c] ∧
    notes (call_db c) = delete old_id (notes db) ∧
    analytics (call_db c) = filter (λ kv, analytics_note kv.2 ≠ old_id) (analytics db) ∧
    analytics_of_note old_id (call_db c) = [] ∧
    outcome r =
      inr (mkResponse (PMessageNote "Study notes regenerated successfully" note)
             HTTP_201_CREATED) ∧
    row note = note_of_result (mkInstance topic_id t) result ∧
    topic_status (final r) topic_id = Some "completed" ∧
    notes (call_db c) !! pk note = None ∧
    notes (final r) = <[pk note := row note]> (notes (call_db c)) ∧
    notes_of_topic topic_id (final r) = [note] ∧
    analytics (call_db c) !! pk a = None ∧
    row a = new_analytics note ∧
    analytics (final r) = <[pk a := row a]> (analytics (call_db c)) ∧
    analytics_of_note (pk note) (final r) = [a].
Proof.
  intros Hwf Hown Hold Hnt Hai r. subst r.
  unfold regenerate_notes, get_topic, qs_get. simpl.
  rewrite (topics_query_owned _ _ _ _ Hown). simpl.
  rewrite (notes_query_existing _ _ _ _ Hwf Hold Hnt). simpl.
  unfold objects_filter. simpl. rewrite (preferences_select _ _ Hwf).
  pose proof (notes_query_deleted _ _ _ _ Hwf Hold Hnt) as Hdel.
  pose proof (no_analytics_after_delete db old_id Hwf) as Hna.
  destruct (preferences_of request db) as [p|]; simpl in *; rewrite Hai; simpl;
    (eexists (mkInstance _ _), (mkInstance _ _), _; simpl;
     split_and!;
     [ reflexivity | reflexivity | reflexivity
     | apply analytics_query_deleted
     | reflexivity | reflexivity
     | unfold topic_status; simpl; by rewrite lookup_insert_eq
     | apply fresh_lookup
     | reflexivity
     | apply select_insert_fresh; [exact Hdel | simpl; apply Z.eqb_refl]
     | apply fresh_lookup
     | reflexivity
     | reflexivity
     | apply select_insert_fresh; [exact Hna | simpl; apply Z.eqb_refl] ]).
Qed.

(** C10, as the code has it: a regeneration on a topic that has a
    note, when the AI service raises an exception whose class derives
    from [Exception]: the old note and its analytics are gone and stay
    gone, the status is [failed] and the answer is 500. *)
Theorem regenerate_notes_failure w request topic_id db t old_id old e :
  db_wf db →
  owns_topic request db topic_id t →
  notes db !! old_id = Some old →
  note_topic old = topic_id →
  ai w (set_status "processing" (mkInstance topic_id t)) (preferences_of request db)
    = inl e →
  is_exception (exn_class e) = true →
  let r := exec w (regenerate_notes request topic_id) db in
  outcome r =
    inr (mkResponse (PError ("Failed to regenerate notes: " +:+ exn_str e))
           HTTP_500_INTERNAL_SERVER_ERROR) ∧
  topic_status (final r) topic_id = Some "failed" ∧
  notes (final r) = delete old_id (notes db) ∧
  notes (final r) !! old_id = None ∧
  notes_of_topic topic_id (final r) = [] ∧
  analytics (final r) = filter (λ kv, analytics_note kv.2 ≠ old_id) (analytics db) ∧
  analytics_of_note old_id (final r) = [].
Proof.
  intros Hwf Hown Hold Hnt Hai He r. subst r.
  unfold regenerate_notes, get_topic, qs_get. simpl.
  rewrite (topics_query_owned _ _ _ _ Hown). simpl.
  rewrite (notes_query_existing _ _ _ _ Hwf Hold Hnt). simpl.
  unfold objects_filter. simpl. rewrite (preferences_select _ _ Hwf).
  pose proof (notes_query_deleted _ _ _ _ Hwf Hold Hnt) as Hdel.
  destruct (preferences_of request db) as [p|]; simpl in *; rewrite Hai; simpl;
    unfold except_Exception; rewrite He; simpl;
    (split_and!;
     [ reflexivity
     | unfold topic_status; simpl; by rewrite lookup_insert_eq
     | reflexivity
     | apply lookup_delete_eq
     | exact Hdel
     | reflexivity
     | apply analytics_query_deleted ]).
Qed.

(** ** The store while the AI service runs *)

(** C5: in [generate_notes] and in [regenerate_notes] the AI service is
    called once, whatever it answers, and the store committed at that
    call has the status [processing] and no note for the topic. *)
Theorem processing_before_generator w request topic_id db t :
  db_wf db →
  owns_topic request db topic_id t →
  (notes_of_topic topic_id db = [] →
   ∃ c, calls (exec w (generate_notes request topic_id) db) = [c] ∧
        processing_at_call topic_id t c) ∧
  (∃ c, calls (exec w (regenerate_notes request topic_id) db) = [c] ∧
        processing_at_call topic_id t c).
Proof.
  intros Hwf Hown. split.
  - intros Hnone.
    unfold generate_notes, get_topic, qs_get. simpl.
    rewrite (topics_query_owned _ _ _ _ Hown). simpl.
    rewrite Hnone. simpl.
    unfold objects_filter. rewrite (preferences_select _ _ Hwf).
    destruct (preferences_of request db) as [p|]; simpl;
      (eexists; split;
       [ f_equal; match goal with
                   | |- context [ai w ?a ?b] =>
                       destruct (ai w a b) as [e|]; simpl;
                       [unfold except_Exception; destruct (is_exception (exn_class e))|];
                       done
                   end
       | split_and!;
         [ reflexivity
         | unfold topic_status; simpl; by rewrite lookup_insert_eq
         | exact Hnone ] ]).
  - unfold regenerate_notes, get_topic, qs_get. simpl.
    rewrite (topics_query_owned _ _ _ _ Hown). simpl.
    destruct (select_unique note_topic topic_id (notes db)) as [E|[[old_id old] E]];
      [apply Hwf| |].
    + unfold notes_of_topic, objects_filter. simpl. rewrite E. simpl.
      rewrite (preferences_select _ _ Hwf).
      destruct (preferences_of request db) as [p|]; simpl;
        (eexists; split;
         [ f_equal; match goal with
                   | |- context [ai w ?a ?b] =>
                       destruct (ai w a b) as [e|]; simpl;
                       [unfold except_Exception; destruct (is_exception (exn_class e))|];
                       done
                   end
         | split_and!;
           [ reflexivity
           | unfold topic_status; simpl; by rewrite lookup_insert_eq
           | exact E ] ]).
    + assert (mkInstance old_id old ∈ select (λ _ r, note_topic r =? topic_id) (notes db))
        as [Hold Hnt%Z.eqb_eq]%elem_of_select by (rewrite E; left).
      simpl in Hold, Hnt.
      unfold notes_of_topic, objects_filter. simpl. rewrite E. simpl.
      rewrite (preferences_select _ _ Hwf).
      pose proof (notes_query_deleted _ _ _ _ Hwf Hold Hnt) as Hdel.
      destruct (preferences_of request db) as [p|]; simpl;
        (eexists; split;
         [ f_equal; match goal with
                   | |- context [ai w ?a ?b] =>
                       destruct (ai w a b) as [e|]; simpl;
                       [unfold except_Exception; destruct (is_exception (exn_class e))|];
                       done
                   end
         | split_and!;
           [ reflexivity
           | unfold topic_status; simpl; by rewrite lookup_insert_eq
           | exact Hdel ] ]).
Qed.

(** ** Ratings *)

Lemma notes_query_owned request note_id db n :
  owns_note request db note_id n →
  objects_filter notes
    (λ db id n, (id =? note_id) && topic__user db (user request) n) db =
  [mkInstance note_id n].
Proof.
  intros [Hn Hu]. unfold objects_filter.
  rewrite (select_pk (λ n, topic__user db (user request) n)), Hn, Hu. done.
Qed.

(** The query of get-or-create finds the row of [analytics_row] or
    nothing. *)
Lemma analytics_query db note :
  db_wf db →
  analytics_of_note (pk note) db = [] ∨
  analytics_of_note (pk note) db = [analytics_row note db].
Proof.
  intros Hwf. unfold analytics_row.
  destruct (select_unique analytics_note (pk note) (analytics db)) as [E|[x E]];
    [apply Hwf|..]; unfold analytics_of_note, objects_filter; rewrite E; auto.
Qed.

(** A float between 1 and 5 is finite, so it has an integer part. *)
Lemma trunc_between (f : float) :
  PrimFloat.leb 1 f = true → PrimFloat.leb f 5 = true → is_Some (Py.trunc f).
Proof.
  rewrite !leb_spec. unfold Py.trunc.
  destruct (Prim2SF f) as [s|s| |s m e]; intros H1 H2.
  - eauto.
  - destruct s; vm_compute in H1, H2; congruence.
  - vm_compute in H1. congruence.
  - eauto.
Qed.

Lemma float_of_Z_1 : Py.float_of_Z 1 = 1%float.
Proof. vm_compute. reflexivity. Qed.

Lemma float_of_Z_5 : Py.float_of_Z 5 = 5%float.
Proof. vm_compute. reflexivity. Qed.

Lemma analytics_row_note db note :
  db_wf db → analytics_note (row (analytics_row note db)) = pk note.
Proof.
  intros Hwf. destruct (analytics_query db note Hwf) as [E|E].
  - unfold analytics_row. by rewrite E.
  - assert (analytics_row note db ∈ analytics_of_note (pk note) db) as Hin
      by (rewrite E; left).
    apply elem_of_select in Hin as [_ Hin]. by apply Z.eqb_eq.
Qed.

(** Any other analytics row is of another note. *)
Lemma analytics_row_only db note j y :
  db_wf db → analytics db !! j = Some y → analytics_note y = pk note →
  j = pk (analytics_row note db).
Proof.
  intros Hwf Hj Hy.
  assert (mkInstance j y ∈ analytics_of_note (pk note) db) as Hin.
  { apply elem_of_select. simpl. split; [done|]. by apply Z.eqb_eq. }
  destruct (analytics_query db note Hwf) as [E|E]; rewrite E in Hin.
  - by apply elem_of_nil in Hin.
  - apply list_elem_of_singleton in Hin. by rewrite <- Hin.
Qed.

(** Writing the analytics row of a note, got or created, leaves the note
    with exactly that row. *)
Lemma analytics_query_upsert db note x :
  db_wf db → analytics_note x = pk note →
  select (λ _ a, analytics_note a =? pk note)
    (<[pk (analytics_row note db) := x]> (analytics db)) =
  [mkInstance (pk (analytics_row note db)) x].
Proof.
  intros Hwf Hx. apply select_singleton.
  - apply elem_of_select. simpl. rewrite lookup_insert_eq. split; [done|].
    by apply Z.eqb_eq.
  - intros [j y] [Hy1 Hy2%Z.eqb_eq]%elem_of_select. simpl in *.
    destruct (decide (pk (analytics_row note db) = j)) as [<-|Hne].
    + rewrite lookup_insert_eq in Hy1. congruence.
    + rewrite lookup_insert_ne in Hy1 by done.
      exfalso. apply Hne. symmetry. by eapply analytics_row_only.
Qed.

(** ... and keeps the store well formed. *)
Lemma db_wf_upsert_analytics db note x :
  db_wf db → is_Some (notes db !! pk note) → analytics_note x = pk note →
  db_wf (with_analytics <[pk (analytics_row note db) := x]> db).
Proof.
  intros Hwf Hnote Hx. split; simpl; try apply Hwf.
  - intros i a Hi j b Hj Hab.
    destruct (decide (pk (analytics_row note db) = i)) as [<-|Hi'];
      destruct (decide (pk (analytics_row note db) = j)) as [<-|Hj']; try done.
    + rewrite lookup_insert_eq in Hi. rewrite lookup_insert_ne in Hj by done.
      symmetry. eapply analytics_row_only; eauto. congruence.
    + rewrite lookup_insert_eq in Hj. rewrite lookup_insert_ne in Hi by done.
      eapply analytics_row_only; eauto. congruence.
    + rewrite lookup_insert_ne in Hi, Hj by done.
      eapply (wf_analytics_note _ Hwf); eauto.
  - intros i a Hi.
    destruct (decide (pk (analytics_row note db) = i)) as [<-|Hi'].
    + rewrite lookup_insert_eq in Hi. injection Hi as <-. by rewrite Hx.
    + rewrite lookup_insert_ne in Hi by done. eapply (wf_analytics_fk _ Hwf); eauto.
Qed.

(** What [rate_note] does with a rating it lets through. *)
Lemma rate_note_accepted w request note_id db n z :
  db_wf db →
  owns_note request db note_id n →
  Py.truthy (data_get request "rating") = true →
  Py.int_le 1 (data_get request "rating") = Some true →
  Py.le_int (data_get request "rating") 5 = Some true →
  stored_rating (data_get request "rating") = Some z →
  let a := analytics_row (mkInstance note_id n) db in
  exec w (rate_note request note_id) db =
    mkRun [] (with_analytics <[pk a := with_rating z (row a)]> db)
      (inr (mkResponse (PMessage "Rating saved successfully") HTTP_200_OK)).
Proof.
  intros Hwf Hown Ht H1 H5 Hs a.
  unfold rate_note, get_note, qs_get.
  remember (data_get request "rating") as v eqn:Hv. clear Hv. simpl.
  rewrite (notes_query_owned _ _ _ _ Hown). simpl.
  rewrite Ht. simpl. unfold py_between, py_int_le, py_le_int, mbind, Prog_bind.
  rewrite H1. simpl. rewrite H5. simpl.
  destruct (analytics_query db (mkInstance note_id n) Hwf) as [E|E];
    simpl in E; rewrite E; simpl;
    (destruct v; simpl in *; try done;
     [ injection Hs as <- | injection Hs as <- | rewrite Hs; simpl ]);
    subst a; unfold analytics_row; simpl; rewrite E; try reflexivity.
  all: unfold with_analytics, with_rating; simpl; f_equal; by rewrite insert_insert_eq.
Qed.

(** What [rate_note] does with a rating it turns down: nothing. *)
Lemma rate_note_rejected w request note_id db n :
  owns_note request db note_id n →
  Py.truthy (data_get request "rating") = false ∨
  Py.int_le 1 (data_get request "rating") = Some false ∨
  (Py.int_le 1 (data_get request "rating") = Some true ∧
   Py.le_int (data_get request "rating") 5 = Some false) →
  exec w (rate_note request note_id) db =
    mkRun [] db
      (inr (mkResponse (PError "Rating must be between 1 and 5") HTTP_400_BAD_REQUEST)).
Proof.
  intros Hown H.
  unfold rate_note, get_note, qs_get.
  remember (data_get request "rating") as v eqn:Hv. clear Hv. simpl.
  rewrite (notes_query_owned _ _ _ _ Hown). simpl.
  destruct H as [Ht|H]; [by rewrite Ht|].
  destruct (Py.truthy v); simpl; [|done].
  unfold py_between, py_int_le, py_le_int, mbind, Prog_bind.
  destruct H as [H1|[H1 H5]]; rewrite H1; simpl; [done|]. by rewrite H5.
Qed.

(** The test of the view on null and numbers is [accepted_rating]. *)
Lemma accepted_rating_test (v : Py.value) :
  number_or_null v = true →
  if accepted_rating v
  then Py.truthy v = true ∧ Py.int_le 1 v = Some true ∧ Py.le_int v 5 = Some true
  else Py.truthy v = false ∨ Py.int_le 1 v = Some false ∨
       (Py.int_le 1 v = Some true ∧ Py.le_int v 5 = Some false).
Proof.
  destruct v as [|b|z|f| | |]; simpl; try done; intros _.
  - by left.
  - destruct b; simpl; auto.
  - destruct (Z.leb_spec 1 z), (Z.leb_spec z 5); simpl; auto.
    split_and!; try done. apply negb_true_iff, Z.eqb_neq. lia.
  - rewrite float_of_Z_1, float_of_Z_5.
    destruct (PrimFloat.eqb f 0), (PrimFloat.leb 1 f), (PrimFloat.leb f 5); simpl; auto.
Qed.

Lemma accepted_rating_stored (v : Py.value) :
  accepted_rating v = true → is_Some (stored_rating v).
Proof.
  destruct v as [|b|z|f| | |]; simpl; try done; eauto.
  intros [[_ H1]%andb_prop H5]%andb_prop. by apply trunc_between.
Qed.

(** C6, as the code has it: for a rating that is absent, null or a
    number, [rate_note] answers 200 exactly when the number is not zero
    and lies between 1 and 5 (for an integer: when it is in [1,5]), and
    then overwrites [user_rating] of the note's analytics row, got or
    created, with the integer part of the number; otherwise it answers
    400 and leaves the store as it was. *)
Theorem rate_note_number w request note_id db n :
  db_wf db →
  owns_note request db note_id n →
  number_or_null (data_get request "rating") = true →
  let v := data_get request "rating" in
  let r := exec w (rate_note request note_id) db in
  let a := analytics_row (mkInstance note_id n) db in
  (∀ z, v = Py.Int z → accepted_rating v = true ↔ 1 ≤ z ≤ 5) ∧
  (accepted_rating v = true →
   ∃ z, stored_rating v = Some z ∧
        (∀ k, v = Py.Int k → z = k) ∧
        outcome r = inr (mkResponse (PMessage "Rating saved successfully") HTTP_200_OK) ∧
        final r = with_analytics <[pk a := with_rating z (row a)]> db ∧
        analytics_of_note note_id (final r) = [mkInstance (pk a) (with_rating z (row a))]) ∧
  (accepted_rating v = false →
   outcome r =
     inr (mkResponse (PError "Rating must be between 1 and 5") HTTP_400_BAD_REQUEST) ∧
   final r = db) ∧
  calls r = [].
Proof.
  intros Hwf Hown Hnum v r a.
  pose proof (accepted_rating_test v Hnum) as Htest.
  assert (calls r = [] ∧
          (accepted_rating v = true →
           ∃ z, stored_rating v = Some z ∧
             r = mkRun [] (with_analytics <[pk a := with_rating z (row a)]> db)
                   (inr (mkResponse (PMessage "Rating saved successfully") HTTP_200_OK))) ∧
          (accepted_rating v = false →
           r = mkRun [] db
                 (inr (mkResponse (PError "Rating must be between 1 and 5")
                         HTTP_400_BAD_REQUEST)))) as (Hc & Hyes & Hno).
  { destruct (accepted_rating v) eqn:Hacc.
    - destruct Htest as (Ht & H1 & H5).
      destruct (accepted_rating_stored v Hacc) as [z Hz].
      pose proof (rate_note_accepted w _ _ _ _ _ Hwf Hown Ht H1 H5 Hz) as Hr.
      fold r in Hr. simpl in Hr. split_and!; [by rewrite Hr| |done].
      intros _. exists z. by split.
    - pose proof (rate_note_rejected w _ _ _ _ Hown Htest) as Hr.
      fold r in Hr. split_and!; [by rewrite Hr|done|done]. }
  split_and!; [| |by intros ->%Hno|done].
  - intros z ->. simpl. rewrite andb_true_iff, !Z.leb_le. done.
  - intros Hacc. destruct (Hyes Hacc) as (z & Hz & ->). exists z. simpl.
    split_and!; [done| |done|done|].
    + intros k Hk. unfold v in Hz, Hk. rewrite Hk in Hz. simpl in Hz. congruence.
    + unfold analytics_of_note, objects_filter. simpl.
      apply (analytics_query_upsert db (mkInstance note_id n)); [done|].
      simpl. apply (analytics_row_note db (mkInstance note_id n) Hwf).
Qed.

(** ** Views of a note *)

Lemma retrieve_step w request note_id db n :
  db_wf db →
  owns_note request db note_id n →
  let a := analytics_row (mkInstance note_id n) db in
  exec w (StudyNoteDetailView_retrieve note_id request) db =
    mkRun [] (with_analytics <[pk a := with_view (clock w) (row a)]> db)
      (inr (mkResponse (PNote (mkInstance note_id n)) HTTP_200_OK)).
Proof.
  intros Hwf [Hn Hu] a.
  unfold StudyNoteDetailView_retrieve, get_object, qs_get, notes_of_user. simpl.
  unfold qs_filter, objects_filter. rewrite select_filter_pk, Hn, Hu. simpl.
  destruct (analytics_query db (mkInstance note_id n) Hwf) as [E|E];
    simpl in E; rewrite E; simpl; subst a; unfold analytics_row; simpl; rewrite E;
    [|reflexivity].
  unfold with_analytics, with_view; simpl; f_equal; by rewrite insert_insert_eq.
Qed.

(** The state of a note's analytics after a retrieval. *)
Lemma retrieve_analytics w request note_id db n :
  db_wf db →
  owns_note request db note_id n →
  let r := exec w (StudyNoteDetailView_retrieve note_id request) db in
  ∃ a, analytics_of_note note_id (final r) = [a] ∧
       views_count (row a) = views_of note_id db + 1 ∧
       last_viewed (row a) = Some (clock w) ∧
       outcome r = inr (mkResponse (PNote (mkInstance note_id n)) HTTP_200_OK) ∧
       db_wf (final r) ∧
       owns_note request (final r) note_id n.
Proof.
  intros Hwf Hown r. subst r. rewrite (retrieve_step _ _ _ _ _ Hwf Hown). simpl.
  pose proof (analytics_row_note db (mkInstance note_id n) Hwf) as Hnote.
  eexists. split_and!.
  - unfold analytics_of_note, objects_filter. simpl.
    apply (analytics_query_upsert db (mkInstance note_id n)); [done|]. exact Hnote.
  - simpl. f_equal. unfold views_of, analytics_row. simpl.
    by destruct (analytics_of_note note_id db).
  - reflexivity.
  - reflexivity.
  - apply (db_wf_upsert_analytics db (mkInstance note_id n)); [done| |exact Hnote].
    destruct Hown as [Hn _]. simpl. eauto.
  - exact Hown.
Qed.

(** C9: every retrieval of a note by its owner answers 200 with the
    note, leaves the note with one analytics row whose [views_count] is
    one more than before (counting from 0 when there was no row) and
    whose [last_viewed] is the time of the call; a second retrieval
    counts again. *)
Theorem retrieve_records_view w1 w2 request note_id db n :
  db_wf db →
  owns_note request db note_id n →
  let r1 := exec w1 (StudyNoteDetailView_retrieve note_id request) db in
  let r2 := exec w2 (StudyNoteDetailView_retrieve note_id request) (final r1) in
  (analytics_of_note note_id db = [] → views_of note_id db = 0) ∧
  ∃ a1 a2,
    outcome r1 = inr (mkResponse (PNote (mkInstance note_id n)) HTTP_200_OK) ∧
    analytics_of_note note_id (final r1) = [a1] ∧
    views_count (row a1) = views_of note_id db + 1 ∧
    last_viewed (row a1) = Some (clock w1) ∧
    outcome r2 = inr (mkResponse (PNote (mkInstance note_id n)) HTTP_200_OK) ∧
    analytics_of_note note_id (final r2) = [a2] ∧
    views_count (row a2) = views_of note_id db + 2 ∧
    last_viewed (row a2) = Some (clock w2).
Proof.
  intros Hwf Hown r1 r2. split.
  { intros E. unfold views_of. by rewrite E. }
  destruct (retrieve_analytics w1 _ _ _ _ Hwf Hown) as (a1 & E1 & Hv1 & Hl1 & Ho1 & Hwf1 & Hown1).
  fold r1 in E1, Ho1, Hwf1, Hown1.
  destruct (retrieve_analytics w2 _ _ _ _ Hwf1 Hown1) as (a2 & E2 & Hv2 & Hl2 & Ho2 & _).
  fold r2 in E2, Ho2.
  exists a1, a2. split_and!; try done.
  rewrite Hv2. unfold views_of at 1. rewrite E1, Hv1. lia.
Qed.

(** ** Counting the topics of a user *)

Lemma length_select {R} (P : Z → R → bool) (tbl : gmap Z R) :
  length (select P tbl) = size (filter (λ kv, P kv.1 kv.2) tbl).
Proof. unfold select. by rewrite length_fmap, length_map_to_list. Qed.

Lemma filter_select {R} (P : Z → R → bool) (Q : Instance R → bool) (tbl : gmap Z R) :
  filter (λ x, Q x) (select P tbl) ≡ₚ select (λ i r, P i r && Q (mkInstance i r)) tbl.
Proof.
  apply NoDup_Permutation.
  - apply NoDup_filter, NoDup_select.
  - apply NoDup_select.
  - intros [i r]. rewrite list_elem_of_filter, !elem_of_select. simpl.
    rewrite andb_true_iff. split.
    + intros [HQ%Is_true_eq_true [H1 H2]]. done.
    + intros [H1 [H2 HQ]]. split; [by apply Is_true_eq_left|done].
Qed.

Lemma count_own request u (g : StudyTopic → string) (s : string) db :
  user request = User u →
  length (qs_filter (λ t, String.eqb (g (row t)) s) (topics_of_user request) db) =
  count_topics u g s db.
Proof.
  intros Hu. unfold qs_filter, topics_of_user, objects_filter, count_topics.
  rewrite (filter_select _ (λ t, String.eqb (g (row t)) s)), length_select.
  f_equal. apply map_filter_ext. intros i t _. simpl.
  rewrite Hu. simpl.
  rewrite andb_True, !Is_true_true, Z.eqb_eq, String.eqb_eq.
  split; intros [H1 H2]; split; congruence.
Qed.

Lemma length_own request u db :
  user request = User u →
  length (topics_of_user request db) = size (own_topics u db).
Proof.
  intros Hu. unfold topics_of_user, objects_filter, own_topics. rewrite length_select.
  f_equal. apply map_filter_ext. intros i t _. simpl. rewrite Hu. simpl.
  rewrite Is_true_true, Z.eqb_eq. naive_solver.
Qed.

(** ** Access *)

Section Access.

Context
  (framework : Framework)
  (filter_topics : Request → list (Instance StudyTopic) → list (Instance StudyTopic))
  (filter_notes : Request → list (Instance StudyNote) → list (Instance StudyNote))
  (paginate_subjects : Request → list (Instance Subject) → list (Instance Subject))
  (topic_validate :
     option (Instance StudyTopic) → bool → gmap string Py.value → option StudyTopic)
  (preference_validate :
     Instance UserPreference → bool → gmap string Py.value → option UserPreference)
  (default_preference_fields : list (string * string)).

Local Abbreviation serve_here :=
  (serve framework filter_topics filter_notes paginate_subjects
     topic_validate preference_validate default_preference_fields).

(** Without a login no view is entered, whatever the endpoint and the
    method. *)
Lemma serve_anonymous w e m request db :
  user request = AnonymousUser →
  exec w (serve_here e m request) db = mkRun [] db (inr (denied framework)).
Proof.
  intros Hu. unfold serve, dispatch.
  assert (check_permissions (permission_classes (route filter_topics filter_notes
            paginate_subjects topic_validate preference_validate
            default_preference_fields e)) request = Raise not_authenticated) as ->.
  { destruct e; unfold check_permissions; simpl; unfold has_permission; by rewrite Hu. }
  reflexivity.
Qed.

(** C8: a topic of another user is not found, whether the request is to
    retrieve it, to update it (PUT or PATCH), to delete it or to
    generate notes for it; the answer is 404 and nothing is done. *)
Theorem foreign_topic_not_found w request u topic_id db t :
  user request = User u →
  topics db !! topic_id = Some t →
  topic_user t ≠ u →
  (∀ m, m ∈ [GET; PUT; PATCH; DELETE] →
     exec w (serve_here (TopicDetail topic_id) m request) db =
       mkRun [] db
         (inr (mkResponse
                 (PDetail (not_found_detail framework
                             (mkExn Http404 "No StudyTopic matches the given query.")))
                 HTTP_404_NOT_FOUND))) ∧
  exec w (serve_here (TopicGenerate topic_id) POST request) db =
    mkRun [] db (inr (mkResponse (PError "Topic not found") HTTP_404_NOT_FOUND)).
Proof.
  intros Hu Ht Hne.
  assert (is_user (user request) (topic_user t) = false) as Hno.
  { rewrite Hu. simpl. apply Z.eqb_neq. congruence. }
  split.
  - intros m Hm.
    unfold serve, dispatch, check_permissions. simpl. unfold has_permission. rewrite Hu.
    simpl.
    repeat (apply elem_of_cons in Hm as [->|Hm]); [..|by apply elem_of_nil in Hm];
      simpl; unfold qs_filter, topics_of_user, objects_filter;
      rewrite select_filter_pk, Ht, Hno; reflexivity.
  - unfold serve, dispatch, check_permissions. simpl. unfold has_permission. rewrite Hu.
    simpl. unfold objects_filter.
    rewrite (select_pk (λ t, is_user (user request) (topic_user t))), Ht, Hno.
    reflexivity.
Qed.

(** Case analysis on every test a program makes. *)
Ltac crack :=
  repeat (simpl; unfold mbind, Prog_bind, except_Exception;
          match goal with
          | |- context [is_exception ?c] => destruct (is_exception c) eqn:?
          | |- context [match ?x with _ => _ end] => destruct x eqn:?
          end).

Lemma is_user_owner request u owner :
  user request = User u → is_user (user request) owner = true → owner = u.
Proof. intros ->. simpl. intros H%Z.eqb_eq. done. Qed.

Lemma topic__user_owner request u db n :
  user request = User u → topic__user db (user request) n = true →
  note_owner db n = Some u.
Proof.
  intros Hu. unfold topic__user, note_owner.
  destruct (topics db !! note_topic n) as [t|]; [|done].
  intros H. simpl. f_equal. by eapply is_user_owner.
Qed.

(** The handler found for a method is the framework's [options] or a
    handler the view defines. *)
Lemma method_handler_cases (v : View) m h :
  method_handler framework v m = Some h →
  h = options framework v ∨ ∃ m', handler v m' = Some h.
Proof.
  unfold method_handler. destruct (bool_decide _); [|done].
  destruct m; intros H; try (right; eexists; exact H). left. by injection H as <-.
Qed.

(** An answer to OPTIONS is the metadata of the view. *)
Lemma options_outcome w (v : View) request db resp :
  outcome (exec w (options framework v request) db) = inr resp →
  resp = mkResponse PMetadata HTTP_200_OK.
Proof.
  unfold options. destruct (metadata framework); [|done].
  unfold mbind, Prog_bind. rewrite exec_try_else. simpl.
  destruct (outcome (exec w _ db)) as [e|[]]; simpl; [done|]. by intros [= <-].
Qed.

(** What OPTIONS leaves of the store is what the [get_object] of the
    view leaves, where the metadata calls it. *)
Lemma options_final w (v : View) request db :
  final (exec w (options framework v request) db) = db ∨
  ∃ g, metadata_object v = Some g ∧
       final (exec w (options framework v request) db) = final (exec w (g request) db).
Proof.
  unfold options. destruct (metadata framework); [|by left].
  unfold mbind, Prog_bind. rewrite exec_try_else.
  destruct (metadata_object v) as [g|]; [|by left].
  right. exists g. split; [done|]. unfold try_except. rewrite exec_try_else.
  destruct (exec w (g request) db) as [cs db' [e|[]]]; simpl; [|done].
  by destruct (metadata_passes_over (exn_class e)).
Qed.

(** The framework's rendering of exceptions shows no record. *)
Lemma dispatch_scoped w u (v : View) m request db :
  user request = User u →
  (∀ h, method_handler framework v m = Some h → outcome_scoped u (exec w (h request) db)) →
  outcome_scoped u (exec w (dispatch framework v m request) db).
Proof.
  intros Hu Hh resp. unfold dispatch, try_except, mbind, Prog_bind, check_permissions.
  destruct (forallb _ _); simpl; [|by intros [= <-]].
  destruct (method_handler framework v m) as [h|]; simpl; [|by intros [= <-]].
  rewrite exec_try_else. simpl.
  specialize (Hh h eq_refl). unfold outcome_scoped in Hh.
  destruct (exec w (h request) db) as [cs db' [e|resp']]; simpl in *.
  - unfold handle_exception.
    destruct (exn_class e); simpl; try done; by intros [= <-].
  - intros [= <-]. by apply Hh.
Qed.

Ltac shown :=
  unfold outcome_scoped; simpl; intros ? [= <-]; simpl; try done;
  unfold note_owner; simpl; rewrite ?lookup_insert_eq; simpl; try congruence.

Lemma generate_notes_scoped w request u topic_id db :
  user request = User u →
  outcome_scoped u (exec w (generate_notes request topic_id) db).
Proof.
  intros Hu. unfold generate_notes, get_topic, qs_get. simpl.
  unfold objects_filter.
  rewrite (select_pk (λ t, is_user (user request) (topic_user t))).
  destruct (topics db !! topic_id) as [t|] eqn:Ht; simpl;
    [destruct (is_user (user request) (topic_user t)) eqn:Hown; simpl|];
    [|shown..].
  pose proof (is_user_owner _ _ _ Hu Hown) as Hu'.
  crack; shown.
Qed.

Lemma regenerate_notes_scoped w request u topic_id db :
  user request = User u →
  outcome_scoped u (exec w (regenerate_notes request topic_id) db).
Proof.
  intros Hu. unfold regenerate_notes, get_topic, qs_get. simpl.
  unfold objects_filter.
  rewrite (select_pk (λ t, is_user (user request) (topic_user t))).
  destruct (topics db !! topic_id) as [t|] eqn:Ht; simpl;
    [destruct (is_user (user request) (topic_user t)) eqn:Hown; simpl|];
    [|shown..].
  pose proof (is_user_owner _ _ _ Hu Hown) as Hu'.
  crack; shown.
Qed.

Lemma rate_note_scoped w request u note_id db :
  outcome_scoped u (exec w (rate_note request note_id) db).
Proof.
  unfold rate_note, get_note, qs_get, py_between, py_int_le, py_le_int,
    user_rating_column.
  crack; shown.
Qed.

Lemma topic_analytics_scoped w request u db :
  user request = User u →
  outcome_scoped u (exec w (topic_analytics request) db).
Proof.
  intros Hu. unfold topic_analytics, qs_count, outcome_scoped. simpl.
  intros ? [= <-]. simpl. unfold own_counts.
  rewrite (length_own _ _ _ Hu), !(count_own _ _ _ _ _ Hu). reflexivity.
Qed.

(** What is taken of the filter backends and of the serializers: a
    filter or a page only leaves rows out, and an update does not change
    the owner of a record. *)
Hypothesis filter_topics_sub : ∀ request l x, x ∈ filter_topics request l → x ∈ l.
Hypothesis filter_notes_sub : ∀ request l x, x ∈ filter_notes request l → x ∈ l.
Hypothesis topic_validate_owner :
  ∀ instance partial d t,
    topic_validate (Some instance) partial d = Some t →
    topic_user t = topic_user (row instance).
Hypothesis preference_validate_owner :
  ∀ instance partial d p,
    preference_validate instance partial d = Some p →
    preference_user p = preference_user (row instance).

Lemma topic_list_scoped w request u db :
  user request = User u →
  outcome_scoped u (exec w (StudyTopicListView_list filter_topics request) db).
Proof.
  intros Hu. unfold StudyTopicListView_list. shown.
  apply Forall_forall. intros x [_ Hx]%filter_topics_sub%elem_of_select.
  by eapply is_user_owner.
Qed.

Lemma topic_create_scoped w request u db :
  user request = User u →
  outcome_scoped u (exec w (StudyTopicListView_create topic_validate request) db).
Proof.
  intros Hu. unfold StudyTopicListView_create. rewrite Hu.
  destruct (topic_validate None false (data request)); shown.
Qed.

Lemma topic_object w request u key db :
  user request = User u →
  exec w (get_object "StudyTopic" (topics_of_user request) key) db =
    mkRun [] db
      match topics db !! key with
      | Some t =>
          if is_user (user request) (topic_user t) then inr (mkInstance key t)
          else inl (mkExn Http404 "No StudyTopic matches the given query.")
      | None => inl (mkExn Http404 "No StudyTopic matches the given query.")
      end.
Proof.
  intros Hu. unfold get_object, qs_get, try_except. simpl.
  unfold qs_filter, topics_of_user, objects_filter. rewrite select_filter_pk.
  destruct (topics db !! key) as [t|]; [|done].
  by destruct (is_user (user request) (topic_user t)).
Qed.

Lemma topic_detail_scoped w request u key m h db :
  user request = User u →
  handler (StudyTopicDetailView topic_validate key) m = Some h →
  outcome_scoped u (exec w (h request) db).
Proof.
  intros Hu Hh.
  pose proof (topic_object w request u key db Hu) as Hobj.
  destruct m; simpl in Hh; try discriminate Hh; injection Hh as <-;
    unfold StudyTopicDetailView_retrieve, StudyTopicDetailView_update,
      StudyTopicDetailView_destroy, mbind, Prog_bind;
    rewrite exec_try_else, Hobj; simpl;
    (destruct (topics db !! key) as [t|] eqn:Ht; [|shown]);
    (destruct (is_user (user request) (topic_user t)) eqn:Hown; [|shown]);
    pose proof (is_user_owner _ _ _ Hu Hown) as Hu'; simpl.
  - shown.
  - destruct (topic_validate _ _ _) as [t'|] eqn:Hv; [|shown].
    apply topic_validate_owner in Hv. simpl in Hv. shown.
  - destruct (topic_validate _ _ _) as [t'|] eqn:Hv; [|shown].
    apply topic_validate_owner in Hv. simpl in Hv. shown.
  - shown.
Qed.

Lemma note_list_scoped w request u db :
  user request = User u →
  outcome_scoped u (exec w (StudyNoteListView_list filter_notes request) db).
Proof.
  intros Hu. unfold StudyNoteListView_list. shown.
  apply Forall_forall. intros x [_ Hx]%filter_notes_sub%elem_of_select.
  by eapply topic__user_owner.
Qed.

Lemma note_retrieve_scoped w request u key db :
  user request = User u →
  outcome_scoped u (exec w (StudyNoteDetailView_retrieve key request) db).
Proof.
  intros Hu. unfold StudyNoteDetailView_retrieve, get_object, qs_get, try_except. simpl.
  unfold qs_filter, notes_of_user, objects_filter. rewrite select_filter_pk.
  destruct (notes db !! key) as [n|] eqn:Hn; [|shown].
  destruct (topic__user db (user request) n) eqn:Hown; [|shown].
  pose proof (topic__user_owner _ _ _ _ Hu Hown) as Hu'.
  crack; shown.
Qed.

Lemma preference_object_scoped w request u db :
  user request = User u →
  ∀ p, outcome (exec w (UserPreferenceView_get_object default_preference_fields request) db)
         = inr p →
       preference_user (row p) = u.
Proof.
  intros Hu p. unfold UserPreferenceView_get_object, qs_get. simpl.
  unfold objects_filter. rewrite Hu.
  destruct (select _ _) as [|x [|y l]] eqn:E; simpl.
  - by intros [= <-].
  - intros [= <-].
    assert (x ∈ select (λ _ p, is_user (User u) (preference_user p)) (preferences db))
      as [_ Hx]%elem_of_select by (rewrite E; left).
    simpl in Hx. apply Z.eqb_eq in Hx. done.
  - done.
Qed.

Lemma preference_scoped w request u m h db :
  user request = User u →
  handler (UserPreferenceView preference_validate default_preference_fields) m = Some h →
  outcome_scoped u (exec w (h request) db).
Proof.
  intros Hu Hh.
  pose proof (preference_object_scoped w request u db Hu) as Hobj.
  destruct m; simpl in Hh; try discriminate Hh; injection Hh as <-;
    unfold UserPreferenceView_retrieve, UserPreferenceView_update, mbind, Prog_bind;
    rewrite exec_try_else;
    destruct (exec w (UserPreferenceView_get_object _ request) db)
      as [cs db' [e|p]]; simpl in *;
    try (unfold outcome_scoped; simpl; by intros ? [=]);
    specialize (Hobj p eq_refl).
  - shown.
  - destruct (preference_validate _ _ _) as [p'|] eqn:Hv; [|shown].
    apply preference_validate_owner in Hv. simpl in Hv. shown.
  - destruct (preference_validate _ _ _) as [p'|] eqn:Hv; [|shown].
    apply preference_validate_owner in Hv. simpl in Hv. shown.
Qed.

(** ** Every endpoint keeps the store well formed *)

Lemma wf_create_note_analytics db n :
  db_wf db →
  is_Some (topics db !! note_topic n) →
  select (λ _ r, note_topic r =? note_topic n) (notes db) = [] →
  db_wf (with_analytics
           <[fresh (dom (analytics db)) :=
               new_analytics (mkInstance (fresh (dom (notes db))) n)]>
           (with_notes <[fresh (dom (notes db)) := n]> db)).
Proof.
  intros Hwf Ht Hnone.
  apply (wf_create_analytics (with_notes <[fresh (dom (notes db)) := n]> db)
           (fresh (dom (notes db)))).
  - by apply wf_create_note.
  - simpl. rewrite lookup_insert_eq. eauto.
  - simpl. by apply no_analytics_for_fresh_note.
  - reflexivity.
Qed.

(** The get-or-create of analytics: what follows runs on a well-formed
    store that holds the row. *)
Lemma get_or_create_wf w (note : Instance StudyNote) db {A}
    (k : Instance NoteAnalytics * bool → Prog A) :
  db_wf db →
  is_Some (notes db !! pk note) →
  (∀ ac db', db_wf db' → analytics db' !! pk ac.1 = Some (row ac.1) →
             db_wf (final (exec w (k ac) db'))) →
  db_wf (final (exec w (try_else (NoteAnalytics_get_or_create note) (λ _, None) k) db)).
Proof.
  intros Hwf Hn Hk. unfold NoteAnalytics_get_or_create, qs_get. simpl.
  destruct (analytics_of_note (pk note) db) as [|x [|y l]] eqn:E; simpl; [| |done].
  - apply Hk; simpl; [|by rewrite lookup_insert_eq].
    by apply (wf_create_analytics _ (pk note)).
  - assert (x ∈ analytics_of_note (pk note) db) as [Hx _]%elem_of_select
      by (rewrite E; left).
    by apply Hk.
Qed.

Ltac keep_wf :=
  simpl;
  repeat first
    [ assumption
    | apply wf_save_topic
    | apply wf_delete_note
    | match goal with
      | |- db_wf (with_analytics _ (with_notes <[_ := ?n]> ?d)) =>
          apply (wf_create_note_analytics d n);
          [ | by (simpl; rewrite ?lookup_insert_eq; eauto)
            | match goal with H : _ = [] |- _ => exact H end ]
      end ].

Lemma generate_notes_wf w request topic_id db :
  db_wf db → db_wf (final (exec w (generate_notes request topic_id) db)).
Proof.
  intros Hwf. unfold generate_notes, get_topic, qs_get. simpl.
  unfold objects_filter.
  rewrite (select_pk (λ t, is_user (user request) (topic_user t))).
  destruct (topics db !! topic_id) as [t|] eqn:Ht; simpl;
    [destruct (is_user (user request) (topic_user t)) eqn:Hown; simpl|]; try done.
  crack; keep_wf.
Qed.

Lemma regenerate_notes_wf w request topic_id db :
  db_wf db → db_wf (final (exec w (regenerate_notes request topic_id) db)).
Proof.
  intros Hwf. unfold regenerate_notes, get_topic, qs_get. simpl.
  unfold objects_filter.
  rewrite (select_pk (λ t, is_user (user request) (topic_user t))).
  destruct (topics db !! topic_id) as [t|] eqn:Ht; simpl;
    [destruct (is_user (user request) (topic_user t)) eqn:Hown; simpl|]; try done.
  destruct (notes_of_topic topic_id db) as [|[old_id old] [|y l]] eqn:E; simpl.
  - crack; keep_wf.
  - assert (mkInstance old_id old ∈ notes_of_topic topic_id db)
      as [Hold Hnt%Z.eqb_eq]%elem_of_select by (rewrite E; left).
    simpl in Hold, Hnt.
    pose proof (notes_query_deleted _ _ _ _ Hwf Hold Hnt) as Hdel.
    crack; keep_wf.
  - keep_wf.
Qed.

Lemma rate_note_wf w request note_id db :
  db_wf db → db_wf (final (exec w (rate_note request note_id) db)).
Proof.
  intros Hwf. unfold rate_note, get_note, qs_get.
  remember NoteAnalytics_get_or_create as goc eqn:Hgoc. simpl.
  unfold objects_filter.
  rewrite (select_pk (λ n, topic__user db (user request) n)).
  destruct (notes db !! note_id) as [n|] eqn:Hn; simpl;
    [destruct (topic__user db (user request) n) eqn:Hown; simpl|]; try done.
  unfold py_between, py_int_le, py_le_int, mbind, Prog_bind.
  destruct (Py.truthy _); simpl; [|done].
  destruct (Py.int_le 1 _) as [[|]|]; simpl; try done.
  destruct (Py.le_int _ 5) as [[|]|]; simpl; try done.
  subst goc. apply get_or_create_wf; [done|simpl; eauto|].
  intros [a c] db' Hwf' Ha. simpl in *.
  destruct (user_rating_column _) eqn:Hcol; unfold user_rating_column in Hcol;
    repeat match type of Hcol with
           | match ?x with _ => _ end = _ => destruct x
           end; try discriminate Hcol; try done;
    injection Hcol as <-; simpl; by eapply wf_rewrite_analytics.
Qed.

Lemma note_retrieve_wf w request key db :
  db_wf db → db_wf (final (exec w (StudyNoteDetailView_retrieve key request) db)).
Proof.
  intros Hwf. unfold StudyNoteDetailView_retrieve, get_object, qs_get, try_except.
  remember NoteAnalytics_get_or_create as goc eqn:Hgoc. simpl.
  unfold qs_filter, notes_of_user, objects_filter. rewrite select_filter_pk.
  destruct (notes db !! key) as [n|] eqn:Hn; [|done].
  destruct (topic__user db (user request) n) eqn:Hown; [|done].
  simpl. subst goc. apply get_or_create_wf; [done|simpl; eauto|].
  intros [a c] db' Hwf' Ha. simpl in *. by eapply wf_rewrite_analytics.
Qed.

Lemma topic_handlers_wf w request m h db :
  handler (StudyTopicListView filter_topics topic_validate) m = Some h →
  db_wf db → db_wf (final (exec w (h request) db)).
Proof.
  intros Hh Hwf. destruct m; try discriminate Hh; injection Hh as <-; [done|].
  unfold StudyTopicListView_create.
  destruct (topic_validate _ _ _); [|done]. destruct (user request); [done|].
  simpl. by apply wf_save_topic.
Qed.

Lemma topic_detail_wf w request u key m h db :
  user request = User u →
  handler (StudyTopicDetailView topic_validate key) m = Some h →
  db_wf db → db_wf (final (exec w (h request) db)).
Proof.
  intros Hu Hh Hwf.
  pose proof (topic_object w request u key db Hu) as Hobj.
  destruct m; simpl in Hh; try discriminate Hh; injection Hh as <-;
    unfold StudyTopicDetailView_retrieve, StudyTopicDetailView_update,
      StudyTopicDetailView_destroy, mbind, Prog_bind;
    rewrite exec_try_else, Hobj; simpl;
    (destruct (topics db !! key) as [t|] eqn:Ht; [|done]);
    (destruct (is_user (user request) (topic_user t)) eqn:Hown; [|done]); simpl;
    try done.
  - destruct (topic_validate _ _ _); [|done]. simpl. by apply wf_save_topic.
  - destruct (topic_validate _ _ _); [|done]. simpl. by apply wf_save_topic.
  - by apply wf_delete_topic.
Qed.

Lemma preference_object_wf w request db :
  db_wf db →
  let r := exec w (UserPreferenceView_get_object default_preference_fields request) db in
  db_wf (final r) ∧
  ∀ p, outcome r = inr p → preferences (final r) !! pk p = Some (row p).
Proof.
  intros Hwf. unfold UserPreferenceView_get_object, qs_get. simpl.
  unfold objects_filter.
  destruct (select _ (preferences db)) as [|x [|y l]] eqn:E; simpl.
  - destruct (user request) as [|u] eqn:Hu; simpl; [done|]. split.
    + by apply wf_create_preference.
    + intros p [= <-]. simpl. by rewrite lookup_insert_eq.
  - split; [done|]. intros p [= <-].
    assert (x ∈ select (λ _ p, is_user (user request) (preference_user p)) (preferences db))
      as [Hx _]%elem_of_select by (rewrite E; left).
    done.
  - done.
Qed.

Lemma preference_wf w request m h db :
  handler (UserPreferenceView preference_validate default_preference_fields) m = Some h →
  db_wf db → db_wf (final (exec w (h request) db)).
Proof.
  intros Hh Hwf.
  destruct (preference_object_wf w request db Hwf) as [Hwf' Hobj].
  destruct m; simpl in Hh; try discriminate Hh; injection Hh as <-;
    unfold UserPreferenceView_retrieve, UserPreferenceView_update, mbind, Prog_bind;
    rewrite exec_try_else;
    destruct (exec w (UserPreferenceView_get_object _ request) db)
      as [cs db' [e|p]]; simpl in *; try done;
    specialize (Hobj p eq_refl);
    (destruct (preference_validate _ _ _) as [p'|] eqn:Hv; [|done]);
    apply preference_validate_owner in Hv; simpl; by eapply wf_rewrite_preference.
Qed.

(** What a dispatch leaves of the store is what the handler leaves. *)
Lemma dispatch_final w (v : View) m request db :
  final (exec w (dispatch framework v m request) db) = db ∨
  ∃ h, method_handler framework v m = Some h ∧
       final (exec w (dispatch framework v m request) db) =
       final (exec w (h request) db).
Proof.
  unfold dispatch, try_except, mbind, Prog_bind, check_permissions.
  destruct (forallb _ _); simpl; [|by left].
  destruct (method_handler framework v m) as [h|]; simpl; [|by left].
  right. exists h. split; [done|]. rewrite exec_try_else. simpl.
  destruct (exec w (h request) db) as [cs db' [e|resp]]; simpl; [|done].
  unfold handle_exception. by destruct (exn_class e).
Qed.

(** X17: every request, to any endpoint and with any method, leaves a
    well-formed store well formed: the one-to-one links stay unique and
    no note or analytics row is left without its topic or note.  The
    stores the views are run on are thus the well-formed ones. *)
Theorem serve_keeps_wf w e m request db :
  db_wf db → db_wf (final (exec w (serve_here e m request) db)).
Proof.
  intros Hwf. unfold serve.
  destruct (user request) as [|u] eqn:Hu.
  { pose proof (serve_anonymous w e m request db Hu) as H. unfold serve in H.
    by rewrite H. }
  destruct (dispatch_final w
              (route filter_topics filter_notes paginate_subjects topic_validate
                 preference_validate default_preference_fields e) m request db)
    as [->|(h & Hh & ->)]; [done|].
  apply method_handler_cases in Hh as [->|[m' Hh]].
  { match goal with
    | |- context [options framework ?v] =>
        destruct (options_final w v request db) as [->|(g & Hg & ->)]; [done|]
    end.
    destruct e; try discriminate Hg.
    - assert (g = λ request, get_object "StudyTopic" (topics_of_user request) id;; Ret tt)
        as -> by (injection Hg as Hg'; exact (eq_sym Hg')).
      unfold mbind, Prog_bind. rewrite exec_try_else.
      rewrite (topic_object w request u _ db Hu). simpl.
      destruct (topics db !! id) as [t|]; [|done].
      by destruct (is_user (user request) (topic_user t)).
    - assert (g = λ request,
                UserPreferenceView_get_object default_preference_fields request;; Ret tt)
        as -> by (injection Hg as Hg'; exact (eq_sym Hg')).
      unfold mbind, Prog_bind. rewrite exec_try_else.
      destruct (preference_object_wf w request db Hwf) as [Hwf' _].
      by destruct (exec w (UserPreferenceView_get_object _ request) db)
        as [cs db' [x|p]]. }
  clear m. rename m' into m.
  destruct e.
  - destruct m; try discriminate Hh; injection Hh as <-. done.
  - by eapply topic_handlers_wf.
  - by eapply topic_detail_wf.
  - destruct m; try discriminate Hh; injection Hh as <-. done.
  - destruct m; try discriminate Hh; injection Hh as <-. by apply note_retrieve_wf.
  - by eapply preference_wf.
  - simpl in Hh. destruct (bool_decide _); [|done]. injection Hh as <-.
    by apply generate_notes_wf.
  - simpl in Hh. destruct (bool_decide _); [|done]. injection Hh as <-.
    by apply regenerate_notes_wf.
  - simpl in Hh. destruct (bool_decide _); [|done]. injection Hh as <-.
    by apply rate_note_wf.
  - simpl in Hh. destruct (bool_decide _); [|done]. injection Hh as <-. done.
Qed.

(** C7, as the code has it: every endpoint, the subject listing too,
    turns a request without a login away before the view is entered,
    whatever the method; every endpoint other than the subject listing
    shows the user only records of their own, and the counts of the
    topic analytics are counts over the topics of the user alone; and
    the subject listing shows a user who is logged in the subjects of
    the whole store. *)
Theorem login_required_and_scoped w e m request db :
  (user request = AnonymousUser →
   exec w (serve_here e m request) db = mkRun [] db (inr (denied framework))) ∧
  (∀ u, user request = User u → e ≠ Subjects →
        outcome_scoped u (exec w (serve_here e m request) db)) ∧
  (∀ u, user request = User u →
        exec w (serve_here Subjects GET request) db =
          mkRun [] db
            (inr (mkResponse
                    (PSubjects (paginate_subjects request (objects_all subjects db)))
                    HTTP_200_OK))).
Proof.
  split; [apply serve_anonymous|]. split; cycle 1.
  { intros u Hu. unfold serve, dispatch, check_permissions. simpl.
    unfold has_permission. by rewrite Hu. }
  intros u Hu He. unfold serve. apply dispatch_scoped; [done|].
  intros h [->|[m' Hh]]%method_handler_cases.
  { intros resp ->%options_outcome. exact I. }
  clear m. rename m' into m.
  destruct e; [done|..].
  - destruct m; try discriminate Hh; injection Hh as <-.
    + by apply topic_list_scoped.
    + by apply topic_create_scoped.
  - eapply topic_detail_scoped; [done|exact Hh].
  - destruct m; try discriminate Hh; injection Hh as <-. by apply note_list_scoped.
  - destruct m; try discriminate Hh; injection Hh as <-. by apply note_retrieve_scoped.
  - eapply preference_scoped; [done|exact Hh].
  - simpl in Hh. destruct (bool_decide _); [|done]. injection Hh as <-.
    by apply generate_notes_scoped.
  - simpl in Hh. destruct (bool_decide _); [|done]. injection Hh as <-.
    by apply regenerate_notes_scoped.
  - simpl in Hh. destruct (bool_decide _); [|done]. injection Hh as <-.
    by apply rate_note_scoped.
  - simpl in Hh. destruct (bool_decide _); [|done]. injection Hh as <-.
    by apply topic_analytics_scoped.
Qed.

End Access.

(** * The properties on the sample store *)

Lemma sample_db_wf : db_wf Sample.db.
Proof. apply (bool_decide_unpack _). vm_compute. exact I. Defined.

Lemma sample_db_unviewed_wf : db_wf Sample.db_unviewed.
Proof. apply (bool_decide_unpack _). vm_compute. exact I. Defined.

Lemma sample_owns_trees : owns_topic (Sample.request 1) Sample.db 11 Sample.trees.
Proof. split; reflexivity. Defined.

Lemma sample_owns_graphs : owns_topic (Sample.request 1) Sample.db 10 Sample.graphs.
Proof. split; reflexivity. Defined.

(** User 1 generates notes for the topic 11, which has none. *)
Lemma generate_notes_success_witness :
  ∃ note,
    outcome (exec Sample.ai_ok (generate_notes (Sample.request 1) 11) Sample.db) =
      inr (mkResponse (PMessageNote "Study notes generated successfully" note)
             HTTP_201_CREATED) ∧
    built_from 11 Sample.result (row note) ∧
    topic_status (final (exec Sample.ai_ok (generate_notes (Sample.request 1) 11) Sample.db)) 11
      = Some "completed" ∧
    notes_of_topic 11 (final (exec Sample.ai_ok (generate_notes (Sample.request 1) 11) Sample.db))
      = [note].
Proof.
  destruct (generate_notes_success Sample.ai_ok (Sample.request 1) 11 Sample.db
              Sample.trees Sample.result sample_db_wf sample_owns_trees
              ltac:(vm_compute; reflexivity) ltac:(reflexivity))
    as (note & a & H1 & H2 & H3 & _ & _ & H6 & _).
  exists note. split_and!; assumption.
Defined.

(** The AI service is down when user 1 generates notes for the topic 11. *)
Lemma generate_notes_failure_witness :
  outcome (exec Sample.ai_down (generate_notes (Sample.request 1) 11) Sample.db) =
    inr (mkResponse (PError "Failed to generate notes: quota exceeded")
           HTTP_500_INTERNAL_SERVER_ERROR) ∧
  topic_status (final (exec Sample.ai_down (generate_notes (Sample.request 1) 11) Sample.db)) 11
    = Some "failed" ∧
  notes_of_topic 11 (final (exec Sample.ai_down (generate_notes (Sample.request 1) 11) Sample.db))
    = [].
Proof.
  destruct (generate_notes_failure Sample.ai_down (Sample.request 1) 11 Sample.db
              Sample.trees Sample.failure sample_db_wf sample_owns_trees
              ltac:(vm_compute; reflexivity) ltac:(reflexivity) ltac:(reflexivity))
    as (H1 & H2 & _ & H4 & _).
  split_and!; assumption.
Defined.

(** C2 as stated fails: what the AI service raises need not derive from
    [Exception].  When the worker is told to stop during the call (a
    [SystemExit]), [generate_notes] does not catch it: the view gives no
    answer, and the status of the topic stays [processing]. *)
Lemma generate_notes_uncaught :
  ai Sample.ai_interrupted (set_status "processing" (mkInstance 11 Sample.trees))
    (preferences_of (Sample.request 1) Sample.db) = inl Sample.interrupt ∧
  outcome (exec Sample.ai_interrupted (generate_notes (Sample.request 1) 11) Sample.db) =
    inl Sample.interrupt ∧
  topic_status
    (final (exec Sample.ai_interrupted (generate_notes (Sample.request 1) 11) Sample.db)) 11
    = Some "processing".
Proof. split_and!; vm_compute; reflexivity. Qed.

(** User 1 regenerates the notes of the topic 10, which has the note 5. *)
Lemma regenerate_notes_success_witness :
  ∃ note a,
    notes_of_topic 10
      (final (exec Sample.ai_ok (regenerate_notes (Sample.request 1) 10) Sample.db)) = [note] ∧
    row note = note_of_result (mkInstance 10 Sample.graphs) Sample.result ∧
    analytics_of_note (pk note)
      (final (exec Sample.ai_ok (regenerate_notes (Sample.request 1) 10) Sample.db)) = [a] ∧
    row a = new_analytics note.
Proof.
  destruct (regenerate_notes_success Sample.ai_ok (Sample.request 1) 10 Sample.db
              Sample.graphs 5 Sample.graphs_note Sample.result sample_db_wf
              sample_owns_graphs ltac:(reflexivity) ltac:(reflexivity) ltac:(reflexivity))
    as (note & a & c & _ & _ & _ & _ & _ & H6 & _ & _ & _ & H10 & _ & H12 & _ & H14).
  exists note, a. split_and!; assumption.
Defined.

(** The AI service is down when user 1 regenerates the notes of the
    topic 10. *)
Lemma regenerate_notes_failure_witness :
  topic_status (final (exec Sample.ai_down (regenerate_notes (Sample.request 1) 10) Sample.db)) 10
    = Some "failed" ∧
  notes (final (exec Sample.ai_down (regenerate_notes (Sample.request 1) 10) Sample.db)) !! 5
    = None.
Proof.
  destruct (regenerate_notes_failure Sample.ai_down (Sample.request 1) 10 Sample.db
              Sample.graphs 5 Sample.graphs_note Sample.failure sample_db_wf
              sample_owns_graphs ltac:(reflexivity) ltac:(reflexivity) ltac:(reflexivity)
              ltac:(reflexivity))
    as (_ & H2 & _ & H4 & _).
  split; assumption.
Defined.

(** C10 as stated fails: what the AI service raises need not derive
    from [Exception].  When the worker is told to stop during the call
    (a [SystemExit]), [regenerate_notes] does not catch it: the old note
    is gone, but the topic is left with the status [processing], not
    [failed], and the view gives no answer. *)
Lemma regenerate_notes_uncaught :
  ai Sample.ai_interrupted (set_status "processing" (mkInstance 10 Sample.graphs))
    (preferences_of (Sample.request 1) Sample.db) = inl Sample.interrupt ∧
  outcome (exec Sample.ai_interrupted (regenerate_notes (Sample.request 1) 10) Sample.db) =
    inl Sample.interrupt ∧
  topic_status
    (final (exec Sample.ai_interrupted (regenerate_notes (Sample.request 1) 10) Sample.db)) 10
    = Some "processing" ∧
  notes (final (exec Sample.ai_interrupted (regenerate_notes (Sample.request 1) 10) Sample.db))
    !! 5 = None.
Proof. split_and!; vm_compute; reflexivity. Qed.

(** User 1 generates notes for the topic 10, which has the note 5. *)
Lemma generate_notes_conflict_witness :
  exec Sample.ai_ok (generate_notes (Sample.request 1) 10) Sample.db =
    mkRun [] Sample.db
      (inr (mkResponse (PError "Notes already exist for this topic") HTTP_400_BAD_REQUEST)).
Proof.
  exact (generate_notes_conflict Sample.ai_ok (Sample.request 1) 10 Sample.db
           Sample.graphs 5 Sample.graphs_note sample_db_wf sample_owns_graphs
           ltac:(reflexivity) ltac:(reflexivity)).
Defined.

(** C4 as stated fails: the topic 10 has the note 5, and it belongs to
    user 1.  When user 2 asks to generate notes for it the answer is
    404, not 400. *)
Lemma generate_notes_conflict_of_another_user :
  topics Sample.db !! 10 = Some Sample.graphs ∧
  notes Sample.db !! 5 = Some Sample.graphs_note ∧
  note_topic Sample.graphs_note = 10 ∧
  exec Sample.ai_ok (generate_notes (Sample.request 2) 10) Sample.db =
    mkRun [] Sample.db (inr (mkResponse (PError "Topic not found") HTTP_404_NOT_FOUND)).
Proof. split_and!; vm_compute; reflexivity. Qed.

(** The store while the notes of the topic 10 are regenerated. *)
Lemma processing_before_generator_witness :
  ∃ c, calls (exec Sample.ai_down (regenerate_notes (Sample.request 1) 10) Sample.db) = [c] ∧
       processing_at_call 10 Sample.graphs c.
Proof.
  exact (proj2 (processing_before_generator Sample.ai_down (Sample.request 1) 10 Sample.db
                  Sample.graphs sample_db_wf sample_owns_graphs)).
Defined.

Lemma sample_owns_note :
  ∀ v, owns_note (Sample.rating 1 v) Sample.db 5 Sample.graphs_note.
Proof. intros v. split; reflexivity. Defined.

(** User 1 rates the note 5 with 6, then with 4. *)
Lemma rate_note_number_witness :
  final (exec Sample.ai_ok (rate_note (Sample.rating 1 (Py.Int 6)) 5) Sample.db) = Sample.db ∧
  analytics_of_note 5
    (final (exec Sample.ai_ok (rate_note (Sample.rating 1 (Py.Int 4)) 5) Sample.db)) =
  [mkInstance 7 (with_rating 4 Sample.graphs_analytics)].
Proof.
  split.
  - destruct (rate_note_number Sample.ai_ok (Sample.rating 1 (Py.Int 6)) 5 Sample.db
                Sample.graphs_note sample_db_wf (sample_owns_note _) ltac:(reflexivity))
      as (_ & _ & H & _).
    apply H. reflexivity.
  - destruct (rate_note_number Sample.ai_ok (Sample.rating 1 (Py.Int 4)) 5 Sample.db
                Sample.graphs_note sample_db_wf (sample_owns_note _) ltac:(reflexivity))
      as (_ & H & _).
    destruct (H eq_refl) as (z & _ & Hz & _ & _ & Hq).
    rewrite (Hz 4 eq_refl) in Hq. exact Hq.
Defined.

(** C6 as stated fails: the rating 2.5 is no integer, and it is
    accepted with 200 and overwrites [user_rating] (with 2). *)
Lemma rate_note_accepts_a_float :
  (∀ z, data_get (Sample.rating 1 (Py.Float 2.5)) "rating" ≠ Py.Int z) ∧
  outcome (exec Sample.ai_ok (rate_note (Sample.rating 1 (Py.Float 2.5)) 5) Sample.db) =
    inr (mkResponse (PMessage "Rating saved successfully") HTTP_200_OK) ∧
  analytics_of_note 5
    (final (exec Sample.ai_ok (rate_note (Sample.rating 1 (Py.Float 2.5)) 5) Sample.db)) =
  [mkInstance 7 (with_rating 2 Sample.graphs_analytics)].
Proof.
  split_and!.
  - intros z. vm_compute. discriminate.
  - vm_compute. reflexivity.
  - vm_compute. reflexivity.
Qed.

(** User 1 looks at the note 5 twice, at the times 1000 and 2000. *)
Lemma retrieve_records_view_witness :
  ∃ a1 a2,
    analytics_of_note 5
      (final (exec Sample.ai_ok (StudyNoteDetailView_retrieve 5 (Sample.request 1))
                Sample.db_unviewed)) = [a1] ∧
    views_count (row a1) = 1 ∧
    last_viewed (row a1) = Some 1000 ∧
    analytics_of_note 5
      (final (exec (mkWorld (ai Sample.ai_ok) 2000)
                (StudyNoteDetailView_retrieve 5 (Sample.request 1))
                (final (exec Sample.ai_ok (StudyNoteDetailView_retrieve 5 (Sample.request 1))
                          Sample.db_unviewed)))) = [a2] ∧
    views_count (row a2) = 2 ∧
    last_viewed (row a2) = Some 2000.
Proof.
  destruct (retrieve_records_view Sample.ai_ok (mkWorld (ai Sample.ai_ok) 2000)
              (Sample.request 1) 5 Sample.db_unviewed Sample.graphs_note
              sample_db_unviewed_wf ltac:(split; reflexivity))
    as (H0 & a1 & a2 & _ & H2 & H3 & H4 & _ & H6 & H7 & H8).
  rewrite (H0 eq_refl) in H3, H7.
  exists a1, a2. split_and!; assumption.
Defined.

(** User 1 asks for the topic 12 of user 2. *)
Lemma foreign_topic_not_found_witness :
  exec Sample.ai_ok (Sample.site (TopicDetail 12) DELETE (Sample.request 1)) Sample.db =
    mkRun [] Sample.db (inr (mkResponse (PDetail "Not found.") HTTP_404_NOT_FOUND)) ∧
  exec Sample.ai_ok (Sample.site (TopicGenerate 12) POST (Sample.request 1)) Sample.db =
    mkRun [] Sample.db (inr (mkResponse (PError "Topic not found") HTTP_404_NOT_FOUND)).
Proof.
  destruct (foreign_topic_not_found Sample.framework (λ _ l, l) (λ _ l, l) (λ _ l, l)
              Sample.topic_validate Sample.preference_validate []
              Sample.ai_ok (Sample.request 1) 1 12 Sample.db Sample.sets
              ltac:(reflexivity) ltac:(reflexivity) ltac:(vm_compute; discriminate))
    as [H1 H2].
  split; [|exact H2]. apply H1. set_solver.
Defined.

Lemma sample_topic_validate_owner instance partial d t :
  Sample.topic_validate (Some instance) partial d = Some t →
  topic_user t = topic_user (row instance).
Proof.
  unfold Sample.topic_validate. destruct (Sample.new_title d), partial; by intros [= <-].
Defined.

(** The sample site: an anonymous request for the topics is turned
    away, and user 1 is shown topics of user 1 only. *)
Lemma login_required_and_scoped_witness :
  exec Sample.ai_ok (Sample.site Topics GET Sample.anonymous) Sample.db =
    mkRun [] Sample.db (inr (denied Sample.framework)) ∧
  outcome_scoped 1 (exec Sample.ai_ok (Sample.site Topics GET (Sample.request 1)) Sample.db).
Proof.
  split.
  - apply (proj1 (login_required_and_scoped Sample.framework (λ _ l, l) (λ _ l, l) (λ _ l, l)
             Sample.topic_validate Sample.preference_validate []
             ltac:(done) ltac:(done) sample_topic_validate_owner ltac:(by intros ???? [= <-])
             Sample.ai_ok Topics GET Sample.anonymous Sample.db)).
    reflexivity.
  - apply (proj1 (proj2 (login_required_and_scoped Sample.framework (λ _ l, l) (λ _ l, l) (λ _ l, l)
             Sample.topic_validate Sample.preference_validate []
             ltac:(done) ltac:(done) sample_topic_validate_owner ltac:(by intros ???? [= <-])
             Sample.ai_ok Topics GET (Sample.request 1) Sample.db)) 1);
      [reflexivity|discriminate].
Defined.

(** C7 as stated fails: the subject listing turns an anonymous request
    away like every other endpoint, without showing a subject. *)
Lemma subject_listing_requires_login :
  exec Sample.ai_ok (Sample.site Subjects GET Sample.anonymous) Sample.db =
    mkRun [] Sample.db
      (inr (mkResponse (PDetail "Authentication credentials were not provided.")
              HTTP_403_FORBIDDEN)) ∧
  permission_classes
    (SubjectListView (λ _ l, l)) = [IsAuthenticated].
Proof. split; reflexivity. Qed.

(** * Further properties of the views *)

(** ** The lifecycle views, run in full *)

Lemma generate_notes_run w request topic_id db t :
  db_wf db →
  owns_topic request db topic_id t →
  notes_of_topic topic_id db = [] →
  exec w (generate_notes request topic_id) db =
    lifecycle w request topic_id t "Study notes generated successfully"
      "Failed to generate notes: " db.
Proof.
  intros Hwf Hown Hnone. unfold lifecycle.
  unfold generate_notes, get_topic, qs_get. simpl.
  rewrite (topics_query_owned _ _ _ _ Hown). simpl.
  rewrite Hnone. simpl.
  unfold objects_filter. rewrite (preferences_select _ _ Hwf).
  destruct (preferences_of request db) as [p|]; simpl;
    match goal with
    | |- context [ai w ?a ?b] =>
        destruct (ai w a b) as [e|]; simpl;
        [unfold except_Exception; destruct (is_exception (exn_class e))|]; done
    end.
Qed.

Lemma without_note_nil topic_id db :
  notes_of_topic topic_id db = [] → without_note topic_id db = db.
Proof. intros E. unfold without_note. by rewrite E. Qed.

Lemma without_note_one topic_id db old_id old :
  db_wf db → notes db !! old_id = Some old → note_topic old = topic_id →
  without_note topic_id db = delete_note old_id db.
Proof.
  intros Hwf Hold Hnt. unfold without_note.
  by rewrite (notes_query_existing _ _ _ _ Hwf Hold Hnt).
Qed.

Lemma regenerate_notes_run w request topic_id db t :
  db_wf db →
  owns_topic request db topic_id t →
  exec w (regenerate_notes request topic_id) db =
    lifecycle w request topic_id t "Study notes regenerated successfully"
      "Failed to regenerate notes: " (without_note topic_id db).
Proof.
  intros Hwf Hown. unfold lifecycle.
  unfold regenerate_notes, get_topic, qs_get. simpl.
  rewrite (topics_query_owned _ _ _ _ Hown). simpl.
  assert (preferences_of request (without_note topic_id db) = preferences_of request db)
    as Hpref.
  { unfold without_note. generalize (notes_of_topic topic_id db).
    induction l as [|x l IH]; [done|]. simpl. rewrite <- IH. reflexivity. }
  rewrite Hpref.
  destruct (select_unique note_topic topic_id (notes db)) as [E|[[old_id old] E]];
    [apply Hwf| |].
  - rewrite (without_note_nil _ _ E).
    unfold notes_of_topic, objects_filter. simpl. rewrite E. simpl.
    rewrite (preferences_select _ _ Hwf).
    destruct (preferences_of request db) as [p|]; simpl;
      match goal with
      | |- context [ai w ?a ?b] =>
          destruct (ai w a b) as [e|]; simpl;
          [unfold except_Exception; destruct (is_exception (exn_class e))|]; done
      end.
  - assert (mkInstance old_id old ∈ select (λ _ r, note_topic r =? topic_id) (notes db))
      as [Hold Hnt%Z.eqb_eq]%elem_of_select by (rewrite E; left).
    simpl in Hold, Hnt.
    rewrite (without_note_one _ _ _ _ Hwf Hold Hnt).
    unfold notes_of_topic, objects_filter. simpl. rewrite E. simpl.
    rewrite (preferences_select _ _ Hwf).
    destruct (preferences_of request db) as [p|]; simpl;
      match goal with
      | |- context [ai w ?a ?b] =>
          destruct (ai w a b) as [e|]; simpl;
          [unfold except_Exception; destruct (is_exception (exn_class e))|]; done
      end.
Qed.

(** ** Topics that are not there *)

(** X1: when the requester owns no topic with the given key (there is
    none, or it is someone else's), [generate_notes] and
    [regenerate_notes] both answer 404 with "Topic not found", call
    nothing and leave the store as it was. *)
Theorem lifecycle_topic_not_found w request topic_id db :
  (∀ t, topics db !! topic_id = Some t → is_user (user request) (topic_user t) = false) →
  exec w (generate_notes request topic_id) db =
    mkRun [] db (inr (mkResponse (PError "Topic not found") HTTP_404_NOT_FOUND)) ∧
  exec w (regenerate_notes request topic_id) db =
    mkRun [] db (inr (mkResponse (PError "Topic not found") HTTP_404_NOT_FOUND)).
Proof.
  intros Hno.
  assert (objects_filter topics
            (λ _ id t, (id =? topic_id) && is_user (user request) (topic_user t)) db = [])
    as E.
  { unfold objects_filter.
    rewrite (select_pk (λ t, is_user (user request) (topic_user t))).
    destruct (topics db !! topic_id) as [t|] eqn:Ht; [|done]. by rewrite (Hno t). }
  split; unfold generate_notes, regenerate_notes, get_topic, qs_get; simpl;
    by rewrite E.
Qed.

(** ** Generation and regeneration compared and repeated *)

(** X2: on an owned topic that has no note, [regenerate_notes] does what
    [generate_notes] does, whatever the AI service answers or raises:
    the same call, the same final store, the same status code and the
    same note in the answer, and the same exception passed on when the
    views do not catch it. *)
Theorem regenerate_without_note_is_generate w request topic_id db t :
  db_wf db →
  owns_topic request db topic_id t →
  notes_of_topic topic_id db = [] →
  let g := exec w (generate_notes request topic_id) db in
  let rg := exec w (regenerate_notes request topic_id) db in
  calls rg = calls g ∧ final rg = final g ∧
  answered rg = answered g ∧ note_shown rg = note_shown g ∧
  raised rg = raised g.
Proof.
  intros Hwf Hown Hnone g rg. subst g rg.
  rewrite (generate_notes_run _ _ _ _ _ Hwf Hown Hnone).
  rewrite (regenerate_notes_run _ _ _ _ _ Hwf Hown).
  rewrite (without_note_nil _ _ Hnone). unfold lifecycle. simpl.
  match goal with
  | |- context [ai w ?a ?b] =>
      destruct (ai w a b) as [e|]; [destruct (is_exception (exn_class e))|]
  end; done.
Qed.

Lemma owns_topic_mark s request topic_id t db :
  owns_topic request db topic_id t →
  owns_topic request (mark s topic_id t db) topic_id (row (set_status s (mkInstance topic_id t))).
Proof. intros [Ht Hu]. split; simpl; [by rewrite lookup_insert_eq|done]. Qed.

(** X3: after a successful [generate_notes] a second one is refused: it
    answers 400, does not call the AI service and leaves the store as
    the first one left it. *)
Theorem generate_notes_twice w w' request topic_id db t result :
  db_wf db →
  owns_topic request db topic_id t →
  notes_of_topic topic_id db = [] →
  ai w (set_status "processing" (mkInstance topic_id t)) (preferences_of request db)
    = inr result →
  let r := exec w (generate_notes request topic_id) db in
  exec w' (generate_notes request topic_id) (final r) =
    mkRun [] (final r)
      (inr (mkResponse (PError "Notes already exist for this topic") HTTP_400_BAD_REQUEST)).
Proof.
  intros Hwf Hown Hnone Hai r.
  set (db' := mark "completed" topic_id t
                (with_new_note topic_id t result (mark "processing" topic_id t db))).
  assert (final r = db') as Hr.
  { subst r. rewrite (generate_notes_run _ _ _ _ _ Hwf Hown Hnone).
    unfold lifecycle. simpl. by rewrite Hai. }
  rewrite Hr. clear Hr r.
  assert (owns_topic request db' topic_id
            (row (set_status "completed" (mkInstance topic_id t)))) as Hown'.
  { destruct Hown as [Ht Hu]. split; simpl; [by rewrite lookup_insert_eq|done]. }
  assert (notes_of_topic topic_id db' = [new_note topic_id t result db]) as Hnote.
  { apply select_insert_fresh; [exact Hnone|simpl; apply Z.eqb_refl]. }
  unfold generate_notes, get_topic, qs_get. simpl.
  rewrite (topics_query_owned _ _ _ _ Hown'). simpl.
  rewrite Hnote. reflexivity.
Qed.

(** X4: a generation that failed with an exception the view catches
    (one whose class derives from [Exception]) can be tried again with
    [generate_notes] itself: the failure leaves the status [failed] and
    no note behind, so when the AI service answers the second time the
    topic ends [completed] with exactly one note, the one shown with
    201, whose columns are those of the second result. *)
Theorem generate_notes_retry w1 w2 request topic_id db t e result :
  db_wf db →
  owns_topic request db topic_id t →
  notes_of_topic topic_id db = [] →
  ai w1 (set_status "processing" (mkInstance topic_id t)) (preferences_of request db)
    = inl e →
  ai w2 (set_status "processing" (mkInstance topic_id t)) (preferences_of request db)
    = inr result →
  is_exception (exn_class e) = true →
  let r1 := exec w1 (generate_notes request topic_id) db in
  let r2 := exec w2 (generate_notes request topic_id) (final r1) in
  topic_status (final r1) topic_id = Some "failed" ∧
  ∃ note,
    outcome r2 =
      inr (mkResponse (PMessageNote "Study notes generated successfully" note)
             HTTP_201_CREATED) ∧
    built_from topic_id result (row note) ∧
    topic_status (final r2) topic_id = Some "completed" ∧
    notes_of_topic topic_id (final r2) = [note].
Proof.
  intros Hwf Hown Hnone Hai1 Hai2 He r1 r2.
  set (db' := mark "failed" topic_id t (mark "processing" topic_id t db)).
  assert (final r1 = db') as Hr1.
  { subst r1. rewrite (generate_notes_run _ _ _ _ _ Hwf Hown Hnone).
    unfold lifecycle. simpl. by rewrite Hai1, He. }
  subst r2. rewrite Hr1. clear Hr1 r1.
  split; [unfold topic_status; simpl; by rewrite lookup_insert_eq|].
  assert (db_wf db') as Hwf' by (by do 2 apply wf_save_topic).
  assert (owns_topic request db' topic_id
            (row (set_status "failed" (mkInstance topic_id t)))) as Hown'.
  { destruct Hown as [Ht Hu]. split; simpl; [by rewrite lookup_insert_eq|done]. }
  rewrite (generate_notes_run _ _ _ _ _ Hwf' Hown' Hnone). unfold lifecycle.
  change (preferences_of request db') with (preferences_of request db).
  change (set_status "processing" (mkInstance topic_id
            (row (set_status "failed" (mkInstance topic_id t)))))
    with (set_status "processing" (mkInstance topic_id t)).
  cbn [call_topic call_preferences]. rewrite Hai2. simpl.
  eexists. split_and!; [reflexivity|by repeat split| |].
  - unfold topic_status. simpl. by rewrite lookup_insert_eq.
  - apply select_insert_fresh; [exact Hnone|simpl; apply Z.eqb_refl].
Qed.

(** ** What the lifecycle views leave alone *)

Lemma preferences_without_note request topic_id db :
  preferences_of request (without_note topic_id db) = preferences_of request db.
Proof.
  unfold without_note. generalize (notes_of_topic topic_id db).
  induction l as [|x l IH]; [done|]. simpl. rewrite <- IH. reflexivity.
Qed.

Lemma lifecycle_untouched w request topic_id t done failed db db0 :
  others_untouched topic_id db db0 →
  others_untouched topic_id db
    (final (lifecycle w request topic_id t done failed db0)) ∧
  topic_after topic_id t
    (ai w (set_status "processing" (mkInstance topic_id t)) (preferences_of request db0))
    (final (lifecycle w request topic_id t done failed db0)).
Proof.
  intros (Hs & Hp & Ht & Hn & Ha). unfold lifecycle, topic_after, status_after. simpl.
  match goal with
  | |- context [ai w ?a ?b] =>
      destruct (ai w a b) as [e|result];
      [destruct (is_exception (exn_class e))|]
  end; simpl.
  - split; [|eexists; split; [by rewrite lookup_insert_eq|by repeat split]].
    split_and!; simpl; try done.
    intros i Hi. rewrite !lookup_insert_ne by done. by apply Ht.
  - split; [|eexists; split; [by rewrite lookup_insert_eq|by repeat split]].
    split_and!; simpl; try done.
    intros i Hi. rewrite !lookup_insert_ne by done. by apply Ht.
  - split; [|eexists; split; [by rewrite lookup_insert_eq|by repeat split]].
    split_and!; simpl; try done.
    + intros i Hi. rewrite !lookup_insert_ne by done. by apply Ht.
    + intros i n Hi Hne. specialize (Hn _ _ Hi Hne).
      rewrite lookup_insert_ne; [done|]. intros Heq.
      rewrite <- Heq, fresh_lookup in Hn. done.
    + intros i a Hi Hne. specialize (Ha _ _ Hi Hne).
      rewrite lookup_insert_ne; [done|]. intros Heq.
      rewrite <- Heq, fresh_lookup in Ha. done.
Qed.

Lemma others_untouched_refl topic_id db : others_untouched topic_id db db.
Proof. by split_and!. Qed.

Lemma without_note_untouched topic_id db :
  db_wf db → others_untouched topic_id db (without_note topic_id db).
Proof.
  intros Hwf.
  destruct (select_unique note_topic topic_id (notes db)) as [E|[[old_id old] E]];
    [apply Hwf| |].
  - rewrite (without_note_nil _ _ E). apply others_untouched_refl.
  - assert (mkInstance old_id old ∈ select (λ _ r, note_topic r =? topic_id) (notes db))
      as [Hold Hnt%Z.eqb_eq]%elem_of_select by (rewrite E; left).
    simpl in Hold, Hnt. rewrite (without_note_one _ _ _ _ Hwf Hold Hnt).
    split_and!; simpl; try done.
    + intros i n Hi Hne. rewrite lookup_delete_ne; [done|]. intros <-. congruence.
    + intros i a Hi Hne. apply map_lookup_filter_Some. split; [done|]. simpl.
      intros Heq. apply (Hne old); [by rewrite Heq|done].
Qed.

(** X5: whatever the AI service answers or raises, [generate_notes] (on
    a topic without a note) and [regenerate_notes] leave the user, the
    title, the description, the subject and the difficulty of the owned
    topic as they were, and its status [completed] after a result,
    [failed] after an exception the views catch and [processing] after
    one they do not catch; and they leave alone the subjects, the
    preferences, every other topic, and the notes of other topics with
    their analytics. *)
Theorem lifecycle_frame w request topic_id db t :
  db_wf db →
  owns_topic request db topic_id t →
  let o := ai w (set_status "processing" (mkInstance topic_id t))
             (preferences_of request db) in
  (notes_of_topic topic_id db = [] →
   others_untouched topic_id db (final (exec w (generate_notes request topic_id) db)) ∧
   topic_after topic_id t o (final (exec w (generate_notes request topic_id) db))) ∧
  others_untouched topic_id db (final (exec w (regenerate_notes request topic_id) db)) ∧
  topic_after topic_id t o (final (exec w (regenerate_notes request topic_id) db)).
Proof.
  intros Hwf Hown o. subst o. split.
  - intros Hnone. rewrite (generate_notes_run _ _ _ _ _ Hwf Hown Hnone).
    apply lifecycle_untouched, others_untouched_refl.
  - rewrite (regenerate_notes_run _ _ _ _ _ Hwf Hown).
    rewrite <- (preferences_without_note request topic_id db).
    by apply lifecycle_untouched, without_note_untouched.
Qed.

(** X6: the AI service is handed the preferences of the requester and of
    nobody else: in the one call [regenerate_notes] makes (and
    [generate_notes], on a topic without a note), the preferences are
    those the store holds for the requester, or none when it holds
    none. *)
Theorem generator_gets_own_preferences w request u topic_id db t :
  user request = User u →
  db_wf db →
  owns_topic request db topic_id t →
  let own c :=
    match call_preferences c with
    | Some p => preferences db !! pk p = Some (row p) ∧ preference_user (row p) = u
    | None => ∀ i p, preferences db !! i = Some p → preference_user p ≠ u
    end in
  (notes_of_topic topic_id db = [] →
   ∃ c, calls (exec w (generate_notes request topic_id) db) = [c] ∧ own c) ∧
  (∃ c, calls (exec w (regenerate_notes request topic_id) db) = [c] ∧ own c).
Proof.
  intros Hu Hwf Hown own.
  assert (match preferences_of request db with
          | Some p => preferences db !! pk p = Some (row p) ∧ preference_user (row p) = u
          | None => ∀ i p, preferences db !! i = Some p → preference_user p ≠ u
          end) as Hpref.
  { pose proof (preferences_select request db Hwf) as Hsel.
    destruct (preferences_of request db) as [p|].
    - assert (p ∈ select (λ _ p, is_user (user request) (preference_user p)) (preferences db))
        as [Hp Hup]%elem_of_select by (rewrite Hsel; left).
      split; [done|]. by eapply is_user_owner.
    - rewrite select_nil in Hsel. intros i p Hi Heq. specialize (Hsel _ _ Hi).
      rewrite Hu in Hsel. simpl in Hsel. apply Z.eqb_neq in Hsel. congruence. }
  assert (preferences_of request (without_note topic_id db) = preferences_of request db)
    as Hsame.
  { unfold without_note. generalize (notes_of_topic topic_id db).
    induction l as [|x l IH]; [done|]. simpl. rewrite <- IH. reflexivity. }
  split.
  - intros Hnone. rewrite (generate_notes_run _ _ _ _ _ Hwf Hown Hnone).
    unfold lifecycle. simpl.
    match goal with
    | |- context [ai w ?a ?b] =>
        destruct (ai w a b) as [e|]; [destruct (is_exception (exn_class e))|]
    end;
      eexists; (split; [reflexivity|exact Hpref]).
  - rewrite (regenerate_notes_run _ _ _ _ _ Hwf Hown).
    unfold lifecycle. simpl. rewrite Hsame.
    match goal with
    | |- context [ai w ?a ?b] =>
        destruct (ai w a b) as [e|]; [destruct (is_exception (exn_class e))|]
    end;
      eexists; (split; [reflexivity|exact Hpref]).
Qed.

(** ** The counts of [topic_analytics] *)

(** Each element is counted for at most one of the distinct labels. *)
Lemma count_by_label {A} (f : A → string) (labels : list string) (l : list A) :
  NoDup labels →
  (sum_list_with (λ s, length (filter (λ x, String.eqb (f x) s) l)) labels ≤ length l)%nat ∧
  (Forall (λ x, f x ∈ labels) l →
   sum_list_with (λ s, length (filter (λ x, String.eqb (f x) s) l)) labels = length l).
Proof.
  intros Hnd.
  assert (∀ y, (sum_list_with (λ s, if String.eqb y s then 1 else 0) labels ≤ 1)%nat ∧
               (y ∈ labels →
                sum_list_with (λ s, if String.eqb y s then 1 else 0) labels = 1)%nat)
    as Hone.
  { intros y. induction Hnd as [|s ss Hs Hnd IH]; simpl.
    - split; [lia|]. intros H. by apply elem_of_nil in H.
    - destruct IH as [IH1 IH2]. destruct (String.eqb_spec y s) as [->|Hne].
      + assert (sum_list_with (λ s0, if String.eqb s s0 then 1 else 0) ss = 0)%nat as ->.
        { clear -Hs. induction ss as [|z ss IH]; simpl; [done|].
          destruct (String.eqb_spec s z) as [->|]; [exfalso; apply Hs; left|].
          apply IH. intros H. apply Hs. by right. }
        split; [lia|]. intros _. lia.
      + split; [lia|]. intros [Heq|H]%elem_of_cons; [done|]. rewrite IH2; [lia|done]. }
  induction l as [|x l [IH1 IH2]]; simpl.
  - assert (sum_list_with (λ _ : string, 0%nat) labels = 0%nat) as Hz.
    { clear. induction labels; simpl; lia. }
    rewrite Hz. done.
  - assert (sum_list_with (λ s, length (filter (λ x0, String.eqb (f x0) s) (x :: l))) labels =
            (sum_list_with (λ s, if String.eqb (f x) s then 1 else 0) labels +
             sum_list_with (λ s, length (filter (λ x0, String.eqb (f x0) s) l)) labels)%nat)
      as ->.
    { clear. induction labels as [|s ss IH]; simpl; [done|].
      rewrite filter_cons. destruct (String.eqb (f x) s); simpl.
      - rewrite IH. lia.
      - rewrite IH. lia. }
    destruct (Hone (f x)) as [H1 H2]. split; [lia|].
    intros [Hx Hl]%Forall_cons. rewrite (H2 Hx), (IH2 Hl). lia.
Qed.

(** X7: [topic_analytics] reads and writes nothing else: it answers 200
    and leaves the store as it was.  Its total is the number of topics
    of the requester, and each count is the number of those with that
    status or difficulty.  The four status counts add up to at most the
    total, and to the total exactly when every topic of the requester is
    in one of the four states; the three difficulty counts add up to at
    most the total. *)
Theorem topic_analytics_counts w request u db :
  user request = User u →
  ∃ c,
    exec w (topic_analytics request) db =
      mkRun [] db (inr (mkResponse (PCounts c) HTTP_200_OK)) ∧
    total_topics c = size (own_topics u db) ∧
    completed_topics c = count_topics u status "completed" db ∧
    pending_topics c = count_topics u status "pending" db ∧
    processing_topics c = count_topics u status "processing" db ∧
    failed_topics c = count_topics u status "failed" db ∧
    beginner c = count_topics u difficulty "beginner" db ∧
    intermediate c = count_topics u difficulty "intermediate" db ∧
    advanced c = count_topics u difficulty "advanced" db ∧
    (completed_topics c + pending_topics c + processing_topics c + failed_topics c
       ≤ total_topics c)%nat ∧
    (map_Forall (λ _ t, lifecycle_status (status t)) (own_topics u db) →
     (completed_topics c + pending_topics c + processing_topics c + failed_topics c)%nat
       = total_topics c) ∧
    (beginner c + intermediate c + advanced c ≤ total_topics c)%nat.
Proof.
  intros Hu.
  set (l := topics_of_user request db).
  set (by_status s :=
         length (qs_filter (λ t, String.eqb (status (row t)) s) (topics_of_user request) db)).
  set (by_difficulty s :=
         length (qs_filter (λ t, String.eqb (difficulty (row t)) s)
                   (topics_of_user request) db)).
  exists (mkTopicCounts (length l) (by_status "completed") (by_status "pending")
            (by_status "processing") (by_status "failed") (by_difficulty "beginner")
            (by_difficulty "intermediate") (by_difficulty "advanced")).
  cbn [total_topics completed_topics pending_topics processing_topics failed_topics
       beginner intermediate advanced].
  destruct (count_by_label (λ x : Instance StudyTopic, status (row x))
              ["completed"; "pending"; "processing"; "failed"] l) as [Hle Heq].
  { apply (bool_decide_unpack _). by compute. }
  destruct (count_by_label (λ x : Instance StudyTopic, difficulty (row x))
              ["beginner"; "intermediate"; "advanced"] l) as [Hle' _].
  { apply (bool_decide_unpack _). by compute. }
  cbn [sum_list_with] in Hle, Heq, Hle'.
  split_and!.
  - reflexivity.
  - by apply length_own.
  - by apply count_own.
  - by apply count_own.
  - by apply count_own.
  - by apply count_own.
  - by apply count_own.
  - by apply count_own.
  - by apply count_own.
  - unfold by_status, qs_filter. fold l. lia.
  - intros Hall. unfold by_status, qs_filter. fold l. rewrite <- Heq; [lia|].
    apply Forall_forall. intros x [Hx Hux]%elem_of_select.
    assert (own_topics u db !! pk x = Some (row x)) as Hown.
    { apply map_lookup_filter_Some. split; [done|]. simpl. by eapply is_user_owner. }
    destruct (Hall _ _ Hown) as [E | [E | [E | E]]]; rewrite E; set_solver.
  - unfold by_difficulty, qs_filter. fold l. lia.
Qed.

(** ** More on ratings and views *)

(** X8: [rate_note] never looks at the type of the rating.  A rating
    that is neither null nor a number is refused with 400 only when it
    is empty (an empty string, list or object); when it is not empty the
    comparison with 1 raises [TypeError], which the view does not catch:
    there is no answer from the view, and nothing is stored. *)
Theorem rate_note_type_error w request note_id db n :
  owns_note request db note_id n →
  number_or_null (data_get request "rating") = false →
  if Py.truthy (data_get request "rating") then
    ∃ e, exec w (rate_note request note_id) db = mkRun [] db (inl e) ∧
         exn_class e = TypeError
  else
    exec w (rate_note request note_id) db =
      mkRun [] db
        (inr (mkResponse (PError "Rating must be between 1 and 5") HTTP_400_BAD_REQUEST)).
Proof.
  intros Hown Hnum.
  unfold rate_note, get_note, qs_get.
  remember (data_get request "rating") as v eqn:Hv. clear Hv. simpl.
  rewrite (notes_query_owned _ _ _ _ Hown). simpl.
  unfold py_between, py_int_le, py_le_int, mbind, Prog_bind.
  destruct v as [|b|z|f|s|l|d]; try discriminate Hnum; simpl.
  - destruct (String.eqb s EmptyString); simpl; eauto.
  - destruct l; simpl; eauto.
  - destruct d; simpl; eauto.
Qed.

Lemma accepted_rating_number (v : Py.value) :
  accepted_rating v = true → number_or_null v = true.
Proof. by destruct v. Qed.

Lemma analytics_row_upsert db note x :
  db_wf db → analytics_note x = pk note →
  analytics_row note (with_analytics <[pk (analytics_row note db) := x]> db) =
  mkInstance (pk (analytics_row note db)) x.
Proof.
  intros Hwf Hx. unfold analytics_row at 1.
  unfold analytics_of_note, objects_filter. simpl.
  by rewrite (analytics_query_upsert db note x Hwf Hx).
Qed.

Lemma owns_note_with_analytics request db note_id n f :
  owns_note request db note_id n → owns_note request (with_analytics f db) note_id n.
Proof. done. Qed.

(** The run of [rate_note] on an accepted rating, from the rating. *)
Lemma rate_note_run w request note_id db n z :
  db_wf db →
  owns_note request db note_id n →
  accepted_rating (data_get request "rating") = true →
  stored_rating (data_get request "rating") = Some z →
  exec w (rate_note request note_id) db =
    mkRun []
      (with_analytics
         <[pk (analytics_row (mkInstance note_id n) db) :=
             with_rating z (row (analytics_row (mkInstance note_id n) db))]> db)
      (inr (mkResponse (PMessage "Rating saved successfully") HTTP_200_OK)).
Proof.
  intros Hwf Hown Hacc Hz.
  pose proof (accepted_rating_test _ (accepted_rating_number _ Hacc)) as Htest.
  rewrite Hacc in Htest. destruct Htest as (Ht & H1 & H5).
  by apply rate_note_accepted.
Qed.

(** X9: rating a note and viewing it do not disturb each other: done in
    either order they end in the same store, where the one analytics
    row of the note has the new rating, one more view than before and
    the time of the view. *)
Theorem rate_and_view_commute w1 w2 request note_id db n z :
  db_wf db →
  owns_note request db note_id n →
  accepted_rating (data_get request "rating") = true →
  stored_rating (data_get request "rating") = Some z →
  let rate := rate_note request note_id in
  let view := StudyNoteDetailView_retrieve note_id request in
  final (exec w2 view (final (exec w1 rate db))) =
  final (exec w1 rate (final (exec w2 view db))) ∧
  ∃ a, analytics_of_note note_id (final (exec w2 view (final (exec w1 rate db)))) = [a] ∧
       user_rating (row a) = Some z ∧
       views_count (row a) = views_of note_id db + 1 ∧
       last_viewed (row a) = Some (clock w2).
Proof.
  intros Hwf Hown Hacc Hz rate view. subst rate view.
  set (note := mkInstance note_id n).
  remember (analytics_row note db) as a eqn:Ha.
  pose proof (analytics_row_note db note Hwf) as Hnote. rewrite <- Ha in Hnote.
  simpl in Hnote.
  assert (is_Some (notes db !! pk note)) as Hsome by (destruct Hown as [Hn _]; simpl; eauto).
  pose proof (analytics_row_upsert db note (with_rating z (row a)) Hwf Hnote) as Hup1.
  pose proof (analytics_row_upsert db note (with_view (clock w2) (row a)) Hwf Hnote) as Hup2.
  pose proof (db_wf_upsert_analytics db note (with_rating z (row a)) Hwf Hsome Hnote) as Hwf1.
  pose proof (db_wf_upsert_analytics db note (with_view (clock w2) (row a)) Hwf Hsome Hnote)
    as Hwf2.
  pose proof (analytics_query_upsert db note
                (with_view (clock w2) (with_rating z (row a))) Hwf Hnote) as Hq.
  rewrite <- Ha in Hup1, Hup2, Hwf1, Hwf2, Hq.
  (* rate, then view *)
  rewrite (rate_note_run w1 _ _ _ _ _ Hwf Hown Hacc Hz). fold note. rewrite <- Ha.
  cbn [final].
  rewrite (retrieve_step w2 request note_id _ n Hwf1
             (owns_note_with_analytics _ _ _ _ _ Hown)).
  fold note. rewrite Hup1. cbn [final pk row].
  (* view, then rate *)
  rewrite (retrieve_step w2 request note_id db n Hwf Hown). fold note. rewrite <- Ha.
  cbn [final].
  rewrite (rate_note_run w1 request note_id _ n z Hwf2
             (owns_note_with_analytics _ _ _ _ _ Hown) Hacc Hz).
  fold note. rewrite Hup2. cbn [final pk row].
  split.
  - unfold with_analytics. simpl. by rewrite !insert_insert_eq.
  - eexists. split_and!.
    + unfold analytics_of_note, objects_filter. simpl. rewrite insert_insert_eq.
      exact Hq.
    + reflexivity.
    + simpl. f_equal. rewrite Ha. unfold views_of, analytics_row. simpl.
      by destruct (analytics_of_note note_id db).
    + reflexivity.
Qed.

(** X10: a rating replaces the one before it and keeps no trace of it:
    rating a note twice ends in the store that the second rating alone
    would have made. *)
Theorem last_rating_wins w1 w2 request1 request2 note_id db n z1 z2 :
  db_wf db →
  owns_note request1 db note_id n →
  owns_note request2 db note_id n →
  accepted_rating (data_get request1 "rating") = true →
  stored_rating (data_get request1 "rating") = Some z1 →
  accepted_rating (data_get request2 "rating") = true →
  stored_rating (data_get request2 "rating") = Some z2 →
  final (exec w2 (rate_note request2 note_id)
           (final (exec w1 (rate_note request1 note_id) db))) =
  final (exec w2 (rate_note request2 note_id) db).
Proof.
  intros Hwf Hown1 Hown2 Hacc1 Hz1 Hacc2 Hz2.
  set (note := mkInstance note_id n).
  remember (analytics_row note db) as a eqn:Ha.
  pose proof (analytics_row_note db note Hwf) as Hnote. rewrite <- Ha in Hnote.
  simpl in Hnote.
  assert (is_Some (notes db !! pk note)) as Hsome by (destruct Hown1 as [Hn _]; simpl; eauto).
  pose proof (analytics_row_upsert db note (with_rating z1 (row a)) Hwf Hnote) as Hup1.
  pose proof (db_wf_upsert_analytics db note (with_rating z1 (row a)) Hwf Hsome Hnote) as Hwf1.
  rewrite <- Ha in Hup1, Hwf1.
  rewrite (rate_note_run w1 _ _ _ _ _ Hwf Hown1 Hacc1 Hz1). fold note. rewrite <- Ha.
  cbn [final].
  rewrite (rate_note_run w2 request2 note_id _ n z2 Hwf1
             (owns_note_with_analytics _ _ _ _ _ Hown2) Hacc2 Hz2).
  fold note. rewrite Hup1. cbn [final pk row].
  rewrite (rate_note_run w2 _ _ _ _ _ Hwf Hown2 Hacc2 Hz2). fold note. rewrite <- Ha.
  cbn [final].
  unfold with_analytics. simpl. by rewrite insert_insert_eq.
Qed.

(** X11: the first rating of a note that was never viewed or rated
    creates its analytics row: the analytics table gains exactly one
    row, under an unused key, with the rating, no view and no view
    time. *)
Theorem first_rating_creates_row w request note_id db n z :
  db_wf db →
  owns_note request db note_id n →
  accepted_rating (data_get request "rating") = true →
  stored_rating (data_get request "rating") = Some z →
  analytics_of_note note_id db = [] →
  let r := exec w (rate_note request note_id) db in
  let key := fresh (dom (analytics db)) in
  analytics db !! key = None ∧
  analytics (final r) = <[key := mkNoteAnalytics note_id 0 None (Some z)]> (analytics db) ∧
  analytics_of_note note_id (final r) =
    [mkInstance key (mkNoteAnalytics note_id 0 None (Some z))].
Proof.
  intros Hwf Hown Hacc Hz Hnone r key. subst r.
  rewrite (rate_note_run w _ _ _ _ _ Hwf Hown Hacc Hz).
  assert (analytics_row (mkInstance note_id n) db =
            mkInstance key (new_analytics (mkInstance note_id n))) as ->.
  { unfold analytics_row. simpl. by rewrite Hnone. }
  cbn [final pk row]. split_and!.
  - apply fresh_lookup.
  - reflexivity.
  - apply select_insert_fresh; [exact Hnone|simpl; apply Z.eqb_refl].
Qed.

(** ** More on the endpoints *)

Section Endpoints.

Context
  (framework : Framework)
  (filter_topics : Request → list (Instance StudyTopic) → list (Instance StudyTopic))
  (filter_notes : Request → list (Instance StudyNote) → list (Instance StudyNote))
  (paginate_subjects : Request → list (Instance Subject) → list (Instance Subject))
  (topic_validate :
     option (Instance StudyTopic) → bool → gmap string Py.value → option StudyTopic)
  (preference_validate :
     Instance UserPreference → bool → gmap string Py.value → option UserPreference)
  (default_preference_fields : list (string * string)).

Local Abbreviation serve_here :=
  (serve framework filter_topics filter_notes paginate_subjects
     topic_validate preference_validate default_preference_fields).

(** A request with a login passes the permission check. *)
Lemma serve_logged_in w e m request u db :
  user request = User u →
  exec w (serve_here e m request) db =
    exec w
      (try_except
         match method_handler framework
                 (route filter_topics filter_notes paginate_subjects topic_validate
                    preference_validate default_preference_fields e) m with
         | Some h => h request
         | None => Raise (method_not_allowed m)
         end
         (handle_exception framework)) db.
Proof.
  intros Hu. unfold serve, dispatch, check_permissions.
  assert (forallb (λ p, has_permission p request)
            (permission_classes (route filter_topics filter_notes paginate_subjects
               topic_validate preference_validate default_preference_fields e)) = true)
    as ->; [|reflexivity].
  destruct e; simpl; unfold has_permission; by rewrite Hu.
Qed.

(** X12: a note that is not the requester's (there is none with the
    key, or its topic is someone else's) can be neither viewed nor
    rated: both endpoints answer 404 and leave the store as it was, so
    no view is counted and no rating kept. *)
Theorem foreign_note_not_found w request u note_id db :
  user request = User u →
  (∀ n, notes db !! note_id = Some n → topic__user db (user request) n = false) →
  exec w (serve_here (NoteDetail note_id) GET request) db =
    mkRun [] db
      (inr (mkResponse
              (PDetail (not_found_detail framework
                          (mkExn Http404 "No StudyNote matches the given query.")))
              HTTP_404_NOT_FOUND)) ∧
  exec w (serve_here (NoteRate note_id) POST request) db =
    mkRun [] db (inr (mkResponse (PError "Note not found") HTTP_404_NOT_FOUND)).
Proof.
  intros Hu Hno. rewrite !(serve_logged_in _ _ _ _ _ _ Hu). split.
  - simpl. unfold qs_filter, notes_of_user, objects_filter. rewrite select_filter_pk.
    destruct (notes db !! note_id) as [n|] eqn:Hn; [|reflexivity].
    by rewrite (Hno n).
  - simpl. unfold objects_filter.
    rewrite (select_pk (λ n, topic__user db (user request) n)).
    destruct (notes db !! note_id) as [n|] eqn:Hn; [|reflexivity].
    by rewrite (Hno n).
Qed.

(** X13: the preferences of a user are created on first access and
    only then.  GET /preferences answers 200 with a row of the
    requester and leaves the store with exactly one such row: the row
    the store held, with the store unchanged, or else a new row with
    the defaults under an unused key.  A second GET answers the same
    and changes nothing. *)
Theorem preferences_created_once w1 w2 request u db :
  user request = User u →
  db_wf db →
  let r1 := exec w1 (serve_here Preferences GET request) db in
  let r2 := exec w2 (serve_here Preferences GET request) (final r1) in
  ∃ p,
    outcome r1 = inr (mkResponse (PPreference p) HTTP_200_OK) ∧
    preference_user (row p) = u ∧
    objects_filter preferences (λ _ _ q, is_user (user request) (preference_user q))
      (final r1) = [p] ∧
    match preferences_of request db with
    | Some q => p = q ∧ final r1 = db
    | None =>
        row p = mkUserPreference u default_preference_fields ∧
        preferences db !! pk p = None ∧
        final r1 = with_preferences <[pk p := row p]> db
    end ∧
    outcome r2 = outcome r1 ∧
    final r2 = final r1.
Proof.
  intros Hu Hwf r1 r2.
  assert (∀ w db' p,
            objects_filter preferences
              (λ _ _ q, is_user (user request) (preference_user q)) db' = [p] →
            exec w (serve_here Preferences GET request) db' =
              mkRun [] db' (inr (mkResponse (PPreference p) HTTP_200_OK))) as Hget.
  { intros w db' p E. rewrite (serve_logged_in _ _ _ _ _ _ Hu). simpl. by rewrite E. }
  pose proof (preferences_select request db Hwf) as Hsel.
  destruct (preferences_of request db) as [q|] eqn:Hq.
  - assert (q ∈ select (λ _ p, is_user (user request) (preference_user p)) (preferences db))
      as [_ Hqu]%elem_of_select by (rewrite Hsel; left).
    subst r2 r1. rewrite (Hget w1 db q Hsel). cbn [final outcome].
    rewrite (Hget w2 db q Hsel). exists q.
    split_and!; try done. by eapply is_user_owner.
  - set (p := mkInstance (fresh (dom (preferences db)))
                (mkUserPreference u default_preference_fields)).
    assert (exec w1 (serve_here Preferences GET request) db =
              mkRun [] (with_preferences <[pk p := row p]> db)
                (inr (mkResponse (PPreference p) HTTP_200_OK))) as Hr1.
    { rewrite (serve_logged_in _ _ _ _ _ _ Hu). simpl.
      unfold objects_filter. rewrite Hsel. simpl. by rewrite Hu. }
    assert (objects_filter preferences
              (λ _ _ q, is_user (user request) (preference_user q))
              (with_preferences <[pk p := row p]> db) = [p]) as Hone.
    { apply select_insert_fresh; [exact Hsel|]. simpl. rewrite Hu. simpl. apply Z.eqb_refl. }
    subst r2 r1. rewrite Hr1. cbn [final outcome].
    rewrite (Hget w2 _ p Hone). exists p.
    split_and!; try done. apply fresh_lookup.
Qed.

(** X14: a topic created with POST /topics belongs to the requester,
    whatever the body says of a user: it is stored under an unused key
    with the validated columns, the other topics are as before, the
    creator gets it back with GET /topics/{id}, and any other user gets
    404 for it. *)
Theorem created_topic_round_trip w w' request request' u u' db t :
  user request = User u →
  topic_validate None false (data request) = Some t →
  user request' = User u' →
  u' ≠ u →
  let r := exec w (serve_here Topics POST request) db in
  ∃ topic,
    outcome r = inr (mkResponse (PTopic topic) HTTP_201_CREATED) ∧
    row topic =
      mkStudyTopic u (title t) (description t) (subject t) (difficulty t) (status t) ∧
    topics db !! pk topic = None ∧
    final r = with_topics <[pk topic := row topic]> db ∧
    exec w' (serve_here (TopicDetail (pk topic)) GET request) (final r) =
      mkRun [] (final r) (inr (mkResponse (PTopic topic) HTTP_200_OK)) ∧
    answered (exec w' (serve_here (TopicDetail (pk topic)) GET request') (final r)) =
      Some HTTP_404_NOT_FOUND.
Proof.
  intros Hu Hv Hu' Hne r.
  set (topic := mkInstance (fresh (dom (topics db)))
                  (mkStudyTopic u (title t) (description t) (subject t) (difficulty t)
                     (status t))).
  assert (r = mkRun [] (with_topics <[pk topic := row topic]> db)
                (inr (mkResponse (PTopic topic) HTTP_201_CREATED))) as ->.
  { subst r. rewrite (serve_logged_in _ _ _ _ _ _ Hu). simpl.
    unfold StudyTopicListView_create. rewrite Hv, Hu. reflexivity. }
  exists topic. cbn [final outcome].
  split_and!; try done; [apply fresh_lookup|..].
  - rewrite (serve_logged_in _ _ _ _ _ _ Hu). simpl.
    unfold qs_filter, topics_of_user, objects_filter. rewrite select_filter_pk. simpl.
    rewrite lookup_insert_eq, Hu. simpl. by rewrite Z.eqb_refl.
  - rewrite (serve_logged_in _ _ _ _ _ _ Hu'). simpl.
    unfold qs_filter, topics_of_user, objects_filter. rewrite select_filter_pk. simpl.
    rewrite lookup_insert_eq, Hu'. simpl.
    by destruct (Z.eqb_spec u' u).
Qed.

(** X15: what the list views hand to their filters is all the
    requester has and nothing else, each record once: the topics whose
    user is the requester, and the notes whose topic is the
    requester's.  Listing changes nothing. *)
Theorem lists_show_own_records w request u db :
  user request = User u →
  exec w (serve_here Topics GET request) db =
    mkRun [] db
      (inr (mkResponse (PTopics (filter_topics request (topics_of_user request db)))
              HTTP_200_OK)) ∧
  exec w (serve_here Notes GET request) db =
    mkRun [] db
      (inr (mkResponse (PNotes (filter_notes request (notes_of_user request db)))
              HTTP_200_OK)) ∧
  NoDup (topics_of_user request db) ∧
  NoDup (notes_of_user request db) ∧
  (∀ x, x ∈ topics_of_user request db ↔
        topics db !! pk x = Some (row x) ∧ topic_user (row x) = u) ∧
  (∀ x, x ∈ notes_of_user request db ↔
        notes db !! pk x = Some (row x) ∧ note_owner db (row x) = Some u).
Proof.
  intros Hu. split_and!.
  - by rewrite (serve_logged_in _ _ _ _ _ _ Hu).
  - by rewrite (serve_logged_in _ _ _ _ _ _ Hu).
  - apply NoDup_select.
  - apply NoDup_select.
  - intros x. unfold topics_of_user, objects_filter. rewrite elem_of_select, Hu. simpl.
    rewrite Z.eqb_eq. split; intros [H1 H2]; split; congruence.
  - intros x. unfold notes_of_user, objects_filter. rewrite elem_of_select.
    unfold topic__user, note_owner. rewrite Hu.
    destruct (topics db !! note_topic (row x)) as [t|]; simpl.
    + rewrite Z.eqb_eq. split; intros [H1 H2]; split; congruence.
    + split; intros [H1 H2]; done.
Qed.

(** X16: a function view answers the method it is declared for and
    OPTIONS, and nothing else.  With any other method the requester gets
    405.  With OPTIONS the framework answers with the metadata of the
    view (200), or with 405 when the settings name no metadata class.
    In both cases the function is not entered and the store is left as
    it was, so nothing is generated, rated or counted. *)
Theorem function_view_other_method w request u e m m' db :
  user request = User u →
  declared_method e = Some m' →
  m ≠ m' →
  exec w (serve_here e m request) db =
    mkRun [] db
      (inr (if bool_decide (m = OPTIONS) && metadata framework
            then mkResponse PMetadata HTTP_200_OK
            else mkResponse
                   (PDetail ("Method " +:+ quoted (method_name m) +:+ " not allowed."))
                   HTTP_405_METHOD_NOT_ALLOWED)).
Proof.
  intros Hu He Hm. rewrite (serve_logged_in _ _ _ _ _ _ Hu).
  destruct e; try discriminate He; injection He as <-;
    destruct m; try (by destruct Hm); try reflexivity;
    simpl; unfold options; destruct (metadata framework); reflexivity.
Qed.

End Endpoints.

(** ** What rating and viewing leave alone *)

Lemma upsert_only_analytics db (note : Instance StudyNote) x :
  db_wf db →
  only_analytics_of (pk note) db
    (with_analytics <[pk (analytics_row note db) := x]> db).
Proof.
  intros Hwf. split_and!; try done. simpl. intros i a Hi Hne.
  rewrite lookup_insert_ne; [done|]. intros Heq. apply Hne.
  destruct (analytics_query db note Hwf) as [E|E].
  - unfold analytics_row in Heq. rewrite E in Heq. simpl in Heq.
    rewrite <- Heq, fresh_lookup in Hi. done.
  - assert (analytics_row note db ∈ analytics_of_note (pk note) db)
      as [Ha Hk%Z.eqb_eq]%elem_of_select by (rewrite E; left).
    rewrite Heq in Ha. congruence.
Qed.

(** X18: rating a note or viewing it touches the analytics of that note
    and nothing else: the subjects, topics, notes and preferences are as
    before, and so is every analytics row of another note.  A rating
    that is turned down touches nothing at all. *)
Theorem analytics_frame w request note_id db n :
  db_wf db →
  owns_note request db note_id n →
  number_or_null (data_get request "rating") = true →
  only_analytics_of note_id db (final (exec w (rate_note request note_id) db)) ∧
  only_analytics_of note_id db
    (final (exec w (StudyNoteDetailView_retrieve note_id request) db)).
Proof.
  intros Hwf Hown Hnum. split.
  - pose proof (accepted_rating_test _ Hnum) as Htest.
    destruct (accepted_rating (data_get request "rating")) eqn:Hacc.
    + destruct (accepted_rating_stored _ Hacc) as [z Hz].
      rewrite (rate_note_run w _ _ _ _ _ Hwf Hown Hacc Hz).
      apply (upsert_only_analytics db (mkInstance note_id n)). done.
    + rewrite (rate_note_rejected w _ _ _ _ Hown Htest). by split_and!.
  - rewrite (retrieve_step w _ _ _ _ Hwf Hown).
    apply (upsert_only_analytics db (mkInstance note_id n)). done.
Qed.

(** * The further properties on the sample store *)

Lemma sample_no_notes_for_trees : notes_of_topic 11 Sample.db = [].
Proof. vm_compute. reflexivity. Defined.

Lemma sample_site_preference_owner instance partial d p :
  Sample.preference_validate instance partial d = Some p →
  preference_user p = preference_user (row instance).
Proof. by intros [= <-]. Defined.

(** User 1 asks for notes of the topic 12 of user 2. *)
Lemma lifecycle_topic_not_found_witness :
  exec Sample.ai_ok (regenerate_notes (Sample.request 1) 12) Sample.db =
    mkRun [] Sample.db (inr (mkResponse (PError "Topic not found") HTTP_404_NOT_FOUND)).
Proof.
  apply (lifecycle_topic_not_found Sample.ai_ok (Sample.request 1) 12 Sample.db).
  intros t H. vm_compute in H. injection H as <-. reflexivity.
Defined.

(** User 1 regenerates the notes of the topic 11, which has none. *)
Lemma regenerate_without_note_is_generate_witness :
  final (exec Sample.ai_ok (regenerate_notes (Sample.request 1) 11) Sample.db) =
  final (exec Sample.ai_ok (generate_notes (Sample.request 1) 11) Sample.db).
Proof.
  apply (regenerate_without_note_is_generate Sample.ai_ok (Sample.request 1) 11 Sample.db
           Sample.trees sample_db_wf sample_owns_trees sample_no_notes_for_trees).
Defined.

(** User 1 generates notes for the topic 11 twice. *)
Lemma generate_notes_twice_witness :
  answered
    (exec Sample.ai_ok (generate_notes (Sample.request 1) 11)
       (final (exec Sample.ai_ok (generate_notes (Sample.request 1) 11) Sample.db))) =
  Some HTTP_400_BAD_REQUEST.
Proof.
  rewrite (generate_notes_twice Sample.ai_ok Sample.ai_ok (Sample.request 1) 11 Sample.db
             Sample.trees Sample.result sample_db_wf sample_owns_trees
             sample_no_notes_for_trees ltac:(reflexivity)).
  reflexivity.
Defined.

(** The AI service is down, then up, when user 1 generates notes for the
    topic 11. *)
Lemma generate_notes_retry_witness :
  answered
    (exec Sample.ai_ok (generate_notes (Sample.request 1) 11)
       (final (exec Sample.ai_down (generate_notes (Sample.request 1) 11) Sample.db))) =
  Some HTTP_201_CREATED.
Proof.
  destruct (generate_notes_retry Sample.ai_down Sample.ai_ok (Sample.request 1) 11 Sample.db
              Sample.trees Sample.failure Sample.result sample_db_wf sample_owns_trees
              sample_no_notes_for_trees ltac:(reflexivity) ltac:(reflexivity)
              ltac:(reflexivity))
    as (_ & note & H & _).
  unfold answered. rewrite H. reflexivity.
Defined.

(** Regenerating the notes of the topic 10 leaves the topic 12 alone,
    and of the topic 10 it changes the status only. *)
Lemma lifecycle_frame_witness :
  topics (final (exec Sample.ai_ok (regenerate_notes (Sample.request 1) 10) Sample.db)) !! 12
    = Some Sample.sets ∧
  topic_after 10 Sample.graphs (inr Sample.result)
    (final (exec Sample.ai_ok (regenerate_notes (Sample.request 1) 10) Sample.db)).
Proof.
  destruct (lifecycle_frame Sample.ai_ok (Sample.request 1) 10 Sample.db Sample.graphs
              sample_db_wf sample_owns_graphs) as (_ & (_ & _ & H & _) & H').
  split; [|exact H'].
  rewrite H; [reflexivity|discriminate].
Defined.

(** The store holds no preferences: the AI service is handed none. *)
Lemma generator_gets_own_preferences_witness :
  ∃ c, calls (exec Sample.ai_ok (regenerate_notes (Sample.request 1) 10) Sample.db) = [c] ∧
       call_preferences c = None.
Proof.
  destruct (generator_gets_own_preferences Sample.ai_ok (Sample.request 1) 1 10 Sample.db
              Sample.graphs ltac:(reflexivity) sample_db_wf sample_owns_graphs)
    as (_ & c & Hc & Hown).
  exists c. split; [exact Hc|].
  destruct (call_preferences c) as [p|]; [|reflexivity].
  destruct Hown as [Hp _]. vm_compute in Hp. discriminate Hp.
Defined.

(** User 1 has two topics, one completed and one pending. *)
Lemma topic_analytics_counts_witness :
  ∃ c,
    outcome (exec Sample.ai_ok (topic_analytics (Sample.request 1)) Sample.db) =
      inr (mkResponse (PCounts c) HTTP_200_OK) ∧
    total_topics c = 2%nat ∧
    (completed_topics c + pending_topics c + processing_topics c + failed_topics c)%nat
      = total_topics c.
Proof.
  destruct (topic_analytics_counts Sample.ai_ok (Sample.request 1) 1 Sample.db
              ltac:(reflexivity))
    as (c & Hrun & Htotal & _ & _ & _ & _ & _ & _ & _ & _ & Hsum & _).
  exists c. split_and!.
  - by rewrite Hrun.
  - rewrite Htotal. vm_compute. reflexivity.
  - apply Hsum. apply (bool_decide_unpack _). vm_compute. exact I.
Defined.

(** User 1 rates the note 5 with the text 5. *)
Lemma rate_note_type_error_witness :
  ∃ e, exec Sample.ai_ok (rate_note (Sample.rating 1 (Py.Str "5")) 5) Sample.db =
         mkRun [] Sample.db (inl e) ∧
       exn_class e = TypeError.
Proof.
  exact (rate_note_type_error Sample.ai_ok (Sample.rating 1 (Py.Str "5")) 5 Sample.db
           Sample.graphs_note (sample_owns_note _) ltac:(reflexivity)).
Defined.

(** User 1 rates the note 5 with 4 and views it. *)
Lemma rate_and_view_commute_witness :
  final (exec Sample.ai_ok (StudyNoteDetailView_retrieve 5 (Sample.rating 1 (Py.Int 4)))
           (final (exec Sample.ai_ok (rate_note (Sample.rating 1 (Py.Int 4)) 5) Sample.db))) =
  final (exec Sample.ai_ok (rate_note (Sample.rating 1 (Py.Int 4)) 5)
           (final (exec Sample.ai_ok
                     (StudyNoteDetailView_retrieve 5 (Sample.rating 1 (Py.Int 4)))
                     Sample.db))).
Proof.
  apply (rate_and_view_commute Sample.ai_ok Sample.ai_ok (Sample.rating 1 (Py.Int 4)) 5
           Sample.db Sample.graphs_note 4 sample_db_wf (sample_owns_note _)
           ltac:(reflexivity) ltac:(reflexivity)).
Defined.

(** User 1 rates the note 5 with 2, then with 5. *)
Lemma last_rating_wins_witness :
  final (exec Sample.ai_ok (rate_note (Sample.rating 1 (Py.Int 5)) 5)
           (final (exec Sample.ai_ok (rate_note (Sample.rating 1 (Py.Int 2)) 5) Sample.db))) =
  final (exec Sample.ai_ok (rate_note (Sample.rating 1 (Py.Int 5)) 5) Sample.db).
Proof.
  exact (last_rating_wins Sample.ai_ok Sample.ai_ok (Sample.rating 1 (Py.Int 2))
           (Sample.rating 1 (Py.Int 5)) 5 Sample.db Sample.graphs_note 2 5 sample_db_wf
           (sample_owns_note _) (sample_owns_note _)
           ltac:(reflexivity) ltac:(reflexivity) ltac:(reflexivity) ltac:(reflexivity)).
Defined.

(** User 1 rates the note 5 with 3 before anyone viewed it. *)
Lemma first_rating_creates_row_witness :
  analytics_of_note 5
    (final (exec Sample.ai_ok (rate_note (Sample.rating 1 (Py.Int 3)) 5) Sample.db_unviewed)) =
  [mkInstance (fresh (dom (analytics Sample.db_unviewed)))
     (mkNoteAnalytics 5 0 None (Some 3))].
Proof.
  apply (first_rating_creates_row Sample.ai_ok (Sample.rating 1 (Py.Int 3)) 5
           Sample.db_unviewed Sample.graphs_note 3 sample_db_unviewed_wf
           ltac:(split; reflexivity) ltac:(reflexivity) ltac:(reflexivity)
           ltac:(vm_compute; reflexivity)).
Defined.

(** User 2 asks for the note 5 of user 1, and rates it. *)
Lemma foreign_note_not_found_witness :
  exec Sample.ai_ok (Sample.site (NoteDetail 5) GET (Sample.request 2)) Sample.db =
    mkRun [] Sample.db (inr (mkResponse (PDetail "Not found.") HTTP_404_NOT_FOUND)) ∧
  exec Sample.ai_ok (Sample.site (NoteRate 5) POST (Sample.rating 2 (Py.Int 4))) Sample.db =
    mkRun [] Sample.db (inr (mkResponse (PError "Note not found") HTTP_404_NOT_FOUND)).
Proof.
  split.
  - apply (foreign_note_not_found Sample.framework (λ _ l, l) (λ _ l, l) (λ _ l, l)
             Sample.topic_validate Sample.preference_validate []
             Sample.ai_ok (Sample.request 2) 2 5 Sample.db ltac:(reflexivity)).
    intros n H. vm_compute in H. injection H as <-. reflexivity.
  - apply (foreign_note_not_found Sample.framework (λ _ l, l) (λ _ l, l) (λ _ l, l)
             Sample.topic_validate Sample.preference_validate []
             Sample.ai_ok (Sample.rating 2 (Py.Int 4)) 2 5 Sample.db ltac:(reflexivity)).
    intros n H. vm_compute in H. injection H as <-. reflexivity.
Defined.

(** User 1 asks for the preferences twice. *)
Lemma preferences_created_once_witness :
  final (exec Sample.ai_ok (Sample.site Preferences GET (Sample.request 1))
           (final (exec Sample.ai_ok (Sample.site Preferences GET (Sample.request 1))
                     Sample.db))) =
  final (exec Sample.ai_ok (Sample.site Preferences GET (Sample.request 1)) Sample.db).
Proof.
  destruct (preferences_created_once Sample.framework (λ _ l, l) (λ _ l, l) (λ _ l, l)
              Sample.topic_validate Sample.preference_validate []
              Sample.ai_ok Sample.ai_ok (Sample.request 1) 1 Sample.db
              ltac:(reflexivity) sample_db_wf)
    as (p & _ & _ & _ & _ & _ & H).
  exact H.
Defined.

(** User 1 creates the topic Heaps; user 2 asks for it. *)
Lemma created_topic_round_trip_witness :
  ∃ topic,
    outcome (exec Sample.ai_ok
               (Sample.site Topics POST (mkRequest (User 1) {["title" := Py.Str "Heaps"]}))
               Sample.db) =
      inr (mkResponse (PTopic topic) HTTP_201_CREATED) ∧
    topic_user (row topic) = 1 ∧
    answered
      (exec Sample.ai_ok (Sample.site (TopicDetail (pk topic)) GET (Sample.request 2))
         (final (exec Sample.ai_ok
                   (Sample.site Topics POST
                      (mkRequest (User 1) {["title" := Py.Str "Heaps"]}))
                   Sample.db))) =
      Some HTTP_404_NOT_FOUND.
Proof.
  destruct (created_topic_round_trip Sample.framework (λ _ l, l) (λ _ l, l) (λ _ l, l)
              Sample.topic_validate Sample.preference_validate []
              Sample.ai_ok Sample.ai_ok
              (mkRequest (User 1) {["title" := Py.Str "Heaps"]}) (Sample.request 2)
              1 2 Sample.db (mkStudyTopic 0 "Heaps" EmptyString 1 "beginner" "pending")
              ltac:(reflexivity) ltac:(reflexivity) ltac:(reflexivity) ltac:(discriminate))
    as (topic & H1 & H2 & _ & _ & _ & H6).
  exists topic. split_and!; [exact H1| by rewrite H2 |exact H6].
Defined.

(** User 1 lists the topics: the topic 12 of user 2 is not handed to the
    filters. *)
Lemma lists_show_own_records_witness :
  (mkInstance 12 Sample.sets ∉ topics_of_user (Sample.request 1) Sample.db) ∧
  (mkInstance 11 Sample.trees ∈ topics_of_user (Sample.request 1) Sample.db).
Proof.
  destruct (lists_show_own_records Sample.framework (λ _ l, l) (λ _ l, l) (λ _ l, l)
              Sample.topic_validate Sample.preference_validate []
              Sample.ai_ok (Sample.request 1) 1 Sample.db ltac:(reflexivity))
    as (_ & _ & _ & _ & H & _).
  split.
  - intros [_ Hu]%H. discriminate Hu.
  - apply H. split; reflexivity.
Defined.

(** User 1 sends a GET to the generation of the topic 11. *)
Lemma function_view_other_method_witness :
  answered (exec Sample.ai_ok (Sample.site (TopicGenerate 11) GET (Sample.request 1))
              Sample.db) =
  Some HTTP_405_METHOD_NOT_ALLOWED ∧
  exec Sample.ai_ok (Sample.site (TopicGenerate 11) OPTIONS (Sample.request 1)) Sample.db =
    mkRun [] Sample.db (inr (mkResponse PMetadata HTTP_200_OK)).
Proof.
  unfold Sample.site. split.
  - rewrite (function_view_other_method Sample.framework (λ _ l, l) (λ _ l, l) (λ _ l, l)
               Sample.topic_validate Sample.preference_validate []
               Sample.ai_ok (Sample.request 1) 1 (TopicGenerate 11) GET POST Sample.db
               ltac:(reflexivity) ltac:(reflexivity) ltac:(discriminate)).
    reflexivity.
  - exact (function_view_other_method Sample.framework (λ _ l, l) (λ _ l, l) (λ _ l, l)
             Sample.topic_validate Sample.preference_validate []
             Sample.ai_ok (Sample.request 1) 1 (TopicGenerate 11) OPTIONS POST Sample.db
             ltac:(reflexivity) ltac:(reflexivity) ltac:(discriminate)).
Defined.

(** The sample store after user 1 regenerated the notes of the topic 10. *)
Lemma serve_keeps_wf_witness :
  db_wf (final (exec Sample.ai_ok (Sample.site (TopicRegenerate 10) POST (Sample.request 1))
                  Sample.db)).
Proof.
  exact (serve_keeps_wf Sample.framework (λ _ l, l) (λ _ l, l) (λ _ l, l)
           Sample.topic_validate Sample.preference_validate []
           sample_site_preference_owner
           Sample.ai_ok (TopicRegenerate 10) POST (Sample.request 1) Sample.db sample_db_wf).
Defined.

(** Rating the note 5 leaves the topics as they were. *)
Lemma analytics_frame_witness :
  topics (final (exec Sample.ai_ok (rate_note (Sample.rating 1 (Py.Int 4)) 5) Sample.db)) =
  topics Sample.db.
Proof.
  destruct (analytics_frame Sample.ai_ok (Sample.rating 1 (Py.Int 4)) 5 Sample.db
              Sample.graphs_note sample_db_wf (sample_owns_note _) ltac:(reflexivity))
    as [(_ & H & _) _].
  exact H.
Defined.
